(** * Affiliate niche finder: analysis pipeline and composite scoring

    A shallow embedding of the analysis modules of the niche finder
    ([demand_analysis.py], [competition_analysis.py], [social_analysis.py])
    and of [calculate_final_scores] from [dashboard.py].

    Conventions of the embedding:
    - a Python [str] is the list of its Unicode code points, so [len] and
      character iteration are those of Python;
    - values of unknown type (the genre payload, provider responses) live in
      the dynamic universe [value];
    - Python floats are read as exact rationals ([Q]): every formula is the
      one of the source, without binary rounding;
    - a Python [dict] is an insertion-ordered association list with unique
      keys;
    - the standard library ([hashlib], [random], [json]) and the network
      clients are an interface ([Runtime], [Providers]) with the contracts
      their documentation gives. *)

From Stdlib Require Import ZArith NArith QArith Qround Qminmax Qabs.
From Stdlib Require Import List String Ascii Bool Lia Lqa.
Import ListNotations.

Set Warnings "-register-all".
Local Open Scope Z_scope.

(** ** Python strings *)

Module PyStr.

(** A [str]: the sequence of its code points. *)
Definition str := list N.

Definition bytes_of_string (s : string) : list N :=
  List.map N_of_ascii (list_ascii_of_string s).

(** UTF-8 decoding of the bytes of a literal of this file. *)
Fixpoint decode_utf8 (bs : list N) : str :=
  match bs with
  | [] => []
  | b :: rest =>
      if (b <? 128)%N then b :: decode_utf8 rest
      else if (b <? 224)%N then
        match rest with
        | c1 :: r =>
            N.lor (N.shiftl (N.land b 31) 6) (N.land c1 63) :: decode_utf8 r
        | _ => []
        end
      else if (b <? 240)%N then
        match rest with
        | c1 :: c2 :: r =>
            N.lor (N.shiftl (N.land b 15) 12)
              (N.lor (N.shiftl (N.land c1 63) 6) (N.land c2 63))
            :: decode_utf8 r
        | _ => []
        end
      else
        match rest with
        | c1 :: c2 :: c3 :: r =>
            N.lor (N.shiftl (N.land b 7) 18)
              (N.lor (N.shiftl (N.land c1 63) 12)
                 (N.lor (N.shiftl (N.land c2 63) 6) (N.land c3 63)))
            :: decode_utf8 r
        | _ => []
        end
  end.

(** The [str] written by a literal of this file. *)
Definition py (s : string) : str := decode_utf8 (bytes_of_string s).

(** [c.encode()] for one code point; a lone surrogate has no UTF-8 form
    ([UnicodeEncodeError]). *)
Definition encode_char (c : N) : option (list N) :=
  if (c <? 128)%N then Some [c]
  else if (c <? 2048)%N then
    Some [N.lor 192 (N.shiftr c 6); N.lor 128 (N.land c 63)]
  else if ((55296 <=? c) && (c <=? 57343))%N then None
  else if (c <? 65536)%N then
    Some [N.lor 224 (N.shiftr c 12);
          N.lor 128 (N.land (N.shiftr c 6) 63);
          N.lor 128 (N.land c 63)]
  else if (c <? 1114112)%N then
    Some [N.lor 240 (N.shiftr c 18);
          N.lor 128 (N.land (N.shiftr c 12) 63);
          N.lor 128 (N.land (N.shiftr c 6) 63);
          N.lor 128 (N.land c 63)]
  else None.

(** [keyword.encode()]: UTF-8, or [None] for [UnicodeEncodeError]. *)
Fixpoint encode (s : str) : option (list N) :=
  match s with
  | [] => Some []
  | c :: rest =>
      match encode_char c, encode rest with
      | Some b, Some bs => Some (b ++ bs)
      | _, _ => None
      end
  end.

Fixpoint str_eqb (a b : str) : bool :=
  match a, b with
  | [], [] => true
  | x :: a', y :: b' => (x =? y)%N && str_eqb a' b'
  | _, _ => false
  end.

Fixpoint starts_with (word s : str) : bool :=
  match word, s with
  | [], _ => true
  | x :: w', y :: s' => (x =? y)%N && starts_with w' s'
  | _ :: _, [] => false
  end.

(** [word in s] for two strings: substring test. *)
Fixpoint contains (word s : str) : bool :=
  starts_with word s ||
  match s with
  | [] => false
  | _ :: s' => contains word s'
  end.

(** The characters of a string, each a one-character string. *)
Definition chars (s : str) : list str := List.map (fun c => [c]) s.

End PyStr.
Export PyStr.

(** ** Dynamic values, dictionaries and exceptions *)

Module Py.

(** The values a genre payload or a provider response is made of: what
    [json.loads] returns, which is also what a caller builds by hand. *)
Inductive value : Type :=
| VNone
| VBool (b : bool)
| VInt (n : Z)
| VFloat (x : Q)
| VStr (s : str)
| VList (items : list value)
| VDict (items : list (str * value)).

Inductive exn : Type :=
| TypeError
| AttributeError
| UnicodeEncodeError
| ValueError
| ProviderError (code : N).

Inductive outcome (A : Type) : Type :=
| Ok (a : A)
| Raise (e : exn).
Arguments Ok {A} a.
Arguments Raise {A} e.

(** [bool(v)], the test of [if v:] and [if not v:]. *)
Definition truthy (v : value) : bool :=
  match v with
  | VNone => false
  | VBool b => b
  | VInt n => negb (n =? 0)
  | VFloat x => negb (Qeq_bool x 0)
  | VStr s => match s with [] => false | _ => true end
  | VList l => match l with [] => false | _ => true end
  | VDict d => match d with [] => false | _ => true end
  end.

Definition is_list (v : value) : bool :=
  match v with VList _ => true | _ => false end.

(** [isinstance(v, (int, float, str))]; [bool] is a subclass of [int]. *)
Definition is_int_float_str (v : value) : bool :=
  match v with
  | VBool _ | VInt _ | VFloat _ | VStr _ => true
  | _ => false
  end.

(** The number a value stands for in arithmetic, when it is one. *)
Definition num_of (v : value) : option Q :=
  match v with
  | VBool b => Some (if b then 1%Q else 0%Q)
  | VInt n => Some (inject_Z n)
  | VFloat x => Some x
  | _ => None
  end.

(** [for x in v]: the items [v] yields, [TypeError] when [v] is not
    iterable. A string yields its characters, a dict its keys. *)
Definition py_iter (v : value) : outcome (list value) :=
  match v with
  | VList l => Ok l
  | VStr s => Ok (List.map VStr (chars s))
  | VDict d => Ok (List.map (fun kv => VStr (fst kv)) d)
  | _ => Raise TypeError
  end.

(** *** Dictionaries with string keys (the payload of [VDict]) *)

Definition pydict := list (str * value).

Fixpoint pydict_find (d : pydict) (k : str) : option value :=
  match d with
  | [] => None
  | (k', v) :: d' => if str_eqb k' k then Some v else pydict_find d' k
  end.

(** [d.get(k, default)]. *)
Definition pydict_get (d : pydict) (k : str) (default : value) : value :=
  match pydict_find d k with
  | Some v => v
  | None => default
  end.

(** [data.get(k, default)] on a value of unknown type: only a dict has
    [get]. *)
Definition value_get (data : value) (k : str) (default : value)
  : outcome value :=
  match data with
  | VDict d => Ok (pydict_get d k default)
  | _ => Raise AttributeError
  end.

(** *** Dictionaries keyed by arbitrary hashable values *)

Definition hashable (k : value) : bool :=
  match k with
  | VList _ | VDict _ => false
  | _ => true
  end.

(** Key equality: [==] on hashable values. Numbers compare across
    [bool], [int] and [float]. *)
Definition key_eqb (a b : value) : bool :=
  match a, b with
  | VStr s, VStr t => str_eqb s t
  | VNone, VNone => true
  | _, _ =>
      match num_of a, num_of b with
      | Some x, Some y => Qeq_bool x y
      | _, _ => false
      end
  end.

(** An insertion-ordered dict: one pair per key, in order of first
    insertion. *)
Definition odict (V : Type) := list (value * V).

Fixpoint dict_find {V : Type} (d : odict V) (k : value) : option V :=
  match d with
  | [] => None
  | (k', v) :: d' => if key_eqb k' k then Some v else dict_find d' k
  end.

Definition dict_mem {V : Type} (d : odict V) (k : value) : bool :=
  match dict_find d k with Some _ => true | None => false end.

(** The effect of [d[k] = v] on a hashable key: overwrite in place, or
    append. *)
Fixpoint dict_set {V : Type} (d : odict V) (k : value) (v : V) : odict V :=
  match d with
  | [] => [(k, v)]
  | (k', v') :: d' =>
      if key_eqb k' k then (k', v) :: d' else (k', v') :: dict_set d' k v
  end.

Definition dict_keys {V : Type} (d : odict V) : list value := List.map fst d.

Definition dict_values {V : Type} (d : odict V) : list V := List.map snd d.

(** [d[k] = v]: [TypeError] (unhashable type) for a list or dict key. *)
Definition setitem {V : Type} (d : odict V) (k : value) (v : V)
  : outcome (odict V) :=
  if hashable k then Ok (dict_set d k v) else Raise TypeError.

(** [d.get(k, default)] / [k in d]: hashing the key comes first. *)
Definition getitem {V : Type} (d : odict V) (k : value) (default : V)
  : outcome V :=
  if hashable k then
    Ok (match dict_find d k with Some v => v | None => default end)
  else Raise TypeError.

(** *** Numbers *)

Fixpoint Qsum (l : list Q) : Q :=
  match l with
  | [] => 0%Q
  | x :: l' => (x + Qsum l')%Q
  end.

(** [sum(l)] of values: [TypeError] on anything that is not a number. *)
Fixpoint py_sum (l : list value) : outcome Q :=
  match l with
  | [] => Ok 0%Q
  | v :: l' =>
      match num_of v, py_sum l' with
      | Some x, Ok s => Ok (x + s)%Q
      | None, _ => Raise TypeError
      | _, Raise e => Raise e
      end
  end.

(** [int(x)] on a float: truncation toward zero. *)
Definition py_int (x : Q) : Z := Z.quot (Qnum x) (Zpos (Qden x)).

(** Rounding to the nearest integer, ties to even. *)
Definition round_half_even (x : Q) : Z :=
  let f := Qfloor x in
  let r := (x - inject_Z f)%Q in
  match (r ?= (1 # 2))%Q with
  | Lt => f
  | Gt => f + 1
  | Eq => if Z.even f then f else f + 1
  end.

(** [round(x, ndigits)] on a float. *)
Definition py_round (x : Q) (ndigits : nat) : Q :=
  let scale := inject_Z (10 ^ Z.of_nat ndigits) in
  (inject_Z (round_half_even (x * scale)) / scale)%Q.

End Py.
Export Py.

(** ** The interpreter's world: standard library and network *)

(** What [pytrends.interest_over_time()] returns, as far as the analysis
    reads it: the keyword columns with their series of values. The empty
    list is a frame whose [.empty] is true; a series has at least one
    value. *)
Definition dataframe := list (str * (Q * list Q)).

(** The parts of the run that are not code of the repository. None of the
    fields carries an assumption: the ranges that [random] documents are
    enforced where the draws are used ([random_random], [randbelow]). *)
Class Runtime : Type := {
  (** state of the module-level generator of [random] *)
  rng : Type;
  (** state of everything reached over the network *)
  net : Type;
  (** [int(hashlib.md5(b).hexdigest(), 16)] *)
  md5_int : list N -> Z;
  (** the generator state [random.seed(n)] installs *)
  seeded : Z -> rng;
  (** the 53 bits behind one call of [random.random()] *)
  next_bits53 : rng -> N * rng;
  (** the draw behind one call of [_randbelow(n)] *)
  next_below : Z -> rng -> Z * rng;
  (** [json.loads(s)]; [None] when it raises *)
  json_loads : str -> option value;
  (** [TrendReq(hl='ja-JP', tz=540)]: opens a session, may raise *)
  trend_req : net -> outcome unit * net;
  (** [build_payload(group, ...)] then [interest_over_time()] *)
  interest_over_time : value -> net -> outcome dataframe * net
}.

(** A world: the state of the generator and the state of the network. *)
Record world_of (R N : Type) : Type := World { rng_state : R; net_state : N }.
Arguments World {R N} _ _.
Arguments rng_state {R N} _.
Arguments net_state {R N} _.

Section Monad.

Context {RT : Runtime}.

Definition world : Type := world_of rng net.

(** A computation: runs in a world, returns or raises, leaves a world. The
    effects made before an exception are kept, as in Python. *)
Definition M (A : Type) : Type := world -> outcome A * world.

Definition ret {A : Type} (a : A) : M A := fun w => (Ok a, w).

Definition raise {A : Type} (e : exn) : M A := fun w => (Raise e, w).

Definition bind {A B : Type} (m : M A) (k : A -> M B) : M B :=
  fun w =>
    match m w with
    | (Ok a, w') => k a w'
    | (Raise e, w') => (Raise e, w')
    end.

(** [try: m  except Exception as e: h e]. *)
Definition try_except {A : Type} (m : M A) (h : exn -> M A) : M A :=
  fun w =>
    match m w with
    | (Ok a, w') => (Ok a, w')
    | (Raise e, w') => h e w'
    end.

Definition lift {A : Type} (o : outcome A) : M A := fun w => (o, w).

(** An effect on the generator of [random]. *)
Definition with_rng {A : Type} (f : rng -> A * rng) : M A :=
  fun w =>
    let (a, r) := f (rng_state w) in
    (Ok a, World r (net_state w)).

(** An effect on the network. *)
Definition with_net {A : Type} (f : net -> outcome A * net) : M A :=
  fun w =>
    let (o, n) := f (net_state w) in
    (o, World (rng_state w) n).

End Monad.

Declare Scope py_scope.
Delimit Scope py_scope with py.
Notation "x <- c ;; k" := (bind c (fun x => k))
  (at level 100, c at next level, right associativity) : py_scope.
Notation "c ;;; k" := (bind c (fun _ => k))
  (at level 100, right associativity) : py_scope.
Local Open Scope py_scope.

(** ** The [random] module, as [Lib/random.py] defines it over the draws *)

Section Random.

Context {RT : Runtime}.

(** [random.seed(n)] *)
Definition random_seed (n : Z) : M unit :=
  with_rng (fun _ => (tt, seeded n)).

(** One draw of [random.random()] on a generator state: a multiple of
    [2^-53] in [[0, 1)]. *)
Definition unit_draw (s : rng) : Q * rng :=
  let (bits, s') := next_bits53 s in
  (inject_Z (Z.of_N (bits mod 2 ^ 53)) / inject_Z (2 ^ 53), s')%Q.

(** [random.random()] *)
Definition random_random : M Q := with_rng unit_draw.

(** [random.uniform(a, b)]: [a + (b - a) * random()]. *)
Definition random_uniform (a b : Q) : M Q :=
  u <- random_random ;;
  ret (a + (b - a) * u)%Q.

(** [_randbelow(n)] for [n > 0]: an integer of [[0, n)]. *)
Definition randbelow (n : Z) : M Z :=
  with_rng (fun s =>
    let (r, s') := next_below n s in
    (r mod n, s')).

(** [random.randint(a, b)]: [a + _randbelow(b - a + 1)]. *)
Definition random_randint (a b : Z) : M Z :=
  r <- randbelow (b - a + 1) ;;
  ret (a + r).

(** [bisect.bisect_right(cum, x, 0, hi)] on an increasing [cum]. *)
Fixpoint bisect_right (cum : list Q) (x : Q) (hi : nat) : nat :=
  match hi, cum with
  | S hi', c :: cum' =>
      if Qle_bool c x then S (bisect_right cum' x hi') else O
  | _, _ => O
  end.

Fixpoint accumulate (acc : Q) (weights : list Q) : list Q :=
  match weights with
  | [] => []
  | w :: ws => (acc + w)%Q :: accumulate (acc + w)%Q ws
  end.

(** [random.choices(population, weights=weights, k=1)[0]], for a
    non-empty population whose default is its first element. *)
Definition random_choices1 {A : Type} (default : A) (population : list A)
  (weights : list Q) : M A :=
  let cum_weights := accumulate 0 weights in
  let total := List.last cum_weights 0%Q in
  let hi := (List.length population - 1)%nat in
  u <- random_random ;;
  ret (List.nth (bisect_right cum_weights (u * total)%Q hi) population default).

End Random.

(** ** Constants of the source *)

Module Keys.

Definition k_genre_name : str := Eval vm_compute in py "ジャンル名".
Definition k_keywords : str := Eval vm_compute in py "関連するキーワード例".
Definition k_genres : str := Eval vm_compute in py "genres".
Definition k_genre : str := Eval vm_compute in py "ジャンル".
Definition k_results : str := Eval vm_compute in py "results".
Definition k_data : str := Eval vm_compute in py "data".

Definition k_difficulty : str := Eval vm_compute in py "難易度".
Definition k_competitors : str := Eval vm_compute in py "競合サイト数".
Definition k_source : str := Eval vm_compute in py "データソース".
Definition k_keyword_difficulty : str := Eval vm_compute in py "キーワード難易度".
Definition s_mock : str := Eval vm_compute in py "モックデータ".
Definition s_semrush : str := Eval vm_compute in py "Semrush".
Definition s_ubersuggest : str := Eval vm_compute in py "Ubersuggest".

Definition k_tweets : str := Eval vm_compute in py "総ツイート数".
Definition k_engagement : str := Eval vm_compute in py "平均エンゲージメント率".
Definition k_sentiment : str := Eval vm_compute in py "感情傾向".
Definition s_twitter_api : str := Eval vm_compute in py "Twitter API".

Definition s_positive : str := Eval vm_compute in py "ポジティブ".
Definition s_slightly_positive : str := Eval vm_compute in py "やや肯定的".
Definition s_neutral : str := Eval vm_compute in py "中立".
Definition s_slightly_negative : str := Eval vm_compute in py "やや否定的".
Definition s_negative : str := Eval vm_compute in py "ネガティブ".

End Keys.
Export Keys.

(** ** The genre loop shared by the three analyzers

    [analyze_demand], [analyze_genre_competition] and [analyze_genre_social]
    open with the same text (conversion of the payload, the scalar guard,
    the loop over the entries with its two filters) and differ in the
    analysis of one genre. The section embeds that text once, over the
    analysis of one genre. *)

(** The result an analyzer stores for one genre: the name, the per-keyword
    entries and the score of the axis. The three analyzers use the keys
    [キーワード分析]/[需要スコア], [キーワード競合分析]/[競合の少なさスコア]
    and [SNS分析]/[SNSスコア] for the last two. *)
Record genre_result (E : Type) : Type := GenreResult {
  result_name : value;
  result_entries : odict E;
  result_score : Q
}.
Arguments GenreResult {E} _ _ _.
Arguments result_name {E} _.
Arguments result_entries {E} _.
Arguments result_score {E} _.

Section GenreLoop.

Context {RT : Runtime}.
Context {E : Type}.

(** The analysis of one genre: from [genre_name] and [keywords] to the
    [genre_result] that is stored under [genre_name]. *)
Variable analyze_one : value -> value -> M (genre_result E).

(** The first of the keys [genres], [ジャンル], [results], [data] that is
    bound to a list. *)
Fixpoint find_genre_list (d : pydict) (keys : list str) : option (list value) :=
  match keys with
  | [] => None
  | key :: keys' =>
      match pydict_find d key with
      | Some (VList l) => Some l
      | _ => find_genre_list d keys'
      end
  end.

Definition genre_list_keys : list str := [k_genres; k_genre; k_results; k_data].

(** The body of [if not isinstance(genres, list): try: ...]; [None] is the
    [except] branch, taken when [json.loads] raises. *)
Definition convert_genres (genres : value) : option value :=
  if is_list genres then Some genres
  else
    let parsed :=
      match genres with
      | VStr s => json_loads s
      | _ => Some genres
      end in
    match parsed with
    | None => None
    | Some (VDict d) =>
        match find_genre_list d genre_list_keys with
        | Some l => Some (VList l)
        | None => Some (VList [VDict d])
        end
    | Some g => Some g
    end.

(** [genre_name] and [keywords] of one entry; [None] for an entry that is
    neither a dict nor a string, which the loop skips. *)
Definition genre_fields (genre : value) : option (value * value) :=
  match genre with
  | VDict d =>
      Some (pydict_get d k_genre_name (VStr []),
            pydict_get d k_keywords (VList []))
  | VStr s => Some (VStr s, VList [VStr s])
  | _ => None
  end.

(** [for genre in genres: ...  all_results[genre_name] = genre_result]. *)
Fixpoint genre_loop (genres : list value)
  (all_results : odict (genre_result E)) : M (odict (genre_result E)) :=
  match genres with
  | [] => ret all_results
  | genre :: rest =>
      match genre_fields genre with
      | None => genre_loop rest all_results
      | Some (genre_name, keywords) =>
          if negb (truthy genre_name) then genre_loop rest all_results
          else if negb (truthy keywords) then genre_loop rest all_results
          else
            genre_result <- analyze_one genre_name keywords ;;
            all_results' <- lift (setitem all_results genre_name genre_result) ;;
            genre_loop rest all_results'
      end
  end.

(** An analyzer, from the payload to [all_results]. *)
Definition analyze_genres (genres : value) : M (odict (genre_result E)) :=
  match convert_genres genres with
  | None => ret []
  | Some genres =>
      if is_int_float_str genres then ret []
      else
        entries <- lift (py_iter genres) ;;
        genre_loop entries []
  end.

End GenreLoop.

(** ** External data providers

    [get_semrush_data], [get_ubersuggest_data] and [get_twitter_data] stand
    for HTTP clients: in the source the request is left as a comment and the
    body returns the mock. The analysis loops are embedded over arbitrary
    fetchers, which may raise and may return anything; [source_providers]
    below gives the bodies the source has today. *)
Class Providers {RT : Runtime} : Type := {
  semrush_fetch : value -> value -> M value;
  ubersuggest_fetch : value -> value -> M value;
  twitter_fetch : value -> value -> M value
}.

(** ** competition_analysis.py *)

Section Competition.

Context {RT : Runtime}.

Definition common_keywords : list str :=
  Eval vm_compute in
    [py "方法"; py "やり方"; py "おすすめ"; py "ランキング"; py "比較"].

(** [sum([1 for word in common_keywords if word in keyword]) * 10] *)
Definition common_factor (keyword : str) : Z :=
  Z.of_nat (List.length (List.filter (fun word => contains word keyword)
                           common_keywords)) * 10.

(** [len(keyword) / 10] *)
Definition length_factor (keyword : str) : Q :=
  (inject_Z (Z.of_nat (List.length keyword)) / 10)%Q.

(** [min(100, max(0, base_difficulty + common_factor - length_factor))] *)
Definition difficulty_of (keyword : str) (base_difficulty : Q) : Q :=
  Qmin 100
    (Qmax 0 (base_difficulty + inject_Z (common_factor keyword)
             - length_factor keyword)).

(** [int(difficulty * 1000 + u)], [u] the second draw. *)
Definition competitors_of (difficulty u : Q) : Z :=
  py_int (difficulty * 1000 + u).

(** The dict [mock_competition_data] returns for the two draws. *)
Definition competition_metric (keyword : str) (base_difficulty u : Q)
  : pydict :=
  let difficulty := difficulty_of keyword base_difficulty in
  let competitors := competitors_of difficulty u in
  [(k_difficulty, VFloat (py_round difficulty 1));
   (k_competitors, VInt competitors);
   (k_source, VStr s_mock)].

(** [mock_competition_data(keyword)]. A keyword that is not a [str] has no
    [encode] ([AttributeError]). *)
Definition mock_competition_data (keyword : value) : M pydict :=
  match keyword with
  | VStr k =>
      match encode k with
      | None => raise UnicodeEncodeError
      | Some bytes =>
          let hash_int := md5_int bytes in
          random_seed hash_int ;;;
          base_difficulty <- random_uniform 0 100 ;;
          u <- random_uniform 0 10000 ;;
          ret (competition_metric k base_difficulty u)
      end
  | _ => raise AttributeError
  end.

(** The bodies the source gives the two fetchers. *)
Definition get_semrush_data (keyword api_key : value) : M value :=
  d <- mock_competition_data keyword ;;
  ret (VDict d).

Definition get_ubersuggest_data (keyword api_key : value) : M value :=
  d <- mock_competition_data keyword ;;
  ret (VDict d).

Context {P : Providers}.

(** The dict stored for a keyword whose provider answered. *)
Definition provider_entry (data : value) (source : str) : M pydict :=
  difficulty <- lift (value_get data k_difficulty (VInt 0)) ;;
  competitors <- lift (value_get data k_competitors (VInt 0)) ;;
  ret [(k_keyword_difficulty, difficulty);
       (k_competitors, competitors);
       (k_source, VStr source)].

(** The [try] block of [analyze_competition] for one keyword. *)
Definition competition_try (results : odict pydict)
  (keyword semrush_api_key ubersuggest_api_key : value)
  : M (odict pydict) :=
  if truthy semrush_api_key then
    data <- semrush_fetch keyword semrush_api_key ;;
    entry <- provider_entry data s_semrush ;;
    lift (setitem results keyword entry)
  else if truthy ubersuggest_api_key then
    data <- ubersuggest_fetch keyword ubersuggest_api_key ;;
    entry <- provider_entry data s_ubersuggest ;;
    lift (setitem results keyword entry)
  else
    entry <- mock_competition_data keyword ;;
    lift (setitem results keyword entry).

(** The [except] block: the mock for this keyword. *)
Definition competition_except (results : odict pydict) (keyword : value)
  : M (odict pydict) :=
  entry <- mock_competition_data keyword ;;
  lift (setitem results keyword entry).

Fixpoint competition_loop (keywords : list value) (results : odict pydict)
  (semrush_api_key ubersuggest_api_key : value) : M (odict pydict) :=
  match keywords with
  | [] => ret results
  | keyword :: rest =>
      results' <-
        try_except
          (competition_try results keyword semrush_api_key ubersuggest_api_key)
          (fun _ => competition_except results keyword) ;;
      competition_loop rest results' semrush_api_key ubersuggest_api_key
  end.

(** [analyze_competition(keywords, semrush_api_key, ubersuggest_api_key)] *)
Definition analyze_competition
  (keywords semrush_api_key ubersuggest_api_key : value)
  : M (odict pydict) :=
  ks <- lift (py_iter keywords) ;;
  competition_loop ks [] semrush_api_key ubersuggest_api_key.

(** [sum([...]) / len(d) if d else 0] over one field of the entries. *)
Definition mean_field (d : odict pydict) (key : str) (default : value)
  : outcome Q :=
  match d with
  | [] => Ok 0%Q
  | _ =>
      match py_sum (List.map (fun data => pydict_get data key default)
                      (dict_values d)) with
      | Ok s => Ok (s / inject_Z (Z.of_nat (List.length d)))%Q
      | Raise e => Raise e
      end
  end.

(** The part of [analyze_genre_competition] that handles one genre. *)
Definition competition_genre (semrush_api_key ubersuggest_api_key : value)
  (genre_name keywords : value) : M (genre_result pydict) :=
  competition_data <-
    analyze_competition keywords semrush_api_key ubersuggest_api_key ;;
  avg_difficulty <-
    lift (mean_field competition_data k_keyword_difficulty (VInt 0)) ;;
  ret (GenreResult genre_name competition_data (100 - avg_difficulty)%Q).

(** [analyze_genre_competition(genres, semrush_api_key,
    ubersuggest_api_key)] *)
Definition analyze_genre_competition
  (genres semrush_api_key ubersuggest_api_key : value)
  : M (odict (genre_result pydict)) :=
  analyze_genres (competition_genre semrush_api_key ubersuggest_api_key)
    genres.

End Competition.

(** ** social_analysis.py *)

Section Social.

Context {RT : Runtime}.

Definition common_topics : list str :=
  Eval vm_compute in
    [py "食べ物"; py "旅行"; py "アニメ"; py "ゲーム"; py "健康"; py "スポーツ"].

Definition sentiment_options : list str :=
  [s_positive; s_slightly_positive; s_neutral; s_slightly_negative; s_negative].

Definition sentiment_weights : list Q :=
  [(2 # 10); (3 # 10); (3 # 10); (15 # 100); (5 # 100)]%Q.

(** [any(topic in keyword for topic in common_topics)] *)
Definition topic_factor (keyword : str) : bool :=
  List.existsb (fun topic => contains topic keyword) common_topics.

(** The dict [mock_twitter_data] returns for its three draws. *)
Definition twitter_metric (keyword : str) (base_tweets : Z)
  (engagement_rate : Q) (sentiment : str) : pydict :=
  let tweet_count := base_tweets * (if topic_factor keyword then 3 else 1) in
  [(k_tweets, VInt tweet_count);
   (k_engagement, VFloat (py_round engagement_rate 2));
   (k_sentiment, VStr sentiment);
   (k_source, VStr s_mock)].

(** [mock_twitter_data(keyword)] *)
Definition mock_twitter_data (keyword : value) : M pydict :=
  match keyword with
  | VStr k =>
      match encode k with
      | None => raise UnicodeEncodeError
      | Some bytes =>
          let hash_int := md5_int bytes in
          random_seed hash_int ;;;
          base_tweets <- random_randint 50 5000 ;;
          engagement_rate <- random_uniform (5 # 10) 10 ;;
          sentiment <-
            random_choices1 s_positive sentiment_options sentiment_weights ;;
          ret (twitter_metric k base_tweets engagement_rate sentiment)
      end
  | _ => raise AttributeError
  end.

(** The body the source gives the fetcher: the request headers and the
    query are built and unused. *)
Definition get_twitter_data (keyword bearer_token : value) : M value :=
  d <- mock_twitter_data keyword ;;
  ret (VDict d).

Context {P : Providers}.

Definition twitter_entry (data : value) : M pydict :=
  tweets <- lift (value_get data k_tweets (VInt 0)) ;;
  engagement <- lift (value_get data k_engagement (VInt 0)) ;;
  sentiment <- lift (value_get data k_sentiment (VStr s_neutral)) ;;
  ret [(k_tweets, tweets);
       (k_engagement, engagement);
       (k_sentiment, sentiment);
       (k_source, VStr s_twitter_api)].

(** The [try] block of [analyze_twitter_engagement] for one keyword. *)
Definition twitter_try (results : odict pydict)
  (keyword twitter_bearer_token : value) : M (odict pydict) :=
  if truthy twitter_bearer_token then
    data <- twitter_fetch keyword twitter_bearer_token ;;
    entry <- twitter_entry data ;;
    lift (setitem results keyword entry)
  else
    entry <- mock_twitter_data keyword ;;
    lift (setitem results keyword entry).

(** The [except] block. *)
Definition twitter_except (results : odict pydict) (keyword : value)
  : M (odict pydict) :=
  entry <- mock_twitter_data keyword ;;
  lift (setitem results keyword entry).

Fixpoint twitter_loop (keywords : list value) (results : odict pydict)
  (twitter_bearer_token : value) : M (odict pydict) :=
  match keywords with
  | [] => ret results
  | keyword :: rest =>
      results' <-
        try_except (twitter_try results keyword twitter_bearer_token)
          (fun _ => twitter_except results keyword) ;;
      twitter_loop rest results' twitter_bearer_token
  end.

(** [analyze_twitter_engagement(keywords, twitter_bearer_token)] *)
Definition analyze_twitter_engagement (keywords twitter_bearer_token : value)
  : M (odict pydict) :=
  ks <- lift (py_iter keywords) ;;
  twitter_loop ks [] twitter_bearer_token.

(** [sentiment_map.get(x, 0)]; looking an unhashable [x] up raises. *)
Definition sentiment_value (x : value) : outcome Q :=
  match x with
  | VStr s =>
      Ok (if str_eqb s s_positive then 1
          else if str_eqb s s_slightly_positive then (1 # 2)
          else if str_eqb s s_neutral then 0
          else if str_eqb s s_slightly_negative then - (1 # 2)
          else if str_eqb s s_negative then - (1)
          else 0)%Q
  | VList _ | VDict _ => Raise TypeError
  | _ => Ok 0%Q
  end.

Fixpoint sentiment_sum (l : list pydict) : outcome Q :=
  match l with
  | [] => Ok 0%Q
  | data :: l' =>
      match sentiment_value (pydict_get data k_sentiment (VStr s_neutral)),
            sentiment_sum l' with
      | Ok x, Ok s => Ok (x + s)%Q
      | Raise e, _ => Raise e
      | _, Raise e => Raise e
      end
  end.

(** [sum([sentiment_map.get(...) ...]) / len(d) if d else 0] *)
Definition mean_sentiment (d : odict pydict) : outcome Q :=
  match d with
  | [] => Ok 0%Q
  | _ =>
      match sentiment_sum (dict_values d) with
      | Ok s => Ok (s / inject_Z (Z.of_nat (List.length d)))%Q
      | Raise e => Raise e
      end
  end.

(** The SNS score from the three averages. *)
Definition sns_score (avg_tweet_count avg_engagement avg_sentiment : Q) : Q :=
  let tweet_count_score := Qmin 100 (avg_tweet_count / 50) in
  let engagement_score := Qmin 100 (avg_engagement * 10) in
  let sentiment_score := ((avg_sentiment + 1) * 50)%Q in
  (tweet_count_score * (3 # 10) + engagement_score * (5 # 10)
   + sentiment_score * (2 # 10))%Q.

(** The part of [analyze_genre_social] that handles one genre. *)
Definition social_genre (twitter_bearer_token : value)
  (genre_name keywords : value) : M (genre_result pydict) :=
  twitter_data <- analyze_twitter_engagement keywords twitter_bearer_token ;;
  avg_tweet_count <- lift (mean_field twitter_data k_tweets (VInt 0)) ;;
  avg_engagement <- lift (mean_field twitter_data k_engagement (VInt 0)) ;;
  avg_sentiment <- lift (mean_sentiment twitter_data) ;;
  ret (GenreResult genre_name twitter_data
         (sns_score avg_tweet_count avg_engagement avg_sentiment)).

(** [analyze_genre_social(genres, twitter_bearer_token)] *)
Definition analyze_genre_social (genres twitter_bearer_token : value)
  : M (odict (genre_result pydict)) :=
  analyze_genres (social_genre twitter_bearer_token) genres.

End Social.

(** ** demand_analysis.py *)

Section Demand.

Context {RT : Runtime}.

(** The value of [トレンド]: [上昇], [下降] or [不明]. *)
Inductive trend : Type := Rising | Falling | Unknown.

(** [{"平均関心度": ..., "トレンド": ...}] *)
Record trend_info : Type := TrendInfo {
  avg_interest : Q;
  trend_of : trend
}.

(** [{"トレンド情報": ..., "月間検索ボリューム": ...}] *)
Record keyword_result : Type := KeywordResult {
  trend_information : trend_info;
  monthly_volume : Z
}.

Definition mean (values : list Q) : Q :=
  (Qsum values / inject_Z (Z.of_nat (List.length values)))%Q.

(** The entry [analyze_trends] computes from the series of one keyword. *)
Definition trend_entry (values : list Q) : trend_info :=
  let n := List.length values in
  let trend :=
    if (1 <? n)%nat then
      let first_half := mean (List.firstn (n / 2) values) in
      let second_half := mean (List.skipn (n / 2) values) in
      if Qle_bool second_half first_half then Falling else Rising
    else Unknown in
  TrendInfo (mean values) trend.

Fixpoint frame_column (df : dataframe) (k : str) : option (list Q) :=
  match df with
  | [] => None
  | (c, (x, xs)) :: df' =>
      if str_eqb c k then Some (x :: xs) else frame_column df' k
  end.

(** [for keyword in group: if keyword in interest_over_time.columns: ...]
    with the dict as it stands when the loop ends, and the exception that
    ended it, if any (an unhashable keyword cannot be looked up). *)
Fixpoint trends_group_loop (df : dataframe) (keywords : list value)
  (result : odict trend_info) : odict trend_info * option exn :=
  match keywords with
  | [] => (result, None)
  | keyword :: rest =>
      match keyword with
      | VStr k =>
          match frame_column df k with
          | Some values =>
              trends_group_loop df rest
                (dict_set result keyword (trend_entry values))
          | None => trends_group_loop df rest result
          end
      | VList _ | VDict _ => (result, Some TypeError)
      | _ => trends_group_loop df rest result
      end
  end.

(** The [try] block for one group; its exceptions are caught and
    printed. *)
Definition trends_group (group : value) (result : odict trend_info)
  : M (odict trend_info) :=
  try_except
    (df <- with_net (interest_over_time group) ;;
     match df with
     | [] => ret result
     | _ =>
         keywords <- lift (py_iter group) ;;
         ret (fst (trends_group_loop df keywords result))
     end)
    (fun _ => ret result).

Fixpoint trends_loop (groups : list value) (result : odict trend_info)
  : M (odict trend_info) :=
  match groups with
  | [] => ret result
  | group :: rest =>
      result' <- trends_group group result ;;
      trends_loop rest result'
  end.

(** [range(0, n, 5)] *)
Definition range5 (n : nat) : list nat :=
  List.map (fun j => (5 * j)%nat) (List.seq 0 ((n + 4) / 5)).

(** [l[i:i+5]] *)
Definition slice5 {A : Type} (l : list A) (i : nat) : list A :=
  List.firstn 5 (List.skipn i l).

(** [[keywords[i:i+5] for i in range(0, len(keywords), 5)]]: [len] needs
    a sized value and a dict cannot be sliced. *)
Definition keyword_groups (keywords : value) : outcome (list value) :=
  match keywords with
  | VList l =>
      Ok (List.map (fun i => VList (slice5 l i)) (range5 (List.length l)))
  | VStr s =>
      Ok (List.map (fun i => VStr (slice5 s i)) (range5 (List.length s)))
  | VDict [] => Ok []
  | _ => Raise TypeError
  end.

(** [analyze_trends(keywords)] *)
Definition analyze_trends (keywords : value) : M (odict trend_info) :=
  with_net trend_req ;;;
  groups <- lift (keyword_groups keywords) ;;
  trends_loop groups [].

(** [mock_search_volume(keyword)]: the keyword is not used. *)
Definition mock_search_volume (keyword : value) : M Z :=
  random_randint 500 10000.

Fixpoint search_volume_loop (keywords : list value) (result : odict Z)
  : M (odict Z) :=
  match keywords with
  | [] => ret result
  | keyword :: rest =>
      result' <-
        try_except
          (volume <- mock_search_volume keyword ;;
           lift (setitem result keyword volume))
          (fun _ => ret result) ;;
      search_volume_loop rest result'
  end.

(** [get_search_volume(keywords, api_key)] *)
Definition get_search_volume (keywords api_key : value) : M (odict Z) :=
  ks <- lift (py_iter keywords) ;;
  search_volume_loop ks [].

Definition default_trend_info : trend_info := TrendInfo 0 Unknown.

(** [for keyword in keywords: ... genre_result["キーワード分析"][keyword] =
    keyword_result] *)
Fixpoint keyword_result_loop (keywords : list value)
  (trends_data : odict trend_info) (search_volume : odict Z)
  (analysis : odict keyword_result) : outcome (odict keyword_result) :=
  match keywords with
  | [] => Ok analysis
  | keyword :: rest =>
      match getitem trends_data keyword default_trend_info with
      | Raise e => Raise e
      | Ok info =>
          match getitem search_volume keyword 0 with
          | Raise e => Raise e
          | Ok volume =>
              match setitem analysis keyword (KeywordResult info volume) with
              | Raise e => Raise e
              | Ok analysis' =>
                  keyword_result_loop rest trends_data search_volume analysis'
              end
          end
      end
  end.

(** [trends_data.get(k, {}).get("平均関心度", 0)] *)
Definition interest_of (trends_data : odict trend_info) (k : value) : Q :=
  match dict_find trends_data k with
  | Some info => avg_interest info
  | None => 0
  end.

(** [search_volume.get(k, 0)] *)
Definition volume_of (search_volume : odict Z) (k : value) : Z :=
  match dict_find search_volume k with
  | Some v => v
  | None => 0
  end.

(** [trends_data.get(k, {}).get("トレンド", "") == "上昇"] *)
Definition is_rising (trends_data : odict trend_info) (k : value) : bool :=
  match dict_find trends_data k with
  | Some info => match trend_of info with Rising => true | _ => false end
  | None => false
  end.

(** [需要スコア] from the keywords, which the caller has found
    non-empty. *)
Definition demand_score (trends_data : odict trend_info)
  (search_volume : odict Z) (keywords : list value) : Q :=
  let n := inject_Z (Z.of_nat (List.length keywords)) in
  let avg_interest := (Qsum (List.map (interest_of trends_data) keywords) / n)%Q in
  let avg_volume :=
    (inject_Z
       (List.fold_right Z.add 0%Z
          (List.map (volume_of search_volume) keywords))
     / n)%Q in
  let trend_score :=
    (inject_Z (Z.of_nat (List.length
                 (List.filter (is_rising trends_data) keywords))) / n)%Q in
  (avg_interest * (3 # 10) + avg_volume * (5 # 10)
   + trend_score * 100 * (2 # 10))%Q.

(** The part of [analyze_demand] that handles one genre. *)
Definition demand_genre (google_api_key : value)
  (genre_name keywords : value) : M (genre_result keyword_result) :=
  trends_data <- analyze_trends keywords ;;
  search_volume <- get_search_volume keywords google_api_key ;;
  ks <- lift (py_iter keywords) ;;
  analysis <- lift (keyword_result_loop ks trends_data search_volume []) ;;
  ret (GenreResult genre_name analysis
         (demand_score trends_data search_volume ks)).

(** [analyze_demand(genres, google_api_key)] *)
Definition analyze_demand (genres google_api_key : value)
  : M (odict (genre_result keyword_result)) :=
  analyze_genres (demand_genre google_api_key) genres.

End Demand.

(** ** dashboard.py *)

Section Dashboard.

Context {RT : Runtime}.
Context {P : Providers}.

(** One value of [final_scores]: [総合スコア], [需要スコア],
    [競合の少なさスコア] and, when the genre has a social result,
    [SNSスコア]. *)
Record final_score : Type := FinalScore {
  total_score : Q;
  demand_score_of : Q;
  competition_score_of : Q;
  sns_score_of : option Q
}.

(** The entries of [st.session_state] the analysis writes. *)
Record session_state : Type := SessionState {
  demand_data : odict (genre_result keyword_result);
  competition_data : odict (genre_result pydict);
  social_data : odict (genre_result pydict);
  final_scores : odict final_score
}.

(** [d.get(genre_name, {}).get(score_key, 0)] *)
Definition score_in {E : Type} (d : odict (genre_result E))
  (genre_name : value) : Q :=
  match dict_find d genre_name with
  | Some r => result_score r
  | None => 0
  end.

(** The body of the loop of [calculate_final_scores] for one genre. *)
Definition final_score_for (st : session_state) (genre_name : value)
  : final_score :=
  let demand_score := score_in (demand_data st) genre_name in
  let competition_score := score_in (competition_data st) genre_name in
  let social_score :=
    if dict_mem (social_data st) genre_name
    then score_in (social_data st) genre_name else 0%Q in
  let total_score :=
    if dict_mem (social_data st) genre_name then
      (demand_score * (4 # 10) + competition_score * (4 # 10)
       + social_score * (2 # 10))%Q
    else
      (demand_score * (5 # 10) + competition_score * (5 # 10))%Q in
  FinalScore total_score demand_score competition_score
    (if dict_mem (social_data st) genre_name then Some social_score else None).

Fixpoint final_scores_loop (st : session_state) (genre_names : list value)
  (final_scores : odict final_score) : odict final_score :=
  match genre_names with
  | [] => final_scores
  | genre_name :: rest =>
      final_scores_loop st rest
        (dict_set final_scores genre_name (final_score_for st genre_name))
  end.

(** [calculate_final_scores()] *)
Definition calculate_final_scores (st : session_state) : session_state :=
  SessionState (demand_data st) (competition_data st) (social_data st)
    (final_scores_loop st (dict_keys (demand_data st)) []).

(** The analysis [run_niche_finder] performs on the genres the suggester
    returned, when there are any. *)
Definition run_analysis (genres google_api_key twitter_bearer_token : value)
  (add_tweet_analysis : bool) (st : session_state) : M session_state :=
  if truthy genres then
    demand <- analyze_demand genres google_api_key ;;
    competition <- analyze_genre_competition genres VNone VNone ;;
    social <-
      (if add_tweet_analysis
       then analyze_genre_social genres twitter_bearer_token
       else ret (social_data st)) ;;
    ret (calculate_final_scores
           (SessionState demand competition social (final_scores st)))
  else ret st.

End Dashboard.

(** The providers as the source has them. *)
Definition source_providers {RT : Runtime} : Providers := {|
  semrush_fetch := get_semrush_data;
  ubersuggest_fetch := get_ubersuggest_data;
  twitter_fetch := get_twitter_data
|}.

(** ** A reference runtime

    A small, executable instance of [Runtime], on which the examples below
    are evaluated: a linear congruential generator in place of the Mersenne
    Twister, a polynomial digest in place of MD5, a parser for the JSON
    documents made of [null], [true], [false], decimal numbers without
    exponent, strings with the one-character escapes, arrays and objects,
    and a network on which the trends service answers with an empty
    frame. *)

Module Reference.

Definition lcg_next (s : Z) : Z :=
  (6364136223846793005 * s + 1442695040888963407) mod 2 ^ 64.

Definition ref_bits53 (s : Z) : N * Z :=
  let s' := lcg_next s in (Z.to_N (s' / 2 ^ 11), s').

Definition ref_below (n : Z) (s : Z) : Z * Z :=
  let s' := lcg_next s in (s' / 2 ^ 16, s').

Definition ref_digest (bytes : list N) : Z :=
  List.fold_left (fun h b => (h * 257 + Z.of_N b + 1) mod 2 ^ 128) bytes 7.

Definition is_ws (c : N) : bool :=
  ((c =? 32) || (c =? 9) || (c =? 10) || (c =? 13))%N.

Definition is_digit (c : N) : bool := ((48 <=? c) && (c <=? 57))%N.

Fixpoint skip_ws (s : str) : str :=
  match s with
  | c :: s' => if is_ws c then skip_ws s' else s
  | [] => []
  end.

(** The characters of a string literal after its opening quote. *)
Fixpoint parse_string (s : str) (acc : str) : option (str * str) :=
  match s with
  | [] => None
  | c :: s' =>
      if (c =? 34)%N then Some (List.rev acc, s')
      else if (c =? 92)%N then
        match s' with
        | e :: s'' =>
            let esc :=
              if (e =? 34)%N then Some 34%N
              else if (e =? 92)%N then Some 92%N
              else if (e =? 47)%N then Some 47%N
              else if (e =? 98)%N then Some 8%N
              else if (e =? 102)%N then Some 12%N
              else if (e =? 110)%N then Some 10%N
              else if (e =? 114)%N then Some 13%N
              else if (e =? 116)%N then Some 9%N
              else None in
            match esc with
            | Some x => parse_string s'' (x :: acc)
            | None => None
            end
        | [] => None
        end
      else if (c <? 32)%N then None
      else parse_string s' (c :: acc)
  end.

Fixpoint parse_digits (s : str) (acc : Z) (count : nat) : Z * nat * str :=
  match s with
  | c :: s' =>
      if is_digit c
      then parse_digits s' (10 * acc + Z.of_N (c - 48)) (S count)
      else (acc, count, s)
  | [] => (acc, count, s)
  end.

(** A number: an optional minus, digits without a leading zero, an
    optional fraction. *)
Definition parse_number (s : str) : option (value * str) :=
  let (negative, s1) :=
    match s with
    | c :: s' => if (c =? 45)%N then (true, s') else (false, s)
    | [] => (false, s)
    end in
  let sign := if negative then (-1) else 1 in
  let leading_zero :=
    match s1 with
    | c :: d :: _ => (c =? 48)%N && is_digit d
    | _ => false
    end in
  match parse_digits s1 0 0 with
  | (_, O, _) => None
  | (int_part, _, s2) =>
      if leading_zero then None
      else
        match s2 with
        | c :: s3 =>
            if (c =? 46)%N then
              match parse_digits s3 0 0 with
              | (_, O, _) => None
              | (frac, digits, s4) =>
                  Some (VFloat (inject_Z sign
                                * (inject_Z int_part
                                   + inject_Z frac
                                     / inject_Z (10 ^ Z.of_nat digits)))%Q,
                        s4)
              end
            else Some (VInt (sign * int_part), s2)
        | [] => Some (VInt (sign * int_part), s2)
        end
  end.

(** The elements of an array after the first, up to the closing bracket. *)
Fixpoint parse_items (pv : str -> option (value * str)) (fuel : nat)
  (s : str) (acc : list value) : option (list value * str) :=
  match fuel with
  | O => None
  | S fuel' =>
      match pv s with
      | None => None
      | Some (v, r) =>
          match skip_ws r with
          | c :: r' =>
              if (c =? 44)%N then parse_items pv fuel' r' (v :: acc)
              else if (c =? 93)%N then Some (List.rev (v :: acc), r')
              else None
          | [] => None
          end
      end
  end.

(** [d[k] = v] while an object is read: the last binding of a key wins. *)
Fixpoint pydict_set (d : pydict) (k : str) (v : value) : pydict :=
  match d with
  | [] => [(k, v)]
  | (k', v') :: d' =>
      if str_eqb k' k then (k', v) :: d' else (k', v') :: pydict_set d' k v
  end.

(** The members of an object, up to the closing brace. *)
Fixpoint parse_members (pv : str -> option (value * str)) (fuel : nat)
  (s : str) (acc : pydict) : option (pydict * str) :=
  match fuel with
  | O => None
  | S fuel' =>
      match skip_ws s with
      | q :: s1 =>
          if negb (q =? 34)%N then None
          else
            match parse_string s1 [] with
            | None => None
            | Some (k, s2) =>
                match skip_ws s2 with
                | colon :: s3 =>
                    if negb (colon =? 58)%N then None
                    else
                      match pv s3 with
                      | None => None
                      | Some (v, r) =>
                          match skip_ws r with
                          | c :: r' =>
                              if (c =? 44)%N
                              then parse_members pv fuel' r' (pydict_set acc k v)
                              else if (c =? 125)%N
                              then Some (pydict_set acc k v, r')
                              else None
                          | [] => None
                          end
                      end
                | [] => None
                end
            end
      | [] => None
      end
  end.

Definition literal (word : string) (v : value) (s : str)
  : option (value * str) :=
  let w := py word in
  if starts_with w s then Some (v, List.skipn (List.length w) s) else None.

Fixpoint parse_value (fuel : nat) (s : str) : option (value * str) :=
  match fuel with
  | O => None
  | S fuel' =>
      match skip_ws s with
      | [] => None
      | c :: rest =>
          if (c =? 34)%N then
            match parse_string rest [] with
            | Some (x, r) => Some (VStr x, r)
            | None => None
            end
          else if (c =? 91)%N then
            match skip_ws rest with
            | d :: r =>
                if (d =? 93)%N then Some (VList [], r)
                else
                  match parse_items (parse_value fuel') fuel' rest [] with
                  | Some (l, r') => Some (VList l, r')
                  | None => None
                  end
            | [] => None
            end
          else if (c =? 123)%N then
            match skip_ws rest with
            | d :: r =>
                if (d =? 125)%N then Some (VDict [], r)
                else
                  match parse_members (parse_value fuel') fuel' rest [] with
                  | Some (m, r') => Some (VDict m, r')
                  | None => None
                  end
            | [] => None
            end
          else if (c =? 110)%N then literal "null" VNone (c :: rest)
          else if (c =? 116)%N then literal "true" (VBool true) (c :: rest)
          else if (c =? 102)%N then literal "false" (VBool false) (c :: rest)
          else parse_number (c :: rest)
      end
  end.

(** The whole text must be one document. *)
Definition ref_json_loads (s : str) : option value :=
  match parse_value (S (List.length s)) s with
  | Some (v, r) => match skip_ws r with [] => Some v | _ => None end
  | None => None
  end.

Definition runtime : Runtime := {|
  rng := Z;
  net := nat;
  md5_int := ref_digest;
  seeded := fun n => n mod 2 ^ 64;
  next_bits53 := ref_bits53;
  next_below := ref_below;
  json_loads := ref_json_loads;
  trend_req := fun n => (Ok tt, S n);
  interest_over_time := fun _ n => (Ok [], S n)
|}.

(** A world to start from: a generator state and no request made yet. *)
Definition world0 : @world runtime := World 20250219 O.

Definition world1 : @world runtime := World 42 O.

End Reference.

(** ** Payloads of the examples *)

Module Examples.

(** [{"ジャンル名": name, "関連するキーワード例": keywords}] *)
Definition entry (name : string) (keywords : list string) : value :=
  VDict [(k_genre_name, VStr (py name));
         (k_keywords, VList (List.map (fun k => VStr (py k)) keywords))].

(** An entry without a name, an entry without keywords, a valid entry. *)
Definition payload_with_empty_entries : value :=
  VList [entry "" ["a"]; entry "X" []; entry "Y" ["y"]]%string.

(** Two valid entries of the same name. *)
Definition payload_with_duplicate : list value :=
  [entry "X" ["a"]; entry "X" ["b"]]%string.

(** Bare strings, one of them twice. *)
Definition payload_of_names : list value :=
  [VStr (py "B"); VStr (py "A"); VStr (py "B"); VStr (py "C")].

(** Providers that are down for the keyword [bad] and answer like the
    source's for the others. *)
Definition failing_providers : @Providers Reference.runtime := {|
  semrush_fetch := fun keyword api_key =>
    if key_eqb keyword (VStr (py "bad")) then raise (ProviderError 503)
    else get_semrush_data keyword api_key;
  ubersuggest_fetch := fun keyword api_key =>
    if key_eqb keyword (VStr (py "bad")) then raise (ProviderError 503)
    else get_ubersuggest_data keyword api_key;
  twitter_fetch := fun keyword bearer_token =>
    if key_eqb keyword (VStr (py "bad")) then raise (ProviderError 503)
    else get_twitter_data keyword bearer_token
|}.

(** A state in which the genre [X] has the demand score 250 and the
    competition-ease score 100, and no social result. *)
Definition state_with_high_demand : session_state :=
  SessionState
    [(VStr (py "X"), GenreResult (VStr (py "X")) [] 250)]
    [(VStr (py "X"), GenreResult (VStr (py "X")) [] 100)]
    [] [].

(** A state in which the genre [X] has the three axis scores 60, 80
    and 50. *)
Definition state_with_three_axes : session_state :=
  SessionState
    [(VStr (py "X"), GenreResult (VStr (py "X")) [] 60)]
    [(VStr (py "X"), GenreResult (VStr (py "X")) [] 80)]
    [(VStr (py "X"), GenreResult (VStr (py "X")) [] 50)]
    [].

(** One genre with two keywords. *)
Definition payload_one_genre : value := VList [entry "X" ["X"; "Y"]]%string.

End Examples.

(** ** Notions the statements use *)

Section Vocabulary.

Context {RT : Runtime}.

(** An entry that reaches the analysis: a dict or a string whose name and
    keywords are both truthy. *)
Definition kept_entry (genre : value) : option (value * value) :=
  match genre_fields genre with
  | Some (genre_name, keywords) =>
      if truthy genre_name && truthy keywords
      then Some (genre_name, keywords) else None
  | None => None
  end.

Fixpoint kept_entries (genres : list value) : list (value * value) :=
  match genres with
  | [] => []
  | genre :: rest =>
      match kept_entry genre with
      | Some nk => nk :: kept_entries rest
      | None => kept_entries rest
      end
  end.

(** The genre loop over the entries that reach the analysis. *)
Fixpoint entries_loop {E : Type}
  (analyze_one : value -> value -> M (genre_result E))
  (entries : list (value * value)) (all_results : odict (genre_result E))
  : M (odict (genre_result E)) :=
  match entries with
  | [] => ret all_results
  | (genre_name, keywords) :: rest =>
      genre_result <- analyze_one genre_name keywords ;;
      all_results' <- lift (setitem all_results genre_name genre_result) ;;
      entries_loop analyze_one rest all_results'
  end.

(** The characters of a string, as the keywords a loop over it sees. *)
Definition char_keywords (s : str) : list value :=
  List.map (fun c => VStr [c]) s.

(** The keys of a dict after one more key is written. *)
Definition add_key (keys : list value) (k : value) : list value :=
  if List.existsb (fun k' => key_eqb k' k) keys then keys else keys ++ [k].

(** The distinct keys of a sequence of writes, in order of first
    occurrence. *)
Definition first_occurrences (names : list value) : list value :=
  List.fold_left add_key names [].

(** The two draws of [mock_competition_data] after it has seeded the
    generator with the digest of the keyword. *)
Definition competition_draws (bytes : list N) : Q * Q :=
  let s0 := seeded (md5_int bytes) in
  let (u1, s1) := unit_draw s0 in
  let (u2, _) := unit_draw s1 in
  ((0 + (100 - 0) * u1)%Q, (0 + (10000 - 0) * u2)%Q).

(** The dict [mock_competition_data] returns for a keyword of the given
    UTF-8 form. *)
Definition mock_competition_value (k : str) (bytes : list N) : pydict :=
  competition_metric k (fst (competition_draws bytes))
    (snd (competition_draws bytes)).

(** The three draws of [mock_twitter_data] after it has seeded the
    generator: the tweet count before the topic factor, the engagement
    rate, the sentiment. *)
Definition twitter_draws (bytes : list N) : Z * Q * str :=
  let s0 := seeded (md5_int bytes) in
  let (r, s1) := next_below (5000 - 50 + 1) s0 in
  let (u2, s2) := unit_draw s1 in
  let (u3, _) := unit_draw s2 in
  let cum_weights := accumulate 0 sentiment_weights in
  (50 + r mod (5000 - 50 + 1),
   ((5 # 10) + (10 - (5 # 10)) * u2)%Q,
   List.nth
     (bisect_right cum_weights (u3 * List.last cum_weights 0)%Q
        (List.length sentiment_options - 1))
     sentiment_options s_positive).

(** The dict [mock_twitter_data] returns for a keyword of the given UTF-8
    form. *)
Definition mock_twitter_value (k : str) (bytes : list N) : pydict :=
  match twitter_draws bytes with
  | (base_tweets, engagement_rate, sentiment) =>
      twitter_metric k base_tweets engagement_rate sentiment
  end.

(** A keyword the mocks accept: a string that has a UTF-8 form. *)
Definition mockable (keyword : value) : Prop :=
  exists k bytes, keyword = VStr k /\ encode k = Some bytes.

(** A computation that raises in every world. *)
Definition always_raises {A : Type} (m : M A) : Prop :=
  forall w, exists e w', m w = (Raise e, w').

(** A computation whose result is [a] in every world. *)
Definition always_returns {A : Type} (m : M A) (a : A) : Prop :=
  forall w, exists w', m w = (Ok a, w').

(** The fetch the API keys select for a competition keyword raises,
    whatever the world. Without a key no fetch is made. *)
Definition competition_fetch_fails {P : Providers}
  (semrush_api_key ubersuggest_api_key keyword : value) : Prop :=
  if truthy semrush_api_key
  then always_raises (semrush_fetch keyword semrush_api_key)
  else if truthy ubersuggest_api_key
       then always_raises (ubersuggest_fetch keyword ubersuggest_api_key)
       else True.

(** The fetch the token selects for a social keyword raises. *)
Definition twitter_fetch_fails {P : Providers}
  (twitter_bearer_token keyword : value) : Prop :=
  if truthy twitter_bearer_token
  then always_raises (twitter_fetch keyword twitter_bearer_token)
  else True.

(** The difficulty [analyze_genre_competition] reads in an entry is a
    number of [[0, 100]]. *)
Definition competition_entry_ok (e : pydict) : Prop :=
  exists x, num_of (pydict_get e k_keyword_difficulty (VInt 0)) = Some x
            /\ (0 <= x <= 100)%Q.

(** What [analyze_genre_social] reads in an entry: a tweet count and an
    engagement rate that are non-negative numbers, and a sentiment that can
    be looked up. *)
Definition twitter_entry_ok (e : pydict) : Prop :=
  (exists x, num_of (pydict_get e k_tweets (VInt 0)) = Some x /\ (0 <= x)%Q)
  /\ (exists y, num_of (pydict_get e k_engagement (VInt 0)) = Some y
                /\ (0 <= y)%Q)
  /\ (exists z, sentiment_value (pydict_get e k_sentiment (VStr s_neutral))
                = Ok z).

(** The entry [analyze_demand] writes for a keyword: what its two lookups
    give. *)
Definition keyword_entry (trends_data : odict trend_info)
  (search_volume : odict Z) (keyword : value) : keyword_result :=
  KeywordResult
    (match dict_find trends_data keyword with
     | Some info => info
     | None => default_trend_info
     end)
    (volume_of search_volume keyword).

End Vocabulary.

(** ** Notions of the further properties *)

Section KeywordLoop.

Context {RT : Runtime}.

(** The loop that [analyze_competition] and [analyze_twitter_engagement]
    share, over the handling of one keyword (its [try] and [except]
    blocks). *)
Fixpoint keyword_loop (step : odict pydict -> value -> M (odict pydict))
  (keywords : list value) (results : odict pydict) : M (odict pydict) :=
  match keywords with
  | [] => ret results
  | keyword :: rest =>
      results' <- step results keyword ;;
      keyword_loop step rest results'
  end.

(** The dict after [results[keyword] = entry_of keyword] has run for the
    keywords in turn. *)
Definition written (entry_of : value -> pydict) (keywords : list value)
  (results : odict pydict) : odict pydict :=
  List.fold_left (fun r keyword => dict_set r keyword (entry_of keyword))
    keywords results.

(** The dict of [mock_competition_data] for a keyword it accepts. *)
Definition mock_competition_entry (keyword : value) : pydict :=
  match keyword with
  | VStr k =>
      match encode k with
      | Some bytes => mock_competition_value k bytes
      | None => []
      end
  | _ => []
  end.

(** The dict of [mock_twitter_data] for a keyword it accepts. *)
Definition mock_twitter_entry (keyword : value) : pydict :=
  match keyword with
  | VStr k =>
      match encode k with
      | Some bytes => mock_twitter_value k bytes
      | None => []
      end
  | _ => []
  end.

(** The entry [analyze_competition] builds from the dict a fetcher
    returned. *)
Definition competition_entry_of (source : str) (data : pydict) : pydict :=
  [(k_keyword_difficulty, pydict_get data k_difficulty (VInt 0));
   (k_competitors, pydict_get data k_competitors (VInt 0));
   (k_source, VStr source)].

(** The entry [analyze_twitter_engagement] builds from the dict the fetcher
    returned. *)
Definition twitter_entry_of (data : pydict) : pydict :=
  [(k_tweets, pydict_get data k_tweets (VInt 0));
   (k_engagement, pydict_get data k_engagement (VInt 0));
   (k_sentiment, pydict_get data k_sentiment (VStr s_neutral));
   (k_source, VStr s_twitter_api)].

(** The same dict with every value transformed. *)
Definition map_values {V W : Type} (f : V -> W) (d : odict V) : odict W :=
  List.map (fun kv => (fst kv, f (snd kv))) d.

(** The result of a computation with its value transformed; an exception
    passes. *)
Definition map_result {A B : Type} (f : A -> B) (r : outcome A * world)
  : outcome B * world :=
  match r with
  | (Ok a, w) => (Ok (f a), w)
  | (Raise e, w) => (Raise e, w)
  end.

(** A genre result with its entries transformed. *)
Definition map_entries {V W : Type} (f : V -> W) (r : genre_result V)
  : genre_result W :=
  GenreResult (result_name r) (map_values f (result_entries r))
    (result_score r).

(** The number a field of an entry holds, 0 when it holds none. *)
Definition field_number (e : pydict) (key : str) : Q :=
  match num_of (pydict_get e key (VInt 0)) with
  | Some x => x
  | None => 0
  end.

(** The difficulty [mock_competition_data] reports for a keyword. *)
Definition reported_difficulty (keyword : value) : Q :=
  field_number (mock_competition_entry keyword) k_difficulty.

(** The dict that holds [entry_of k] under every key [k] of a list. *)
Definition entries_of {V : Type} (entry_of : value -> V) (keys : list value)
  : odict V :=
  List.map (fun k => (k, entry_of k)) keys.

(** The trends service has no data: every request raises or answers with
    an empty frame. *)
Definition no_trend_data : Prop :=
  forall (group : value) (n : net),
    exists n',
      interest_over_time group n = (Ok [], n')
      \/ exists e, interest_over_time group n = (Raise e, n').

(** An entry the analyzers can process when they keep it: its name is
    hashable and its keywords are a list of strings that have a UTF-8
    form. An entry the filters drop is not constrained. *)
Definition well_formed_entry (genre : value) : Prop :=
  match kept_entry genre with
  | Some (genre_name, keywords) =>
      hashable genre_name = true
      /\ exists ks, keywords = VList ks /\ Forall mockable ks
  | None => True
  end.

(** Keys of which none equals an earlier one. *)
Definition distinct_keys (keys : list value) : Prop :=
  forall pre k post,
    keys = pre ++ k :: post -> existsb (fun k' => key_eqb k' k) pre = false.

(** The provider [analyze_competition] asks when a key is set: Semrush
    first. *)
Definition provider_label (semrush_api_key : value) : str :=
  if truthy semrush_api_key then s_semrush else s_ubersuggest.

(** The monthly volume a demand result stores for a keyword, 0 when it
    has no entry for it. *)
Definition stored_volume (r : genre_result keyword_result) (keyword : value)
  : Z :=
  match dict_find (result_entries r) keyword with
  | Some e => monthly_volume e
  | None => 0
  end.

End KeywordLoop.

(** Providers that are down for one keyword and answer every other
    keyword with a fixed document. *)
Module Outage.

Definition competition_answer : value :=
  VDict [(k_difficulty, VInt 40); (k_competitors, VInt 1200)].

Definition twitter_answer : value :=
  VDict [(k_tweets, VInt 300); (k_engagement, VInt 2);
         (k_sentiment, VStr s_neutral)].

Definition providers (bad : value) : @Providers Reference.runtime := {|
  semrush_fetch := fun keyword api_key =>
    if key_eqb keyword bad then raise (ProviderError 503)
    else ret competition_answer;
  ubersuggest_fetch := fun keyword api_key =>
    if key_eqb keyword bad then raise (ProviderError 503)
    else ret competition_answer;
  twitter_fetch := fun keyword bearer_token =>
    if key_eqb keyword bad then raise (ProviderError 503)
    else ret twitter_answer
|}.

(** A string made of one lone surrogate, which has no UTF-8 form. *)
Definition lone_surrogate : value := VStr [55296%N].

End Outage.

(** The reference runtime on a network where the trends session cannot be
    opened: [TrendReq(...)] raises. *)
Module Offline.

Definition runtime : Runtime := {|
  rng := @rng Reference.runtime;
  net := @net Reference.runtime;
  md5_int := @md5_int Reference.runtime;
  seeded := @seeded Reference.runtime;
  next_bits53 := @next_bits53 Reference.runtime;
  next_below := @next_below Reference.runtime;
  json_loads := @json_loads Reference.runtime;
  trend_req := fun n => (Raise (ProviderError 429), S n);
  interest_over_time := @interest_over_time Reference.runtime
|}.

Definition world0 : @world runtime := World 20250219 O.

End Offline.


(** ** genre_suggestion.py *)

(** The client of the assistant API: [anthropic.Anthropic(api_key=...)],
    [client.messages.create(...)] with the prompt built from
    [num_suggestions], and [message.content[0].text]. Any of the three may
    raise. *)
Class Assistant {RT : Runtime} : Type := {
  messages_create : value -> value -> M str
}.

Section Suggestion.

Context {RT : Runtime}.
Context {A : Assistant}.

Definition k_description : str := Eval vm_compute in py "説明".
Definition k_target : str := Eval vm_compute in py "想定ターゲット層".

(** The list both [except] branches return. *)
Definition dummy_genres : list value :=
  Eval vm_compute in
    [VDict
       [(k_genre_name, VStr (py "サステナブルファッション"));
        (k_description,
         VStr (py "環境に配慮した衣料品やアクセサリーは需要増加中"));
        (k_target, VStr (py "20-40代の環境意識の高い女性"));
        (k_keywords,
         VList [VStr (py "エシカルファッション");
                VStr (py "サステナブル衣料");
                VStr (py "リサイクルファッション");
                VStr (py "エコフレンドリー服");
                VStr (py "フェアトレード衣料")])]].

(** [s.find(c)] for a character [c]: the lowest index, or -1. *)
Fixpoint find_char (c : N) (s : str) : Z :=
  match s with
  | [] => -1
  | x :: s' =>
      if (x =? c)%N then 0
      else let i := find_char c s' in if i <? 0 then -1 else i + 1
  end.

(** [s.rfind(c)]: the highest index, or -1. *)
Definition rfind_char (c : N) (s : str) : Z :=
  let i := find_char c (List.rev s) in
  if i <? 0 then -1 else Z.of_nat (List.length s) - 1 - i.

(** [s[i:j]] for [0 <= i] and [0 <= j]. *)
Definition slice (s : str) (i j : Z) : str :=
  List.firstn (Z.to_nat (j - i)) (List.skipn (Z.to_nat i) s).

(** The text from the first opening brace to the last closing brace, when
    there is one after the other. *)
Definition extract_json (response_content : str) : option str :=
  let json_start := find_char 123 response_content in
  let json_end := rfind_char 125 response_content + 1 in
  if (0 <=? json_start) && (json_start <? json_end)
  then Some (slice response_content json_start json_end)
  else None.

(** The first value of a dict that is a list. *)
Fixpoint first_list_value (d : pydict) : option (list value) :=
  match d with
  | [] => None
  | (_, VList l) :: _ => Some l
  | _ :: d' => first_list_value d'
  end.

(** What [suggest_genres] returns for the parsed document. *)
Definition genres_of_result (result : value) : list value :=
  match result with
  | VDict d =>
      match pydict_find d k_genres with
      | Some (VList l) => l
      | _ =>
          match first_list_value d with
          | Some l => l
          | None => [result]
          end
      end
  | VList l => l
  | _ => []
  end.

(** [suggest_genres(api_key, num_suggestions)] *)
Definition suggest_genres (api_key num_suggestions : value)
  : M (list value) :=
  try_except
    (response_content <- messages_create api_key num_suggestions ;;
     match extract_json response_content with
     | Some json_str =>
         match json_loads json_str with
         | Some result => ret (genres_of_result result)
         | None => ret dummy_genres
         end
     | None => ret []
     end)
    (fun _ => ret dummy_genres).

End Suggestion.

(** ** dashboard.py: the start of an analysis *)

(** The message the dashboard ends the block with. *)
Inductive notice : Type :=
| KeyMissing        (* Anthropic API Keyが設定されていません。 *)
| Completed         (* 分析が完了しました！ *)
| GenerationFailed. (* ジャンル候補の生成に失敗しました。 *)

Section Start.

Context {RT : Runtime}.
Context {P : Providers}.
Context {A : Assistant}.

(** The block under [if start_analysis:] of [run_niche_finder], from the
    genres and the state of the session: the message, the genres and the
    state it leaves. *)
Definition start_analysis
  (anthropic_api_key num_suggestions google_api_key twitter_bearer_token
   : value) (add_tweet_analysis : bool) (genres : list value)
  (st : session_state) : M (notice * list value * session_state) :=
  if truthy anthropic_api_key then
    genres' <- suggest_genres anthropic_api_key num_suggestions ;;
    if truthy (VList genres') then
      st' <- run_analysis (VList genres') google_api_key twitter_bearer_token
               add_tweet_analysis st ;;
      ret (Completed, genres', st')
    else ret (GenerationFailed, genres', st)
  else ret (KeyMissing, genres, st).

End Start.

(** ** dashboard.py: the ranking of the second tab *)

(** [sorted(l, key=key, reverse=True)]: descending keys; elements of equal
    key stay in the order they have in [l]. *)
Fixpoint insert_desc {A : Type} (key : A -> Q) (x : A) (l : list A)
  : list A :=
  match l with
  | [] => [x]
  | y :: l' =>
      if Qle_bool (key y) (key x) then x :: y :: l'
      else y :: insert_desc key x l'
  end.

Definition sorted_desc {A : Type} (key : A -> Q) (l : list A) : list A :=
  List.fold_right (insert_desc key) [] l.

(** [sorted(st.session_state.final_scores.items(),
    key=lambda x: x[1]['総合スコア'], reverse=True)] *)
Definition sorted_genres (st : session_state)
  : list (value * final_score) :=
  sorted_desc (fun x => total_score (snd x)) (final_scores st).

(** [sorted_genres[:4]], the genres that get a radar chart. *)
Definition charted_genres (st : session_state)
  : list (value * final_score) :=
  List.firstn 4 (sorted_genres st).

(** An assistant that answers every request with one text, and one whose
    requests fail. *)
Module Assistants.


Definition unreachable {RT : Runtime} : Assistant := {|
  messages_create := fun _ _ => raise (ProviderError 401)
|}.



End Assistants.


(** * Properties *)

(** ** Strings and keys *)

Lemma str_eqb_refl s : str_eqb s s = true.
Proof. induction s as [|c s IH]; simpl; [reflexivity|]. now rewrite N.eqb_refl. Qed.

Lemma str_eqb_eq a b : str_eqb a b = true <-> a = b.
Proof.
  revert b; induction a as [|x a IH]; intros [|y b]; simpl; split; try easy.
  - intros H. apply andb_true_iff in H as [H1 H2].
    apply N.eqb_eq in H1. apply IH in H2. now subst.
  - intros H. injection H as -> ->. now rewrite N.eqb_refl, str_eqb_refl.
Qed.

Lemma Qeq_bool_trans' x y z :
  Qeq_bool x y = true -> Qeq_bool y z = true -> Qeq_bool x z = true.
Proof.
  intros H1 H2. apply Qeq_bool_iff in H1, H2. apply Qeq_bool_iff.
  now rewrite H1.
Qed.

Lemma Qeq_bool_sym' x y : Qeq_bool x y = true -> Qeq_bool y x = true.
Proof. intros H. apply Qeq_bool_iff in H. apply Qeq_bool_iff. now symmetry. Qed.

Lemma key_eqb_sym a b : key_eqb a b = true -> key_eqb b a = true.
Proof.
  destruct a, b; simpl; try discriminate; try reflexivity;
    try (destruct b, b0; simpl; intros H; exact H || (apply Qeq_bool_sym'; exact H));
    try (destruct b; intros H; apply Qeq_bool_sym'; exact H);
    try (intros H; apply Qeq_bool_sym'; exact H).
  intros H. apply str_eqb_eq in H. subst. apply str_eqb_refl.
Qed.

Lemma key_eqb_trans a b c :
  key_eqb a b = true -> key_eqb b c = true -> key_eqb a c = true.
Proof.
  destruct a, b; simpl; try discriminate; destruct c; simpl; try discriminate;
    try reflexivity; try apply Qeq_bool_trans'.
  intros H1 H2. apply str_eqb_eq in H1, H2. subst. apply str_eqb_refl.
Qed.

Lemma key_eqb_refl k : hashable k = true -> key_eqb k k = true.
Proof.
  destruct k; simpl; try discriminate; intros _; try reflexivity;
    try apply Qeq_bool_refl.
  apply str_eqb_refl.
Qed.

(** Equal keys are looked up alike. *)
Lemma key_eqb_cong k k' k0 :
  key_eqb k k' = true -> key_eqb k0 k = key_eqb k0 k'.
Proof.
  intros H. destruct (key_eqb k0 k) eqn:E1, (key_eqb k0 k') eqn:E2; try reflexivity.
  - rewrite (key_eqb_trans _ _ _ E1 H) in E2. discriminate.
  - rewrite (key_eqb_trans _ _ _ E2 (key_eqb_sym _ _ H)) in E1. discriminate.
Qed.

Lemma dict_find_key_eqb {V} (d : odict V) k k' :
  key_eqb k k' = true -> dict_find d k = dict_find d k'.
Proof.
  intros H. induction d as [|[k0 v] d IH]; simpl; [reflexivity|].
  rewrite (key_eqb_cong _ _ k0 H), IH. reflexivity.
Qed.

Lemma key_eqb_cong_l a b c :
  key_eqb a b = true -> key_eqb a c = key_eqb b c.
Proof.
  intros H. destruct (key_eqb a c) eqn:E1, (key_eqb b c) eqn:E2; try reflexivity.
  - rewrite (key_eqb_trans _ _ _ (key_eqb_sym _ _ H) E1) in E2. discriminate.
  - rewrite (key_eqb_trans _ _ _ H E2) in E1. discriminate.
Qed.

Lemma dict_find_set {V} (d : odict V) n v k :
  dict_find (dict_set d n v) k =
  if key_eqb n k then Some v else dict_find d k.
Proof.
  induction d as [|[k0 v0] d IH]; simpl.
  - reflexivity.
  - destruct (key_eqb k0 n) eqn:E0; simpl.
    + rewrite (key_eqb_cong_l _ _ k E0). now destruct (key_eqb n k).
    + rewrite IH. destruct (key_eqb n k) eqn:E1; [|reflexivity].
      destruct (key_eqb k0 k) eqn:E2; [|reflexivity].
      rewrite (key_eqb_trans _ _ _ E2 (key_eqb_sym _ _ E1)) in E0. discriminate.
Qed.

Lemma dict_keys_set {V} (d : odict V) n v :
  dict_keys (dict_set d n v) = add_key (dict_keys d) n.
Proof.
  unfold add_key. induction d as [|[k0 v0] d IH]; simpl; [reflexivity|].
  destruct (key_eqb k0 n); simpl; [reflexivity|].
  unfold dict_keys in *. rewrite IH.
  now destruct (existsb (fun k' => key_eqb k' n) (map fst d)).
Qed.

Lemma dict_find_some_key {V} (d : odict V) k v :
  dict_find d k = Some v ->
  existsb (fun k' => key_eqb k' k) (dict_keys d) = true.
Proof.
  induction d as [|[k0 v0] d IH]; simpl; [discriminate|].
  destruct (key_eqb k0 k); [reflexivity|]. exact IH.
Qed.

(** ** The composite score *)

Section FinalScores.

Lemma final_score_for_key_eqb (st : session_state) k k' :
  key_eqb k k' = true -> final_score_for st k = final_score_for st k'.
Proof.
  intros H. unfold final_score_for, score_in, dict_mem.
  now rewrite !(dict_find_key_eqb _ _ _ H).
Qed.

Lemma final_scores_loop_find (st : session_state) names acc k :
  dict_find (final_scores_loop st names acc) k =
  if existsb (fun n => key_eqb n k) names
  then Some (final_score_for st k) else dict_find acc k.
Proof.
  revert acc. induction names as [|n names IH]; intros acc; simpl; [reflexivity|].
  rewrite IH, dict_find_set.
  destruct (existsb (fun n0 => key_eqb n0 k) names); [now rewrite orb_true_r|].
  rewrite orb_false_r. destruct (key_eqb n k) eqn:E; [|reflexivity].
  now rewrite (final_score_for_key_eqb st _ _ E).
Qed.

End FinalScores.

(** C3. For a genre with demand score [d] and competition-ease score [c],
    [calculate_final_scores] stores a composite total equal to
    [0.4*d + 0.4*c + 0.2*s] when the genre has a social result with SNS
    score [s], and equal to the two-axis formula [0.5*d + 0.5*c] when it
    has none, in which case no SNS score is stored; the weights used sum
    to 1 in both cases. *)
Theorem final_score_weights :
  forall (st : session_state) (genre_name : value)
         (dr : genre_result keyword_result),
    dict_find (demand_data st) genre_name = Some dr ->
    exists fs,
      dict_find (final_scores (calculate_final_scores st)) genre_name = Some fs
      /\ demand_score_of fs = result_score dr
      /\ competition_score_of fs = score_in (competition_data st) genre_name
      /\ (forall sr, dict_find (social_data st) genre_name = Some sr ->
            sns_score_of fs = Some (result_score sr)
            /\ total_score fs ==
                 (4 # 10) * result_score dr
                 + (4 # 10) * score_in (competition_data st) genre_name
                 + (2 # 10) * result_score sr
            /\ (4 # 10) + (4 # 10) + (2 # 10) == 1)
      /\ (dict_find (social_data st) genre_name = None ->
            sns_score_of fs = None
            /\ total_score fs ==
                 (5 # 10) * result_score dr
                 + (5 # 10) * score_in (competition_data st) genre_name
            /\ (5 # 10) + (5 # 10) == 1).
Proof.
  intros st genre_name dr Hd.
  exists (final_score_for st genre_name). split.
  - simpl. rewrite final_scores_loop_find.
    now rewrite (dict_find_some_key _ _ _ Hd).
  - unfold final_score_for, score_in, dict_mem. rewrite Hd. simpl.
    repeat split; try reflexivity.
    + rewrite H. reflexivity.
    + rewrite H. simpl. ring.
    + rewrite H. reflexivity.
    + rewrite H. simpl. ring.
Qed.

(** The weights at work on a state with one genre analysed on the three
    axes. *)
Lemma final_score_weights_witness :
  exists fs,
    dict_find
      (final_scores
         (calculate_final_scores
            (SessionState
               [(VStr (py "X"), GenreResult (VStr (py "X")) [] 60)]
               [(VStr (py "X"), GenreResult (VStr (py "X")) [] 80)]
               [(VStr (py "X"), GenreResult (VStr (py "X")) [] 50)]
               [])))
      (VStr (py "X")) = Some fs
    /\ total_score fs == 66.
Proof.
  destruct (final_score_weights
              (SessionState
                 [(VStr (py "X"), GenreResult (VStr (py "X")) [] 60)]
                 [(VStr (py "X"), GenreResult (VStr (py "X")) [] 80)]
                 [(VStr (py "X"), GenreResult (VStr (py "X")) [] 50)]
                 [])
              (VStr (py "X")) (GenreResult (VStr (py "X")) [] 60)
              eq_refl) as (fs & Hf & _ & _ & Hs & _).
  exists fs. split; [exact Hf|].
  destruct (Hs (GenreResult (VStr (py "X")) [] 50) eq_refl) as (_ & Ht & _).
  rewrite Ht. vm_compute. reflexivity.
Defined.


(** ** Draws and rounding *)

Lemma unit_fraction (n : Z) :
  0 <= n < 2 ^ 53 -> (0 <= inject_Z n / inject_Z (2 ^ 53) < 1)%Q.
Proof.
  intros [H0 H1].
  assert (Hp : (0 < inject_Z (2 ^ 53))%Q) by reflexivity.
  split.
  - apply Qle_shift_div_l; [exact Hp|]. rewrite Qmult_0_l.
    change 0%Q with (inject_Z 0). now rewrite <- Zle_Qle.
  - apply Qlt_shift_div_r; [exact Hp|]. rewrite Qmult_1_l.
    now rewrite <- Zlt_Qlt.
Qed.

Lemma unit_draw_range {RT : Runtime} (s : rng) :
  (0 <= fst (unit_draw s) < 1)%Q.
Proof.
  unfold unit_draw. destruct (next_bits53 s) as [bits s']. simpl.
  apply unit_fraction.
  pose proof (N.mod_upper_bound bits (2 ^ 53)%N) as H.
  assert (Hlt : (bits mod 2 ^ 53 < 2 ^ 53)%N) by (apply H; discriminate).
  split; [apply N2Z.is_nonneg|].
  change (2 ^ 53) with (Z.of_N (2 ^ 53)%N). now apply N2Z.inj_lt.
Qed.

Lemma uniform_range (a b u : Q) :
  (a <= b -> 0 <= u < 1 -> a <= a + (b - a) * u <= b)%Q.
Proof. intros Hab [H0 H1]. split; nra. Qed.

Lemma py_int_nonneg (x : Q) : (0 <= x)%Q -> 0 <= py_int x.
Proof.
  intros H. unfold py_int. apply Z.quot_pos; [|lia].
  unfold Qle in H. simpl in H. lia.
Qed.

Lemma round_half_even_bounds (lo hi : Z) (x : Q) :
  (inject_Z lo <= x <= inject_Z hi)%Q -> lo <= round_half_even x <= hi.
Proof.
  intros [Hlo Hhi]. unfold round_half_even.
  pose proof (Qfloor_le x) as Hf. pose proof (Qlt_floor x) as Hc.
  assert (H1 : lo <= Qfloor x).
  { rewrite <- (Qfloor_Z lo). now apply Qfloor_resp_le. }
  assert (H2 : Qfloor x <= hi).
  { rewrite <- (Qfloor_Z hi). now apply Qfloor_resp_le. }
  assert (H3 : (0 < x - inject_Z (Qfloor x))%Q -> Qfloor x + 1 <= hi).
  { intros Hr. assert (Hlt : (inject_Z (Qfloor x) < inject_Z hi)%Q) by lra.
    rewrite <- Zlt_Qlt in Hlt. lia. }
  destruct (x - inject_Z (Qfloor x) ?= 1 # 2)%Q eqn:E.
  - apply Qeq_alt in E.
    destruct (Z.even (Qfloor x)); [lia|]. split; [lia|]. apply H3. lra.
  - lia.
  - apply Qgt_alt in E. split; [lia|]. apply H3. lra.
Qed.

Lemma py_round_bounds (lo hi : Z) (x : Q) (ndigits : nat) :
  (inject_Z lo <= x <= inject_Z hi)%Q ->
  (inject_Z lo <= py_round x ndigits <= inject_Z hi)%Q.
Proof.
  intros [Hlo Hhi]. unfold py_round.
  set (s := 10 ^ Z.of_nat ndigits).
  assert (Hs : 0 < s) by (apply Z.pow_pos_nonneg; lia).
  assert (HsQ : (0 < inject_Z s)%Q)
    by (change 0%Q with (inject_Z 0); rewrite <- Zlt_Qlt; exact Hs).
  assert (Hb : lo * s <= round_half_even (x * inject_Z s) <= hi * s).
  { apply round_half_even_bounds. rewrite !inject_Z_mult. split; nra. }
  destruct Hb as [Hb1 Hb2].
  rewrite Zle_Qle, inject_Z_mult in Hb1, Hb2.
  split.
  - apply Qle_shift_div_l; [exact HsQ|exact Hb1].
  - apply Qle_shift_div_r; [exact HsQ|exact Hb2].
Qed.

Lemma difficulty_of_range (keyword : str) (base : Q) :
  (0 <= difficulty_of keyword base <= 100)%Q.
Proof.
  unfold difficulty_of. split.
  - apply Q.min_glb; [lra|apply Q.le_max_l].
  - apply Q.le_min_l.
Qed.

(** ** The mocks *)

Section Mocks.

Context {RT : Runtime}.

Lemma competition_draws_range (bytes : list N) :
  (0 <= fst (competition_draws bytes) <= 100
   /\ 0 <= snd (competition_draws bytes) <= 10000)%Q.
Proof.
  unfold competition_draws.
  pose proof (unit_draw_range (seeded (md5_int bytes))) as H1.
  destruct (unit_draw (seeded (md5_int bytes))) as [u1 s1].
  pose proof (unit_draw_range s1) as H2.
  destruct (unit_draw s1) as [u2 s2]. simpl in *.
  split; apply uniform_range; (lra || assumption).
Qed.

(** The mock is a function of the keyword: whatever the world, the dict is
    the one of the draws that follow the seeding. *)
Lemma mock_competition_data_value (k : str) (bytes : list N) (w : world) :
  encode k = Some bytes ->
  exists w',
    mock_competition_data (VStr k) w
    = (Ok (competition_metric k (fst (competition_draws bytes))
             (snd (competition_draws bytes))), w').
Proof.
  intros He.
  unfold mock_competition_data, mock_competition_value, competition_draws.
  rewrite He.
  unfold bind, random_seed, random_uniform, random_random, with_rng, bind, ret.
  simpl.
  destruct (unit_draw (seeded (md5_int bytes))) as [u1 s1]. simpl.
  destruct (unit_draw s1) as [u2 s2]. simpl.
  eexists. reflexivity.
Qed.

Lemma mock_twitter_data_value (k : str) (bytes : list N) (w : world) :
  encode k = Some bytes ->
  exists w',
    mock_twitter_data (VStr k) w = (Ok (mock_twitter_value k bytes), w').
Proof.
  intros He. unfold mock_twitter_data, mock_twitter_value, twitter_draws.
  rewrite He.
  unfold bind, random_seed, random_randint, randbelow, random_uniform,
    random_choices1, random_random, with_rng, bind, ret.
  simpl.
  destruct (next_below _ (seeded (md5_int bytes))) as [r s1]. simpl.
  destruct (unit_draw s1) as [u2 s2]. simpl.
  destruct (unit_draw s2) as [u3 s3]. simpl.
  eexists. reflexivity.
Qed.

End Mocks.

(** C8 (as amended). For every keyword that has a UTF-8 form, the mock
    competition metric is determined by the keyword alone: with [base] in
    [[0,100]] and [u] in [[0,10000]] the two draws that follow the
    seeding by the keyword's digest, and
    [clamp = min(100, max(0, base + 10*markers - len/10))], the reported
    difficulty is [clamp] rounded to one decimal and lies in [[0,100]], and
    the competitor count is the integer part of [clamp*1000 + u], which is
    not negative. *)
Theorem mock_competition_metric_shape :
  forall (RT : Runtime) (k : str) (bytes : list N),
    encode k = Some bytes ->
    exists base u clamp,
      (0 <= base <= 100)%Q /\ (0 <= u <= 10000)%Q
      /\ clamp =
           Qmin 100
             (Qmax 0 (base
                      + inject_Z (Z.of_nat (List.length
                           (List.filter (fun word => contains word k)
                              common_keywords)) * 10)
                      - inject_Z (Z.of_nat (List.length k)) / 10))
      /\ (0 <= py_round clamp 1 <= 100)%Q
      /\ 0 <= py_int (clamp * 1000 + u)
      /\ forall w : world,
           exists metric w',
             mock_competition_data (VStr k) w = (Ok metric, w')
             /\ pydict_get metric k_difficulty VNone
                = VFloat (py_round clamp 1)
             /\ pydict_get metric k_competitors VNone
                = VInt (py_int (clamp * 1000 + u)).
Proof.
  intros RT k bytes He.
  destruct (competition_draws_range bytes) as [Hb Hu].
  exists (fst (competition_draws bytes)), (snd (competition_draws bytes)),
    (difficulty_of k (fst (competition_draws bytes))).
  pose proof (difficulty_of_range k (fst (competition_draws bytes))) as Hd.
  repeat split; try tauto.
  - apply (py_round_bounds 0 100). exact Hd.
  - apply (py_round_bounds 0 100). exact Hd.
  - apply py_int_nonneg. nra.
  - intros w. destruct (mock_competition_data_value k bytes w He) as [w' Hm].
    eexists _, w'. split; [exact Hm|]. split; reflexivity.
Qed.

Lemma mock_competition_metric_shape_witness :
  exists base u clamp,
    (0 <= base <= 100)%Q /\ (0 <= u <= 10000)%Q
    /\ (0 <= py_round clamp 1 <= 100)%Q
    /\ exists metric w',
         @mock_competition_data Reference.runtime (VStr (py "abc"))
           Reference.world0 = (Ok metric, w')
         /\ pydict_get metric k_difficulty VNone = VFloat (py_round clamp 1)
         /\ pydict_get metric k_competitors VNone
            = VInt (py_int (clamp * 1000 + u)).
Proof.
  destruct (mock_competition_metric_shape Reference.runtime (py "abc")
              [97; 98; 99]%N eq_refl)
    as (base & u & clamp & Hb & Hu & _ & Hr & _ & Hm).
  exists base, u, clamp. repeat split; try tauto.
  exact (Hm Reference.world0).
Defined.

(** C8 (counterexample to the claim as stated). With the draws
    [base = 50.26] and [u = 0.7] for the keyword [abc], the clamp is
    [49.96]: the metric reports the difficulty [50.0], not the clamp, and
    the competitor count [49960], the integer part of [49960.7], not its
    rounding [49961]. *)
Lemma mock_competition_metric_not_rounded_count :
  let k := py "abc" in
  let base := (5026 # 100)%Q in
  let u := (7 # 10)%Q in
  let clamp := Qmin 100 (Qmax 0 (base + 0 - inject_Z 3 / 10)) in
  ((0 <= base <= 100)%Q /\ (0 <= u <= 10000)%Q)
  /\ common_factor k = 0
  /\ clamp == (4996 # 100)
  /\ (exists d, pydict_get (competition_metric k base u) k_difficulty VNone
                = VFloat d /\ d == 50 /\ ~ d == clamp)
  /\ pydict_get (competition_metric k base u) k_competitors VNone = VInt 49960
  /\ round_half_even (clamp * 1000 + u) = 49961.
Proof.
  cbv zeta. repeat split; try (vm_compute; congruence).
  eexists. split; [vm_compute; reflexivity|]. split; vm_compute; congruence.
Qed.


(** ** The genre loop *)

Section GenreLoopFacts.

Context {RT : Runtime}.
Context {E : Type}.
Variable analyze_one : value -> value -> M (genre_result E).

Lemma genre_loop_entries (genres : list value)
  (acc : odict (genre_result E)) (w : world) :
  genre_loop analyze_one genres acc w
  = entries_loop analyze_one (kept_entries genres) acc w.
Proof.
  revert acc w. induction genres as [|genre rest IH]; intros acc w; simpl.
  - reflexivity.
  - unfold kept_entry. destruct (genre_fields genre) as [[n k]|].
    + destruct (truthy n); simpl; [|apply IH].
      destruct (truthy k); simpl; [|apply IH].
      unfold bind. destruct (analyze_one n k w) as [[r|e] w1]; [|reflexivity].
      unfold lift. destruct (setitem acc n r); [apply IH|reflexivity].
    + apply IH.
Qed.

Lemma kept_entries_truthy (genres : list value) :
  Forall (fun nk => truthy (fst nk) = true /\ truthy (snd nk) = true)
    (kept_entries genres).
Proof.
  induction genres as [|genre rest IH]; simpl; [constructor|].
  unfold kept_entry. destruct (genre_fields genre) as [[n k]|]; [|exact IH].
  destruct (truthy n) eqn:En; simpl; [|exact IH].
  destruct (truthy k) eqn:Ek; simpl; [|exact IH].
  constructor; [now split|exact IH].
Qed.

Lemma kept_entries_app (l1 l2 : list value) :
  kept_entries (l1 ++ l2) = kept_entries l1 ++ kept_entries l2.
Proof.
  induction l1 as [|g l1 IH]; simpl; [reflexivity|].
  destruct (kept_entry g); simpl; now rewrite IH.
Qed.

(** One step of the loop that returns. *)
Lemma entries_loop_cons_ok n k rest acc w out w' :
  entries_loop analyze_one ((n, k) :: rest) acc w = (Ok out, w') ->
  exists r w1,
    analyze_one n k w = (Ok r, w1) /\ hashable n = true
    /\ entries_loop analyze_one rest (dict_set acc n r) w1 = (Ok out, w').
Proof.
  simpl. unfold bind, lift, setitem.
  destruct (analyze_one n k w) as [[r|e] w1]; [|discriminate].
  destruct (hashable n); [|discriminate].
  intros H. now exists r, w1.
Qed.

(** The keys of the result are the keys written, in order of first
    writing. *)
Lemma entries_loop_keys entries acc w out w' :
  entries_loop analyze_one entries acc w = (Ok out, w') ->
  dict_keys out = fold_left add_key (map fst entries) (dict_keys acc).
Proof.
  revert acc w. induction entries as [|[n k] rest IH]; intros acc w H.
  - simpl in H. injection H as <- _. reflexivity.
  - apply entries_loop_cons_ok in H as (r & w1 & _ & _ & H).
    apply IH in H. rewrite H. simpl. now rewrite dict_keys_set.
Qed.

(** A result that is only written under names of a class is stored under
    such names. *)
Lemma entries_loop_keys_forall (Pk : value -> Prop) entries acc w out w' :
  entries_loop analyze_one entries acc w = (Ok out, w') ->
  Forall Pk (dict_keys acc) -> Forall Pk (map fst entries) ->
  Forall Pk (dict_keys out).
Proof.
  revert acc w. induction entries as [|[n k] rest IH]; intros acc w H Ha He.
  - simpl in H. injection H as <- _. exact Ha.
  - apply entries_loop_cons_ok in H as (r & w1 & _ & _ & H).
    inversion He; subst. apply (IH _ _ H); [|assumption].
    rewrite dict_keys_set. unfold add_key.
    destruct (existsb _ _); [exact Ha|].
    apply Forall_app. split; [exact Ha|]. constructor; [assumption|constructor].
Qed.

(** The results stored satisfy what every analysis of one genre
    establishes. *)
Lemma entries_loop_values_forall (Pr : genre_result E -> Prop)
  entries acc w out w' :
  (forall n k w0 r w1, analyze_one n k w0 = (Ok r, w1) -> Pr r) ->
  entries_loop analyze_one entries acc w = (Ok out, w') ->
  Forall Pr (dict_values acc) -> Forall Pr (dict_values out).
Proof.
  intros Hf. revert acc w. induction entries as [|[n k] rest IH]; intros acc w H Ha.
  - simpl in H. injection H as <- _. exact Ha.
  - apply entries_loop_cons_ok in H as (r & w1 & Hr & _ & H).
    apply (IH _ _ H). clear IH H. apply Hf in Hr.
    induction acc as [|[k0 v0] acc IHa]; simpl.
    + constructor; [exact Hr|constructor].
    + inversion Ha; subst. destruct (key_eqb k0 n); simpl.
      * constructor; assumption.
      * constructor; [assumption|]. now apply IHa.
Qed.

(** The payloads an analyzer takes to its loop, and those it answers
    with the empty dict. *)
Lemma analyze_genres_cases (payload : value) (w : world) :
  (exists genres,
      convert_genres payload = Some (VList genres)
      /\ analyze_genres analyze_one payload w
         = entries_loop analyze_one (kept_entries genres) [] w)
  \/ analyze_genres analyze_one payload w = (Ok [], w)
  \/ analyze_genres analyze_one payload w = (Raise TypeError, w).
Proof.
  unfold analyze_genres. destruct (convert_genres payload) as [g|] eqn:Ec.
  - destruct g; simpl; try (right; left; reflexivity);
      try (right; right; reflexivity).
    + left. exists items. split; [reflexivity|].
      unfold bind, lift. simpl. apply genre_loop_entries.
    + exfalso. unfold convert_genres in Ec.
      destruct (is_list payload) eqn:El.
      * injection Ec as ->. discriminate.
      * destruct (match payload with VStr s => json_loads s | _ => Some payload end)
          as [[]|]; try discriminate.
        destruct (find_genre_list items0 genre_list_keys); discriminate.
  - right; left; reflexivity.
Qed.

Lemma analyze_genres_list (genres : list value) (w : world) :
  analyze_genres analyze_one (VList genres) w
  = entries_loop analyze_one (kept_entries genres) [] w.
Proof.
  unfold analyze_genres. simpl. unfold bind, lift. apply genre_loop_entries.
Qed.

Lemma analyze_genres_keys payload genres w out w' :
  convert_genres payload = Some (VList genres) ->
  analyze_genres analyze_one payload w = (Ok out, w') ->
  dict_keys out = first_occurrences (map fst (kept_entries genres)).
Proof.
  intros Hc H. unfold analyze_genres in H. rewrite Hc in H. simpl in H.
  unfold bind, lift in H. simpl in H. rewrite genre_loop_entries in H.
  now apply entries_loop_keys in H.
Qed.

Lemma truthy_not_empty (k : value) :
  truthy k = true -> k <> VStr [] /\ k <> VList [].
Proof. intros H. split; intros ->; discriminate. Qed.

Lemma analyze_genres_keys_truthy payload w out w' :
  analyze_genres analyze_one payload w = (Ok out, w') ->
  Forall (fun k => truthy k = true /\ k <> VStr []) (dict_keys out).
Proof.
  intros H.
  destruct (analyze_genres_cases payload w) as [(genres & _ & Hl)|[He|He]];
    rewrite H in *.
  - symmetry in Hl.
    apply (entries_loop_keys_forall _ _ _ _ _ _ Hl); [constructor|].
    apply Forall_map. eapply Forall_impl; [|apply kept_entries_truthy].
    intros [n k] [Hn _]. split; [exact Hn|]. now apply truthy_not_empty.
  - injection He as -> _. constructor.
  - discriminate.
Qed.

Lemma entries_loop_app l1 l2 acc w :
  entries_loop analyze_one (l1 ++ l2) acc w
  = match entries_loop analyze_one l1 acc w with
    | (Ok acc', w1) => entries_loop analyze_one l2 acc' w1
    | (Raise e, w1) => (Raise e, w1)
    end.
Proof.
  revert acc w. induction l1 as [|[n k] l1 IH]; intros acc w; simpl.
  - reflexivity.
  - unfold bind, lift.
    destruct (analyze_one n k w) as [[r|e] w1]; [|reflexivity].
    destruct (setitem acc n r); [apply IH|reflexivity].
Qed.

(** Writes under other names leave a name's result in place. *)
Lemma entries_loop_find_other entries acc w out w' name :
  entries_loop analyze_one entries acc w = (Ok out, w') ->
  (forall nk, In nk entries -> key_eqb (fst nk) name = false) ->
  dict_find out name = dict_find acc name.
Proof.
  revert acc w. induction entries as [|[n k] rest IH]; intros acc w H Hn.
  - simpl in H. injection H as <- _. reflexivity.
  - apply entries_loop_cons_ok in H as (r & w1 & _ & _ & H).
    rewrite (IH _ _ H); [|intros nk Hin; apply Hn; now right].
    rewrite dict_find_set.
    pose proof (Hn (n, k) (or_introl eq_refl)) as Hk. simpl in Hk.
    now rewrite Hk.
Qed.

(** The result stored under a name is the one of the last entry that
    bears it. *)
Lemma entries_loop_last_write l1 n k l2 w out w' :
  entries_loop analyze_one (l1 ++ (n, k) :: l2) [] w = (Ok out, w') ->
  (forall nk, In nk l2 -> key_eqb (fst nk) n = false) ->
  exists acc w1 r w2,
    entries_loop analyze_one l1 [] w = (Ok acc, w1)
    /\ analyze_one n k w1 = (Ok r, w2)
    /\ dict_find out n = Some r.
Proof.
  intros H Hn. rewrite entries_loop_app in H.
  destruct (entries_loop analyze_one l1 [] w) as [[acc|e] w1]; [|discriminate].
  apply entries_loop_cons_ok in H as (r & w2 & Hr & Hh & H).
  exists acc, w1, r, w2. repeat split; try assumption.
  rewrite (entries_loop_find_other _ _ _ _ _ n H Hn), dict_find_set.
  now rewrite key_eqb_refl.
Qed.

End GenreLoopFacts.


(** ** Payloads *)

Section Payloads.

Context {RT : Runtime}.
Context {E : Type}.
Variable analyze_one : value -> value -> M (genre_result E).

Lemma analyze_genres_invalid_json (s : str) (w : world) :
  json_loads s = None ->
  analyze_genres analyze_one (VStr s) w = (Ok [], w).
Proof.
  intros H. unfold analyze_genres, convert_genres. simpl. now rewrite H.
Qed.

Lemma analyze_genres_none (w : world) :
  analyze_genres analyze_one VNone w = (Raise TypeError, w).
Proof. reflexivity. Qed.

Lemma analyze_genres_json_null (s : str) (w : world) :
  json_loads s = Some VNone ->
  analyze_genres analyze_one (VStr s) w = (Raise TypeError, w).
Proof.
  intros H. unfold analyze_genres, convert_genres. simpl. now rewrite H.
Qed.

End Payloads.

(** C7. For every string payload that [json.loads] rejects, each of the
    three analyzers returns the empty mapping without raising and leaves
    the world as it was; the analysis run on such a (non-empty) payload
    ends with an empty composite-score mapping. *)
Theorem invalid_json_payload_gives_empty_results :
  forall (RT : Runtime) (P : Providers) (s : str)
         (google_api_key semrush_api_key ubersuggest_api_key
          twitter_bearer_token : value) (w : world),
    json_loads s = None ->
    analyze_demand (VStr s) google_api_key w = (Ok [], w)
    /\ analyze_genre_competition (VStr s) semrush_api_key
         ubersuggest_api_key w = (Ok [], w)
    /\ analyze_genre_social (VStr s) twitter_bearer_token w = (Ok [], w)
    /\ (s <> [] ->
        forall (add_tweet_analysis : bool) (st : session_state),
        exists st',
          run_analysis (VStr s) google_api_key twitter_bearer_token
            add_tweet_analysis st w = (Ok st', w)
          /\ final_scores st' = []).
Proof.
  intros RT P s g k1 k2 t w H.
  pose proof (fun E f => @analyze_genres_invalid_json RT E f s w H) as Ha.
  repeat split; try apply Ha.
  intros Hs add st. unfold run_analysis.
  assert (Ht : truthy (VStr s) = true) by (destruct s; [congruence|reflexivity]).
  rewrite Ht. unfold bind.
  unfold analyze_demand, analyze_genre_competition, analyze_genre_social.
  rewrite !Ha. destruct add.
  - rewrite Ha. eexists. split; reflexivity.
  - eexists. split; reflexivity.
Qed.

Lemma invalid_json_payload_gives_empty_results_witness :
  @analyze_demand Reference.runtime (VStr (py "not a topic list")) VNone
    Reference.world0 = (Ok [], Reference.world0)
  /\ exists st',
       @run_analysis Reference.runtime source_providers
         (VStr (py "not a topic list")) VNone VNone true
         (SessionState [] [] [] []) Reference.world0
       = (Ok st', Reference.world0)
       /\ final_scores st' = [].
Proof.
  destruct (invalid_json_payload_gives_empty_results Reference.runtime
              source_providers (py "not a topic list") VNone VNone VNone VNone
              Reference.world0 eq_refl) as (Hd & _ & _ & Hr).
  split; [exact Hd|].
  apply Hr. vm_compute. discriminate.
Defined.

(** C4 (the code at the failing input). The payload [None], and with the
    reference parser the JSON text [null], reach [for genre in genres]
    unguarded: each of the three analyzers raises [TypeError] instead of
    returning the empty mapping. *)
Theorem none_payload_raises_type_error :
  (forall (RT : Runtime) (P : Providers)
          (google_api_key semrush_api_key ubersuggest_api_key
           twitter_bearer_token : value) (w : world),
      analyze_demand VNone google_api_key w = (Raise TypeError, w)
      /\ analyze_genre_competition VNone semrush_api_key ubersuggest_api_key w
         = (Raise TypeError, w)
      /\ analyze_genre_social VNone twitter_bearer_token w
         = (Raise TypeError, w))
  /\ @analyze_demand Reference.runtime (VStr (py "null")) VNone
       Reference.world0 = (Raise TypeError, Reference.world0)
  /\ @analyze_genre_competition Reference.runtime source_providers
       (VStr (py "null")) VNone VNone Reference.world0
     = (Raise TypeError, Reference.world0)
  /\ @analyze_genre_social Reference.runtime source_providers
       (VStr (py "null")) VNone Reference.world0
     = (Raise TypeError, Reference.world0).
Proof.
  split; [intros; repeat split|].
  repeat split; apply analyze_genres_json_null; reflexivity.
Qed.

(** ** Determinism of the mocks *)

Section MockDeterminism.

Context {RT : Runtime}.

(** The competition mock reseeds the generator: its result does not depend
    on the world it runs in. *)
Lemma mock_competition_data_deterministic (keyword : value) (w1 w2 : world) :
  fst (mock_competition_data keyword w1) = fst (mock_competition_data keyword w2).
Proof.
  unfold mock_competition_data. destruct keyword; try reflexivity.
  destruct (encode s); [|reflexivity].
  unfold bind, random_seed, random_uniform, random_random, with_rng, bind, ret.
  simpl. destruct (unit_draw (seeded (md5_int l))) as [u1 s1]. simpl.
  destruct (unit_draw s1) as [u2 s2]. reflexivity.
Qed.

Lemma mock_twitter_data_deterministic (keyword : value) (w1 w2 : world) :
  fst (mock_twitter_data keyword w1) = fst (mock_twitter_data keyword w2).
Proof.
  unfold mock_twitter_data. destruct keyword; try reflexivity.
  destruct (encode s); [|reflexivity].
  unfold bind, random_seed, random_randint, randbelow, random_uniform,
    random_choices1, random_random, with_rng, bind, ret.
  simpl. destruct (next_below _ (seeded (md5_int l))) as [r s1]. simpl.
  destruct (unit_draw s1) as [u2 s2]. simpl.
  destruct (unit_draw s2) as [u3 s3]. reflexivity.
Qed.

(** The search-volume mock never looks at its keyword: its result is the
    next draw of whatever state the generator is in. *)
Lemma mock_search_volume_ignores_keyword (k k' : value) (w : world) :
  mock_search_volume k w = mock_search_volume k' w.
Proof. reflexivity. Qed.

End MockDeterminism.

(** C2 (the code at the failing input). [mock_search_volume] draws from
    the generator without seeding it by the keyword: its result is the next
    draw of the state the generator happens to be in, whatever the keyword.
    On the reference runtime the keyword [X] gets 507 from one generator
    state and 4365 from another. *)
Theorem mock_search_volume_depends_on_generator_state :
  (forall (RT : Runtime) (keyword : value) (w : world),
      fst (mock_search_volume keyword w)
      = Ok (500 + fst (next_below (10000 - 500 + 1) (rng_state w))
                  mod (10000 - 500 + 1)))
  /\ fst (@mock_search_volume Reference.runtime (VStr (py "X"))
            Reference.world0) = Ok 507
  /\ fst (@mock_search_volume Reference.runtime (VStr (py "X"))
            Reference.world1) = Ok 4365
  /\ fst (@mock_search_volume Reference.runtime (VStr (py "X"))
            Reference.world0)
     <> fst (@mock_search_volume Reference.runtime (VStr (py "X"))
               Reference.world1).
Proof.
  split.
  - intros RT keyword w.
    unfold mock_search_volume, random_randint, randbelow, bind, with_rng, ret.
    now destruct (next_below (10000 - 500 + 1) (rng_state w)).
  - repeat split; vm_compute; congruence.
Qed.


(** C9. An entry whose name is the empty string, or whose keyword list is
    empty, does not reach the analysis: the entries that do all have a
    truthy name and truthy keywords;
    each of the three analyzers either runs its analysis over exactly those
    entries of the converted payload, or returns the empty mapping, or
    raises on a payload that cannot be iterated; and no key of a mapping an
    analyzer returns is the empty string. *)
Theorem empty_entries_are_dropped :
  forall (RT : Runtime) (P : Providers),
    (forall d : pydict,
        pydict_get d k_genre_name (VStr []) = VStr []
        \/ pydict_get d k_keywords (VList []) = VList [] ->
        kept_entry (VDict d) = None)
    /\ (forall genres : list value,
          Forall (fun nk => (truthy (fst nk) = true /\ fst nk <> VStr [])
                            /\ (truthy (snd nk) = true /\ snd nk <> VList []))
            (kept_entries genres))
    /\ (forall (google_api_key payload : value) (w : world),
          (exists genres,
              convert_genres payload = Some (VList genres)
              /\ analyze_demand payload google_api_key w
                 = entries_loop (demand_genre google_api_key)
                     (kept_entries genres) [] w)
          \/ analyze_demand payload google_api_key w = (Ok [], w)
          \/ analyze_demand payload google_api_key w = (Raise TypeError, w))
    /\ (forall (semrush_api_key ubersuggest_api_key payload : value)
               (w : world),
          (exists genres,
              convert_genres payload = Some (VList genres)
              /\ analyze_genre_competition payload semrush_api_key
                   ubersuggest_api_key w
                 = entries_loop
                     (competition_genre semrush_api_key ubersuggest_api_key)
                     (kept_entries genres) [] w)
          \/ analyze_genre_competition payload semrush_api_key
               ubersuggest_api_key w = (Ok [], w)
          \/ analyze_genre_competition payload semrush_api_key
               ubersuggest_api_key w = (Raise TypeError, w))
    /\ (forall (twitter_bearer_token payload : value) (w : world),
          (exists genres,
              convert_genres payload = Some (VList genres)
              /\ analyze_genre_social payload twitter_bearer_token w
                 = entries_loop (social_genre twitter_bearer_token)
                     (kept_entries genres) [] w)
          \/ analyze_genre_social payload twitter_bearer_token w = (Ok [], w)
          \/ analyze_genre_social payload twitter_bearer_token w
             = (Raise TypeError, w))
    /\ (forall (google_api_key payload : value) (w w' : world) out,
          analyze_demand payload google_api_key w = (Ok out, w') ->
          Forall (fun k => truthy k = true /\ k <> VStr []) (dict_keys out))
    /\ (forall (semrush_api_key ubersuggest_api_key payload : value)
               (w w' : world) out,
          analyze_genre_competition payload semrush_api_key
            ubersuggest_api_key w = (Ok out, w') ->
          Forall (fun k => truthy k = true /\ k <> VStr []) (dict_keys out))
    /\ (forall (twitter_bearer_token payload : value) (w w' : world) out,
          analyze_genre_social payload twitter_bearer_token w = (Ok out, w') ->
          Forall (fun k => truthy k = true /\ k <> VStr []) (dict_keys out)).
Proof.
  intros RT P. split; [|split; [|repeat split]].
  - intros d [H|H]; unfold kept_entry; simpl; rewrite H; simpl;
      [reflexivity|now rewrite andb_false_r].
  - intros genres. eapply Forall_impl; [|apply kept_entries_truthy].
    intros [n k] [Hn Hk]. simpl in *.
    split; (split; [assumption|]); now apply truthy_not_empty.
  - intros g payload w. apply analyze_genres_cases.
  - intros k1 k2 payload w. apply analyze_genres_cases.
  - intros t payload w. apply analyze_genres_cases.
  - intros g payload w w' out. apply analyze_genres_keys_truthy.
  - intros k1 k2 payload w w' out. apply analyze_genres_keys_truthy.
  - intros t payload w w' out. apply analyze_genres_keys_truthy.
Qed.

Lemma empty_entries_are_dropped_witness :
  kept_entry (Examples.entry "" ["a"%string]) = None
  /\ exists out w',
       @analyze_genre_social Reference.runtime source_providers
         Examples.payload_with_empty_entries VNone Reference.world0
       = (Ok out, w')
       /\ dict_keys out = [VStr (py "Y")]
       /\ Forall (fun k => truthy k = true /\ k <> VStr []) (dict_keys out).
Proof.
  destruct (empty_entries_are_dropped Reference.runtime source_providers)
    as (Hd & _ & _ & _ & _ & _ & _ & Hs).
  split.
  - apply Hd. left. reflexivity.
  - eexists _, _. split; [vm_compute; reflexivity|].
    split; [reflexivity|].
    eapply (Hs VNone Examples.payload_with_empty_entries Reference.world0).
    vm_compute. reflexivity.
Defined.

(** C5 (as amended). The three analyzers are one loop over the converted
    payload. The keys of the mapping it returns are the names of the
    entries that reach the analysis, in input order, each name once, at the
    place of its first occurrence; entries that share a name are collapsed
    by the analyzer itself, and the result kept is the one of the last
    entry that bears the name. *)
Theorem output_keys_in_input_order_last_write_wins :
  forall (RT : Runtime) (P : Providers),
    (forall genres g,
        analyze_demand genres g = analyze_genres (demand_genre g) genres)
    /\ (forall genres k1 k2,
          analyze_genre_competition genres k1 k2
          = analyze_genres (competition_genre k1 k2) genres)
    /\ (forall genres t,
          analyze_genre_social genres t
          = analyze_genres (social_genre t) genres)
    /\ (forall (E : Type) (analyze_one : value -> value -> M (genre_result E))
               (payload : value) (genres : list value) (w w' : world) out,
          convert_genres payload = Some (VList genres) ->
          analyze_genres analyze_one payload w = (Ok out, w') ->
          dict_keys out = first_occurrences (List.map fst (kept_entries genres)))
    /\ (forall (E : Type) (analyze_one : value -> value -> M (genre_result E))
               (before after : list value) (genre genre_name keywords : value)
               (w w' : world) out,
          kept_entry genre = Some (genre_name, keywords) ->
          (forall nk, In nk (kept_entries after) ->
                      key_eqb (fst nk) genre_name = false) ->
          analyze_genres analyze_one (VList (before ++ genre :: after)) w
          = (Ok out, w') ->
          exists acc w1 r w2,
            analyze_genres analyze_one (VList before) w = (Ok acc, w1)
            /\ analyze_one genre_name keywords w1 = (Ok r, w2)
            /\ dict_find out genre_name = Some r).
Proof.
  intros RT P. repeat split.
  - intros E f payload genres w w' out. apply analyze_genres_keys.
  - intros E f before after genre n k w w' out Hk Hafter H.
    rewrite analyze_genres_list in H. rewrite kept_entries_app in H.
    simpl in H. rewrite Hk in H.
    destruct (entries_loop_last_write f _ _ _ _ _ _ _ H Hafter)
      as (acc & w1 & r & w2 & H1 & H2 & H3).
    exists acc, w1, r, w2. rewrite analyze_genres_list. now repeat split.
Qed.

Lemma output_keys_in_input_order_last_write_wins_witness :
  exists out w',
    @analyze_genres Reference.runtime _
      (@competition_genre Reference.runtime source_providers VNone VNone)
      (VList Examples.payload_of_names) Reference.world0 = (Ok out, w')
    /\ dict_keys out = [VStr (py "B"); VStr (py "A"); VStr (py "C")].
Proof.
  eexists _, _. split; [vm_compute; reflexivity|].
  destruct (output_keys_in_input_order_last_write_wins Reference.runtime
              source_providers) as (_ & _ & _ & Hk & _).
  erewrite (Hk _
              (@competition_genre Reference.runtime source_providers VNone VNone)
              (VList Examples.payload_of_names) Examples.payload_of_names
              Reference.world0 _ _ eq_refl);
    [reflexivity|vm_compute; reflexivity].
Defined.

(** C5 (counterexample to the claim as stated). Two valid entries named
    [X], with keywords [a] and [b]: both reach the analysis, and the
    mapping [analyze_genre_competition] returns has the single key [X],
    whose result is the one of the second entry. *)
Lemma duplicate_names_are_collapsed :
  kept_entries Examples.payload_with_duplicate
  = [(VStr (py "X"), VList [VStr (py "a")]);
     (VStr (py "X"), VList [VStr (py "b")])]
  /\ exists out,
       fst (@analyze_genre_competition Reference.runtime source_providers
              (VList Examples.payload_with_duplicate) VNone VNone
              Reference.world0) = Ok out
       /\ List.length out = 1%nat
       /\ dict_keys out = [VStr (py "X")]
       /\ exists r,
            dict_find out (VStr (py "X")) = Some r
            /\ dict_keys (result_entries r) = [VStr (py "b")].
Proof.
  split; [reflexivity|].
  eexists. split; [vm_compute; reflexivity|].
  repeat split. eexists. split; reflexivity.
Qed.


(** ** Failure isolation in the keyword loops *)

Lemma dict_mem_set {V} (d : odict V) n v k :
  dict_mem (dict_set d n v) k = key_eqb n k || dict_mem d k.
Proof.
  unfold dict_mem. rewrite dict_find_set. now destruct (key_eqb n k).
Qed.

Lemma key_eqb_str_eq (s : str) (k : value) :
  key_eqb (VStr s) k = true -> k = VStr s.
Proof.
  destruct k; simpl; try discriminate.
  intros H. apply str_eqb_eq in H. now subst.
Qed.

(** The [except] block runs: the entry is the mock. *)
Ltac fall_back Hx w1 :=
  let w' := fresh "w'" in
  destruct (Hx w1) as [w' ->]; eexists _, _; split; [reflexivity|].

(** The fetch returned in [w]: it does not raise in every world. *)
Ltac fetch_returned w Ef :=
  let Hf := fresh "Hf" in
  let e := fresh "e" in
  let w' := fresh "w'" in
  let Hr := fresh "Hr" in
  intros Hf; destruct (Hf w) as (e & w' & Hr); congruence.

Section KeywordLoops.

Context {RT : Runtime}.
Context {P : Providers}.

(** One keyword of [analyze_competition]: an entry is written whatever
    the fetch does, and it is the mock when the fetch raises. *)
Lemma competition_step (results : odict pydict) (k : str) (bytes : list N)
  (k1 k2 : value) (w : world) :
  encode k = Some bytes ->
  exists entry w',
    try_except (competition_try results (VStr k) k1 k2)
      (fun _ => competition_except results (VStr k)) w
    = (Ok (dict_set results (VStr k) entry), w')
    /\ (competition_fetch_fails k1 k2 (VStr k) ->
        entry = mock_competition_value k bytes).
Proof.
  intros He.
  assert (Hx : forall w0, exists w',
             competition_except results (VStr k) w0
             = (Ok (dict_set results (VStr k) (mock_competition_value k bytes)),
                w')).
  { intros w0. unfold competition_except, bind.
    destruct (mock_competition_data_value k bytes w0 He) as [w' ->].
    now exists w'. }
  unfold try_except, competition_try, competition_fetch_fails.
  destruct (truthy k1); [|destruct (truthy k2)].
  - unfold bind at 1.
    destruct (semrush_fetch (VStr k) k1 w) as [[data|e] w1] eqn:Ef;
      [|fall_back Hx w1; reflexivity].
    unfold bind, provider_entry, bind, lift.
    destruct (value_get data k_difficulty (VInt 0)) as [d|e1];
      [destruct (value_get data k_competitors (VInt 0)) as [c|e2]|];
      simpl; [eexists _, _; split; [reflexivity|]
             |fall_back Hx w1|fall_back Hx w1];
      fetch_returned w Ef.
  - unfold bind at 1.
    destruct (ubersuggest_fetch (VStr k) k2 w) as [[data|e] w1] eqn:Ef;
      [|fall_back Hx w1; reflexivity].
    unfold bind, provider_entry, bind, lift.
    destruct (value_get data k_difficulty (VInt 0)) as [d|e1];
      [destruct (value_get data k_competitors (VInt 0)) as [c|e2]|];
      simpl; [eexists _, _; split; [reflexivity|]
             |fall_back Hx w1|fall_back Hx w1];
      fetch_returned w Ef.
  - unfold bind.
    destruct (mock_competition_data_value k bytes w He) as [w' ->].
    eexists _, _. split; reflexivity.
Qed.

(** The loop of [analyze_competition] over mockable keywords: it returns,
    every keyword met or already present has an entry, and the entries of
    the keywords whose fetch raises are their mocks. *)
Lemma competition_loop_isolates (keywords : list value) (k1 k2 : value) :
  Forall mockable keywords ->
  forall (results : odict pydict) (w : world),
    (forall k bytes e,
        encode k = Some bytes -> competition_fetch_fails k1 k2 (VStr k) ->
        dict_find results (VStr k) = Some e ->
        e = mock_competition_value k bytes) ->
    exists results' w',
      competition_loop keywords results k1 k2 w = (Ok results', w')
      /\ (forall keyword,
             In keyword keywords \/ dict_mem results keyword = true ->
             dict_mem results' keyword = true)
      /\ (forall k bytes e,
             encode k = Some bytes -> competition_fetch_fails k1 k2 (VStr k) ->
             dict_find results' (VStr k) = Some e ->
             e = mock_competition_value k bytes).
Proof.
  induction 1 as [|keyword rest (k & bytes & -> & He) _ IH]; intros results w Hinv.
  - exists results, w. simpl. repeat split; [|exact Hinv].
    intros keyword [[]|H]; exact H.
  - simpl. unfold bind at 1.
    destruct (competition_step results k bytes k1 k2 w He)
      as (entry & w1 & -> & Hentry).
    destruct (IH (dict_set results (VStr k) entry) w1)
      as (results' & w' & Hl & Hmem & Hgood).
    { intros k' bytes' e He' Hf. rewrite dict_find_set.
      destruct (key_eqb (VStr k) (VStr k')) eqn:Ek.
      - apply key_eqb_str_eq in Ek. injection Ek as ->.
        intros [= <-]. rewrite He in He'. injection He' as <-.
        now apply Hentry.
      - now apply Hinv. }
    exists results', w'. split; [exact Hl|]. split; [|exact Hgood].
    intros keyword [[<-|Hin]|Hm]; apply Hmem.
    + right. rewrite dict_mem_set. simpl. now rewrite str_eqb_refl.
    + now left.
    + right. rewrite dict_mem_set, Hm. apply orb_true_r.
Qed.

(** The same for [analyze_twitter_engagement]. *)
Lemma twitter_step (results : odict pydict) (k : str) (bytes : list N)
  (token : value) (w : world) :
  encode k = Some bytes ->
  exists entry w',
    try_except (twitter_try results (VStr k) token)
      (fun _ => twitter_except results (VStr k)) w
    = (Ok (dict_set results (VStr k) entry), w')
    /\ (twitter_fetch_fails token (VStr k) ->
        entry = mock_twitter_value k bytes).
Proof.
  intros He.
  assert (Hx : forall w0, exists w',
             twitter_except results (VStr k) w0
             = (Ok (dict_set results (VStr k) (mock_twitter_value k bytes)),
                w')).
  { intros w0. unfold twitter_except, bind.
    destruct (mock_twitter_data_value k bytes w0 He) as [w' ->].
    now exists w'. }
  unfold try_except, twitter_try, twitter_fetch_fails.
  destruct (truthy token).
  - unfold bind at 1.
    destruct (twitter_fetch (VStr k) token w) as [[data|e] w1] eqn:Ef;
      [|fall_back Hx w1; reflexivity].
    unfold bind, twitter_entry, bind, lift.
    destruct (value_get data k_tweets (VInt 0)) as [d|e1];
      [destruct (value_get data k_engagement (VInt 0)) as [c|e2];
       [destruct (value_get data k_sentiment (VStr s_neutral)) as [x|e3]|]|];
      simpl; [eexists _, _; split; [reflexivity|]
             |fall_back Hx w1|fall_back Hx w1|fall_back Hx w1];
      fetch_returned w Ef.
  - unfold bind.
    destruct (mock_twitter_data_value k bytes w He) as [w' ->].
    eexists _, _. split; reflexivity.
Qed.

Lemma twitter_loop_isolates (keywords : list value) (token : value) :
  Forall mockable keywords ->
  forall (results : odict pydict) (w : world),
    (forall k bytes e,
        encode k = Some bytes -> twitter_fetch_fails token (VStr k) ->
        dict_find results (VStr k) = Some e ->
        e = mock_twitter_value k bytes) ->
    exists results' w',
      twitter_loop keywords results token w = (Ok results', w')
      /\ (forall keyword,
             In keyword keywords \/ dict_mem results keyword = true ->
             dict_mem results' keyword = true)
      /\ (forall k bytes e,
             encode k = Some bytes -> twitter_fetch_fails token (VStr k) ->
             dict_find results' (VStr k) = Some e ->
             e = mock_twitter_value k bytes).
Proof.
  induction 1 as [|keyword rest (k & bytes & -> & He) _ IH]; intros results w Hinv.
  - exists results, w. simpl. repeat split; [|exact Hinv].
    intros keyword [[]|H]; exact H.
  - simpl. unfold bind at 1.
    destruct (twitter_step results k bytes token w He)
      as (entry & w1 & -> & Hentry).
    destruct (IH (dict_set results (VStr k) entry) w1)
      as (results' & w' & Hl & Hmem & Hgood).
    { intros k' bytes' e He' Hf. rewrite dict_find_set.
      destruct (key_eqb (VStr k) (VStr k')) eqn:Ek.
      - apply key_eqb_str_eq in Ek. injection Ek as ->.
        intros [= <-]. rewrite He in He'. injection He' as <-.
        now apply Hentry.
      - now apply Hinv. }
    exists results', w'. split; [exact Hl|]. split; [|exact Hgood].
    intros keyword [[<-|Hin]|Hm]; apply Hmem.
    + right. rewrite dict_mem_set. simpl. now rewrite str_eqb_refl.
    + now left.
    + right. rewrite dict_mem_set, Hm. apply orb_true_r.
Qed.

End KeywordLoops.

(** C6 (as amended). For every list of keywords that are strings with a
    UTF-8 form (the keywords the mocks accept), every provider and every
    world: [analyze_competition] and [analyze_twitter_engagement] return a
    result that has an entry for every keyword of the list, and the entry
    of a keyword whose fetch raises is the mock metric of that keyword. *)
Theorem provider_failure_falls_back_to_mock :
  forall (RT : Runtime) (P : Providers) (keywords : list value)
         (semrush_api_key ubersuggest_api_key twitter_bearer_token : value)
         (w : world),
    Forall mockable keywords ->
    (exists results w',
        analyze_competition (VList keywords) semrush_api_key
          ubersuggest_api_key w = (Ok results, w')
        /\ (forall keyword,
               In keyword keywords -> dict_mem results keyword = true)
        /\ (forall k bytes,
               In (VStr k) keywords -> encode k = Some bytes ->
               competition_fetch_fails semrush_api_key ubersuggest_api_key
                 (VStr k) ->
               dict_find results (VStr k)
               = Some (mock_competition_value k bytes)
               /\ always_returns (mock_competition_data (VStr k))
                    (mock_competition_value k bytes)))
    /\ (exists results w',
          analyze_twitter_engagement (VList keywords) twitter_bearer_token w
          = (Ok results, w')
          /\ (forall keyword,
                 In keyword keywords -> dict_mem results keyword = true)
          /\ (forall k bytes,
                 In (VStr k) keywords -> encode k = Some bytes ->
                 twitter_fetch_fails twitter_bearer_token (VStr k) ->
                 dict_find results (VStr k) = Some (mock_twitter_value k bytes)
                 /\ always_returns (mock_twitter_data (VStr k))
                      (mock_twitter_value k bytes))).
Proof.
  intros RT P keywords k1 k2 t w Hk. split.
  - destruct (competition_loop_isolates keywords k1 k2 Hk [] w)
      as (results & w' & Hl & Hmem & Hgood); [discriminate|].
    exists results, w'. split; [exact Hl|]. split.
    + intros keyword Hin. apply Hmem. now left.
    + intros k bytes Hin He Hf. split.
      * pose proof (Hmem (VStr k) (or_introl Hin)) as Hm.
        unfold dict_mem in Hm.
        destruct (dict_find results (VStr k)) as [e|] eqn:Ef; [|discriminate].
        now rewrite (Hgood k bytes e He Hf Ef).
      * intros w0. now apply mock_competition_data_value.
  - destruct (twitter_loop_isolates keywords t Hk [] w)
      as (results & w' & Hl & Hmem & Hgood); [discriminate|].
    exists results, w'. split; [exact Hl|]. split.
    + intros keyword Hin. apply Hmem. now left.
    + intros k bytes Hin He Hf. split.
      * pose proof (Hmem (VStr k) (or_introl Hin)) as Hm.
        unfold dict_mem in Hm.
        destruct (dict_find results (VStr k)) as [e|] eqn:Ef; [|discriminate].
        now rewrite (Hgood k bytes e He Hf Ef).
      * intros w0. now apply mock_twitter_data_value.
Qed.

Lemma provider_failure_falls_back_to_mock_witness :
  exists results w',
    @analyze_competition Reference.runtime Examples.failing_providers
      (VList [VStr (py "ok"); VStr (py "bad")]) (VStr (py "key")) VNone
      Reference.world0 = (Ok results, w')
    /\ dict_mem results (VStr (py "ok")) = true
    /\ dict_find results (VStr (py "bad"))
       = Some (@mock_competition_value Reference.runtime (py "bad")
                 [98; 97; 100]%N).
Proof.
  assert (Hk : Forall mockable
                 [VStr (py "ok"); VStr (py "bad")]).
  { repeat constructor; eexists _, _; split; reflexivity. }
  destruct (provider_failure_falls_back_to_mock Reference.runtime
              Examples.failing_providers [VStr (py "ok"); VStr (py "bad")]
              (VStr (py "key")) VNone VNone Reference.world0 Hk)
    as ((results & w' & Hr & Hmem & Hmock) & _).
  exists results, w'. split; [exact Hr|]. split.
  - apply Hmem. left. reflexivity.
  - apply (Hmock (py "bad") [98; 97; 100]%N).
    + right. left. reflexivity.
    + reflexivity.
    + intros w0. eexists _, _. reflexivity.
Defined.

(** C6 (counterexample to the claim as stated). The [except] branch calls
    the same mock as the fallback, and the mock encodes the keyword: when
    the provider is down for a keyword that is not a string (the number
    2024) or that is a string without a UTF-8 form (a lone surrogate), the
    fallback raises in turn and the whole call is aborted, although the
    other keywords of the list are answered when the bad one is left
    out. *)
Lemma bad_keyword_aborts_the_keyword_loop :
  (@competition_fetch_fails Reference.runtime (Outage.providers (VInt 2024))
     (VStr (py "key")) VNone (VInt 2024)
   /\ fst (@analyze_competition Reference.runtime
             (Outage.providers (VInt 2024))
             (VList [VStr (py "a"); VInt 2024; VStr (py "b")])
             (VStr (py "key")) VNone Reference.world0)
      = Raise AttributeError
   /\ exists results,
        fst (@analyze_competition Reference.runtime
               (Outage.providers (VInt 2024))
               (VList [VStr (py "a"); VStr (py "b")])
               (VStr (py "key")) VNone Reference.world0)
        = Ok results
        /\ dict_keys results = [VStr (py "a"); VStr (py "b")])
  /\ (@twitter_fetch_fails Reference.runtime
        (Outage.providers Outage.lone_surrogate) (VStr (py "token"))
        Outage.lone_surrogate
      /\ fst (@analyze_twitter_engagement Reference.runtime
                (Outage.providers Outage.lone_surrogate)
                (VList [VStr (py "a"); Outage.lone_surrogate;
                        VStr (py "b")])
                (VStr (py "token")) Reference.world0)
         = Raise UnicodeEncodeError
      /\ exists results,
           fst (@analyze_twitter_engagement Reference.runtime
                  (Outage.providers Outage.lone_surrogate)
                  (VList [VStr (py "a"); VStr (py "b")])
                  (VStr (py "token")) Reference.world0)
           = Ok results
           /\ dict_keys results = [VStr (py "a"); VStr (py "b")]).
Proof.
  split; (split; [|split]).
  - intros w. eexists _, _. reflexivity.
  - vm_compute. reflexivity.
  - eexists. split; vm_compute; reflexivity.
  - intros w. eexists _, _. reflexivity.
  - vm_compute. reflexivity.
  - eexists. split; vm_compute; reflexivity.
Qed.


(** ** Bounds of the axis scores *)

Lemma Forall_dict_set {V} (Pv : V -> Prop) (d : odict V) k v :
  Forall Pv (dict_values d) -> Pv v -> Forall Pv (dict_values (dict_set d k v)).
Proof.
  intros Hd Hv. induction d as [|[k0 v0] d IH]; simpl.
  - constructor; [exact Hv|constructor].
  - inversion Hd; subst. destruct (key_eqb k0 k); simpl.
    + constructor; assumption.
    + constructor; [assumption|]. now apply IH.
Qed.

Lemma py_sum_lower (lo : Q) (l : list value) :
  Forall (fun v => exists x, num_of v = Some x /\ (lo <= x)%Q) l ->
  exists s, py_sum l = Ok s
            /\ (lo * inject_Z (Z.of_nat (List.length l)) <= s)%Q.
Proof.
  induction 1 as [|v l (x & Hx & Hlo) _ (s & Hs & Hb)].
  - exists 0%Q. split; [reflexivity|].
    change (inject_Z (Z.of_nat (List.length (@nil value)))) with 0%Q. lra.
  - exists (x + s)%Q. simpl py_sum. rewrite Hx, Hs. split; [reflexivity|].
    simpl List.length.
    rewrite Nat2Z.inj_succ, <- Z.add_1_r, inject_Z_plus.
    change (inject_Z 1) with 1%Q. lra.
Qed.

Lemma py_sum_upper (hi : Q) (l : list value) :
  Forall (fun v => exists x, num_of v = Some x /\ (x <= hi)%Q) l ->
  exists s, py_sum l = Ok s
            /\ (s <= hi * inject_Z (Z.of_nat (List.length l)))%Q.
Proof.
  induction 1 as [|v l (x & Hx & Hhi) _ (s & Hs & Hb)].
  - exists 0%Q. split; [reflexivity|].
    change (inject_Z (Z.of_nat (List.length (@nil value)))) with 0%Q. lra.
  - exists (x + s)%Q. simpl py_sum. rewrite Hx, Hs. split; [reflexivity|].
    simpl List.length.
    rewrite Nat2Z.inj_succ, <- Z.add_1_r, inject_Z_plus.
    change (inject_Z 1) with 1%Q. lra.
Qed.

Lemma length_pos_Q {A} (x : A) (l : list A) :
  (0 < inject_Z (Z.of_nat (List.length (x :: l))))%Q.
Proof.
  change 0%Q with (inject_Z 0). rewrite <- Zlt_Qlt. simpl List.length. lia.
Qed.

(** The mean of a field that is a number of [[lo, hi]] in every entry. *)
Lemma mean_field_bounds (lo hi : Q) (d : odict pydict) key default :
  (lo <= 0 <= hi)%Q ->
  Forall (fun e => exists x, num_of (pydict_get e key default) = Some x
                             /\ (lo <= x <= hi)%Q) (dict_values d) ->
  exists avg, mean_field d key default = Ok avg /\ (lo <= avg <= hi)%Q.
Proof.
  intros H0 Hd. unfold mean_field. destruct d as [|kv d].
  - now exists 0%Q.
  - assert (Hl : Forall (fun v => exists x, num_of v = Some x /\ (lo <= x)%Q)
                   (map (fun data => pydict_get data key default)
                      (dict_values (kv :: d)))).
    { apply Forall_map. eapply Forall_impl; [|exact Hd].
      intros e (x & Hx & Hb). exists x. tauto. }
    assert (Hu : Forall (fun v => exists x, num_of v = Some x /\ (x <= hi)%Q)
                   (map (fun data => pydict_get data key default)
                      (dict_values (kv :: d)))).
    { apply Forall_map. eapply Forall_impl; [|exact Hd].
      intros e (x & Hx & Hb). exists x. tauto. }
    apply py_sum_lower in Hl as (s & Hs & Hlo).
    apply py_sum_upper in Hu as (s' & Hs' & Hhi).
    rewrite Hs in Hs'. injection Hs' as <-. rewrite Hs.
    unfold dict_values in Hlo, Hhi. rewrite !length_map in Hlo, Hhi.
    pose proof (length_pos_Q kv d) as Hn.
    eexists. split; [reflexivity|]. split.
    + apply Qle_shift_div_l; assumption.
    + apply Qle_shift_div_r; assumption.
Qed.

(** The mean of a field that is a non-negative number in every entry. *)
Lemma mean_field_nonneg (d : odict pydict) key default :
  Forall (fun e => exists x, num_of (pydict_get e key default) = Some x
                             /\ (0 <= x)%Q) (dict_values d) ->
  exists avg, mean_field d key default = Ok avg /\ (0 <= avg)%Q.
Proof.
  intros Hd. unfold mean_field. destruct d as [|kv d].
  - exists 0%Q. split; [reflexivity|]. lra.
  - assert (Hl : Forall (fun v => exists x, num_of v = Some x /\ (0 <= x)%Q)
                   (map (fun data => pydict_get data key default)
                      (dict_values (kv :: d)))).
    { apply Forall_map. exact Hd. }
    apply py_sum_lower in Hl as (s & Hs & Hlo). rewrite Hs.
    unfold dict_values in Hlo. rewrite !length_map in Hlo.
    pose proof (length_pos_Q kv d) as Hn.
    eexists. split; [reflexivity|].
    apply Qle_shift_div_l; [assumption|]. lra.
Qed.

Lemma sentiment_value_range (x : value) (z : Q) :
  sentiment_value x = Ok z -> (- (1) <= z <= 1)%Q.
Proof.
  destruct x; simpl; try discriminate; intros [= <-]; try lra.
  repeat match goal with
         | |- context [if ?b then _ else _] => destruct b
         end; lra.
Qed.

Lemma sentiment_sum_bounds (l : list pydict) :
  Forall (fun e => exists z,
              sentiment_value (pydict_get e k_sentiment (VStr s_neutral)) = Ok z)
    l ->
  exists s, sentiment_sum l = Ok s
            /\ (- inject_Z (Z.of_nat (List.length l)) <= s
                <= inject_Z (Z.of_nat (List.length l)))%Q.
Proof.
  induction 1 as [|e l (z & Hz) _ (s & Hs & Hb)].
  - exists 0%Q. split; [reflexivity|].
    change (inject_Z (Z.of_nat (List.length (@nil pydict)))) with 0%Q. lra.
  - exists (z + s)%Q. simpl sentiment_sum. rewrite Hz, Hs.
    split; [reflexivity|]. apply sentiment_value_range in Hz.
    simpl List.length.
    rewrite Nat2Z.inj_succ, <- Z.add_1_r, inject_Z_plus.
    change (inject_Z 1) with 1%Q. lra.
Qed.

Lemma mean_sentiment_bounds (d : odict pydict) :
  Forall (fun e => exists z,
              sentiment_value (pydict_get e k_sentiment (VStr s_neutral)) = Ok z)
    (dict_values d) ->
  exists avg, mean_sentiment d = Ok avg /\ (- (1) <= avg <= 1)%Q.
Proof.
  intros Hd. unfold mean_sentiment. destruct d as [|kv d].
  - exists 0%Q. split; [reflexivity|]. lra.
  - apply sentiment_sum_bounds in Hd as (s & Hs & Hb). rewrite Hs.
    unfold dict_values in Hb. rewrite !length_map in Hb.
    pose proof (length_pos_Q kv d) as Hn.
    eexists. split; [reflexivity|]. split.
    + apply Qle_shift_div_l; [assumption|]. lra.
    + apply Qle_shift_div_r; [assumption|]. lra.
Qed.

Lemma sns_score_bounds (avg_tweet_count avg_engagement avg_sentiment : Q) :
  (0 <= avg_tweet_count)%Q -> (0 <= avg_engagement)%Q ->
  (- (1) <= avg_sentiment <= 1)%Q ->
  (0 <= sns_score avg_tweet_count avg_engagement avg_sentiment <= 100)%Q.
Proof.
  intros Ht He Hs. unfold sns_score.
  assert (H1 : (0 <= Qmin 100 (avg_tweet_count / 50) <= 100)%Q).
  { split; [|apply Q.le_min_l]. apply Q.min_glb; [lra|].
    apply Qle_shift_div_l; lra. }
  assert (H2 : (0 <= Qmin 100 (avg_engagement * 10) <= 100)%Q).
  { split; [|apply Q.le_min_l]. apply Q.min_glb; lra. }
  lra.
Qed.

(** ** The analyzers as the dashboard runs them *)

Section SourceProviders.

Context {RT : Runtime}.

#[local] Existing Instance source_providers.

(** A keyword is accepted by the mocks or makes them raise at once. *)
Lemma mock_competition_data_cases (keyword : value) :
  (exists k bytes, keyword = VStr k /\ encode k = Some bytes)
  \/ (forall w, exists e, mock_competition_data keyword w = (Raise e, w)).
Proof.
  destruct keyword; try (right; intros w; eexists; reflexivity).
  destruct (encode s) as [bytes|] eqn:He.
  - left. now exists s, bytes.
  - right. intros w. unfold mock_competition_data. rewrite He.
    eexists. reflexivity.
Qed.

Lemma mock_twitter_data_cases (keyword : value) :
  (exists k bytes, keyword = VStr k /\ encode k = Some bytes)
  \/ (forall w, exists e, mock_twitter_data keyword w = (Raise e, w)).
Proof.
  destruct keyword; try (right; intros w; eexists; reflexivity).
  destruct (encode s) as [bytes|] eqn:He.
  - left. now exists s, bytes.
  - right. intros w. unfold mock_twitter_data. rewrite He.
    eexists. reflexivity.
Qed.

Lemma competition_step_source (results : odict pydict)
  (keyword k1 k2 : value) (w w' : world) (results' : odict pydict) :
  try_except (competition_try results keyword k1 k2)
    (fun _ => competition_except results keyword) w = (Ok results', w') ->
  exists e, results' = dict_set results keyword e /\ competition_entry_ok e.
Proof.
  assert (Hmock : forall k bytes,
             competition_entry_ok (mock_competition_value k bytes)).
  { intros k bytes. exists 0%Q. split; [reflexivity|lra]. }
  assert (Hprov : forall k bytes src,
             competition_entry_ok
               [(k_keyword_difficulty,
                 pydict_get (mock_competition_value k bytes) k_difficulty
                   (VInt 0));
                (k_competitors,
                 pydict_get (mock_competition_value k bytes) k_competitors
                   (VInt 0));
                (k_source, VStr src)]).
  { intros k bytes src. eexists. split; [reflexivity|].
    apply (py_round_bounds 0 100). apply difficulty_of_range. }
  destruct (mock_competition_data_cases keyword)
    as [(k & bytes & -> & He)|Hr].
  - unfold try_except, competition_try.
    change (@semrush_fetch RT source_providers) with get_semrush_data.
    change (@ubersuggest_fetch RT source_providers) with get_ubersuggest_data.
    destruct (truthy k1); [|destruct (truthy k2)];
      unfold get_semrush_data, get_ubersuggest_data, bind;
      destruct (mock_competition_data_value k bytes w He) as [w1 ->];
      cbn -[mock_competition_value dict_set];
      intros [= <- <-]; eexists; (split; [reflexivity|]);
      (apply Hmock || apply Hprov).
  - unfold try_except, competition_try, competition_except.
    change (@semrush_fetch RT source_providers) with get_semrush_data.
    change (@ubersuggest_fetch RT source_providers) with get_ubersuggest_data.
    destruct (truthy k1); [|destruct (truthy k2)];
      unfold get_semrush_data, get_ubersuggest_data, bind;
      destruct (Hr w) as [e ->]; destruct (Hr w) as [e' ->]; discriminate.
Qed.

Lemma competition_loop_source (keywords : list value) (k1 k2 : value) :
  forall (results : odict pydict) (w w' : world) (results' : odict pydict),
    competition_loop keywords results k1 k2 w = (Ok results', w') ->
    Forall competition_entry_ok (dict_values results) ->
    Forall competition_entry_ok (dict_values results').
Proof.
  induction keywords as [|keyword rest IH]; intros results w w' results' H Hd.
  - simpl in H. injection H as <- _. exact Hd.
  - simpl in H. unfold bind at 1 in H.
    destruct (try_except _ _ w) as [[r1|e] w1] eqn:Es; [|discriminate].
    apply competition_step_source in Es as (e & -> & He).
    apply (IH _ _ _ _ H). now apply Forall_dict_set.
Qed.

(** The competition-ease score of a genre lies in [[0, 100]]. *)
Lemma competition_genre_score (k1 k2 genre_name keywords : value)
  (w w' : world) (r : genre_result pydict) :
  competition_genre k1 k2 genre_name keywords w = (Ok r, w') ->
  (0 <= result_score r <= 100)%Q.
Proof.
  unfold competition_genre, analyze_competition, bind, lift.
  destruct (py_iter keywords) as [ks|]; [|discriminate].
  destruct (competition_loop ks [] k1 k2 w) as [[d|e] w1] eqn:El;
    [|discriminate].
  apply competition_loop_source in El; [|constructor].
  destruct (mean_field_bounds 0 100 d k_keyword_difficulty (VInt 0))
    as (avg & -> & Havg); [lra|exact El|].
  unfold ret. intros [= <- _]. simpl. lra.
Qed.

Lemma twitter_draws_range (bytes : list N) :
  match twitter_draws bytes with
  | (base_tweets, engagement_rate, _) =>
      50 <= base_tweets <= 5000 /\ ((5 # 10) <= engagement_rate <= 10)%Q
  end.
Proof.
  unfold twitter_draws.
  destruct (next_below _ (seeded (md5_int bytes))) as [r s1].
  pose proof (unit_draw_range s1) as Hu.
  destruct (unit_draw s1) as [u2 s2]. destruct (unit_draw s2) as [u3 s3].
  simpl in Hu. split.
  - pose proof (Z.mod_pos_bound r (5000 - 50 + 1)). lia.
  - apply uniform_range; [lra|exact Hu].
Qed.

Lemma twitter_metric_ok (k : str) (base_tweets : Z) (engagement_rate : Q)
  (sentiment : str) :
  50 <= base_tweets -> ((5 # 10) <= engagement_rate <= 10)%Q ->
  twitter_entry_ok (twitter_metric k base_tweets engagement_rate sentiment)
  /\ forall src,
       twitter_entry_ok
         [(k_tweets, VInt (base_tweets * (if topic_factor k then 3 else 1)));
          (k_engagement, VFloat (py_round engagement_rate 2));
          (k_sentiment, VStr sentiment);
          (k_source, VStr src)].
Proof.
  intros Hb He.
  assert (Ht : (0 <= inject_Z (base_tweets * (if topic_factor k then 3 else 1)))%Q).
  { change 0%Q with (inject_Z 0). rewrite <- Zle_Qle.
    destruct (topic_factor k); lia. }
  assert (Hr : (0 <= py_round engagement_rate 2)%Q).
  { destruct (py_round_bounds 0 10 engagement_rate 2) as [H _]; [|exact H].
    change (inject_Z 0) with 0%Q. change (inject_Z 10) with 10%Q. lra. }
  split; [|intros src]; repeat split;
    solve [eexists; split; [reflexivity|assumption] | eexists; reflexivity].
Qed.

Lemma mock_twitter_value_ok (k : str) (bytes : list N) :
  twitter_entry_ok (mock_twitter_value k bytes)
  /\ twitter_entry_ok
       [(k_tweets, pydict_get (mock_twitter_value k bytes) k_tweets (VInt 0));
        (k_engagement,
         pydict_get (mock_twitter_value k bytes) k_engagement (VInt 0));
        (k_sentiment,
         pydict_get (mock_twitter_value k bytes) k_sentiment (VStr s_neutral));
        (k_source, VStr s_twitter_api)].
Proof.
  unfold mock_twitter_value. pose proof (twitter_draws_range bytes) as H.
  destruct (twitter_draws bytes) as [[base_tweets engagement_rate] sentiment].
  destruct H as [[Hb _] He].
  destruct (twitter_metric_ok k base_tweets engagement_rate sentiment Hb He)
    as [H1 H2].
  split; [exact H1|apply H2].
Qed.

Lemma twitter_step_source (results : odict pydict)
  (keyword token : value) (w w' : world) (results' : odict pydict) :
  try_except (twitter_try results keyword token)
    (fun _ => twitter_except results keyword) w = (Ok results', w') ->
  exists e, results' = dict_set results keyword e /\ twitter_entry_ok e.
Proof.
  destruct (mock_twitter_data_cases keyword) as [(k & bytes & -> & He)|Hr].
  - destruct (mock_twitter_value_ok k bytes) as [Hm Hp].
    unfold try_except, twitter_try.
    change (@twitter_fetch RT source_providers) with get_twitter_data.
    destruct (truthy token);
      unfold get_twitter_data, bind;
      destruct (mock_twitter_data_value k bytes w He) as [w1 ->];
      cbn -[mock_twitter_value dict_set];
      intros [= <- <-]; eexists; (split; [reflexivity|]);
      (exact Hm || exact Hp).
  - unfold try_except, twitter_try, twitter_except.
    change (@twitter_fetch RT source_providers) with get_twitter_data.
    destruct (truthy token);
      unfold get_twitter_data, bind;
      destruct (Hr w) as [e ->]; destruct (Hr w) as [e' ->]; discriminate.
Qed.

Lemma twitter_loop_source (keywords : list value) (token : value) :
  forall (results : odict pydict) (w w' : world) (results' : odict pydict),
    twitter_loop keywords results token w = (Ok results', w') ->
    Forall twitter_entry_ok (dict_values results) ->
    Forall twitter_entry_ok (dict_values results').
Proof.
  induction keywords as [|keyword rest IH]; intros results w w' results' H Hd.
  - simpl in H. injection H as <- _. exact Hd.
  - simpl in H. unfold bind at 1 in H.
    destruct (try_except _ _ w) as [[r1|e] w1] eqn:Es; [|discriminate].
    apply twitter_step_source in Es as (e & -> & He).
    apply (IH _ _ _ _ H). now apply Forall_dict_set.
Qed.

(** The SNS score of a genre lies in [[0, 100]]. *)
Lemma social_genre_score (token genre_name keywords : value)
  (w w' : world) (r : genre_result pydict) :
  social_genre token genre_name keywords w = (Ok r, w') ->
  (0 <= result_score r <= 100)%Q.
Proof.
  unfold social_genre, analyze_twitter_engagement, bind, lift.
  destruct (py_iter keywords) as [ks|]; [|discriminate].
  destruct (twitter_loop ks [] token w) as [[d|e] w1] eqn:El; [|discriminate].
  apply twitter_loop_source in El; [|constructor].
  destruct (mean_field_nonneg d k_tweets (VInt 0)) as (at_ & -> & Hat).
  { eapply Forall_impl; [|exact El]. intros e (H & _). exact H. }
  destruct (mean_field_nonneg d k_engagement (VInt 0)) as (ae & -> & Hae).
  { eapply Forall_impl; [|exact El]. intros e (_ & H & _). exact H. }
  destruct (mean_sentiment_bounds d) as (as_ & -> & Has).
  { eapply Forall_impl; [|exact El]. intros e (_ & _ & H). exact H. }
  unfold ret. intros [= <- _]. simpl. now apply sns_score_bounds.
Qed.

(** An analyzer stores what the analysis of one genre returned. *)
Lemma analyze_genres_values {E : Type}
  (analyze_one : value -> value -> M (genre_result E))
  (Pr : genre_result E -> Prop) (payload : value) (w w' : world) out :
  (forall n k w0 r w1, analyze_one n k w0 = (Ok r, w1) -> Pr r) ->
  analyze_genres analyze_one payload w = (Ok out, w') ->
  Forall Pr (dict_values out).
Proof.
  intros Hf H.
  destruct (analyze_genres_cases analyze_one payload w)
    as [(genres & _ & Hl)|[He|He]]; rewrite H in *.
  - symmetry in Hl.
    apply (entries_loop_values_forall analyze_one Pr _ _ _ _ _ Hf Hl).
    constructor.
  - injection He as -> _. constructor.
  - discriminate.
Qed.

End SourceProviders.

(** C1 (as amended). In an analysis run (the providers being the ones the
    source has), the competition-ease score and the SNS score of every genre
    an analyzer returns lie in [[0, 100]]. The composite total of
    [calculate_final_scores] is the weighted sum of the axis scores, without
    any clamp: it lies in [[0, 100]] whenever the axis scores it combines
    do. *)
Theorem competition_and_sns_scores_bounded :
  forall (RT : Runtime),
    (forall (semrush_api_key ubersuggest_api_key payload : value)
            (w w' : world) out,
        @analyze_genre_competition RT source_providers payload semrush_api_key
          ubersuggest_api_key w = (Ok out, w') ->
        Forall (fun r => 0 <= result_score r <= 100)%Q (dict_values out))
    /\ (forall (twitter_bearer_token payload : value) (w w' : world) out,
          @analyze_genre_social RT source_providers payload
            twitter_bearer_token w = (Ok out, w') ->
          Forall (fun r => 0 <= result_score r <= 100)%Q (dict_values out))
    /\ (forall (st : session_state) (genre_name : value) (fs : final_score),
          dict_find (final_scores (calculate_final_scores st)) genre_name
          = Some fs ->
          (0 <= score_in (demand_data st) genre_name <= 100)%Q ->
          (0 <= score_in (competition_data st) genre_name <= 100)%Q ->
          (0 <= score_in (social_data st) genre_name <= 100)%Q ->
          (0 <= total_score fs <= 100)%Q).
Proof.
  intros RT. split; [|split].
  - intros k1 k2 payload w w' out. apply analyze_genres_values.
    intros n k w0 r w1. apply competition_genre_score.
  - intros t payload w w' out. apply analyze_genres_values.
    intros n k w0 r w1. apply social_genre_score.
  - intros st genre_name fs H Hd Hc Hs.
    simpl in H. rewrite final_scores_loop_find in H.
    destruct (existsb _ _); [|discriminate]. injection H as <-.
    unfold final_score_for. simpl.
    destruct (dict_mem (social_data st) genre_name); split; lra.
Qed.

Lemma competition_and_sns_scores_bounded_witness :
  (exists out w',
      @analyze_genre_social Reference.runtime source_providers
        Examples.payload_one_genre VNone Reference.world0 = (Ok out, w')
      /\ Forall (fun r => 0 <= result_score r <= 100)%Q (dict_values out))
  /\ (exists fs,
        dict_find
          (final_scores (calculate_final_scores Examples.state_with_three_axes))
          (VStr (py "X")) = Some fs
        /\ (0 <= total_score fs <= 100)%Q).
Proof.
  destruct (competition_and_sns_scores_bounded Reference.runtime)
    as (_ & Hs & Ht).
  split.
  - eexists _, _. split; [vm_compute; reflexivity|].
    eapply (Hs VNone Examples.payload_one_genre Reference.world0).
    vm_compute. reflexivity.
  - eexists. split; [vm_compute; reflexivity|].
    eapply (Ht Examples.state_with_three_axes (VStr (py "X")));
      [vm_compute; reflexivity|vm_compute; split; discriminate..].
Defined.

(** C1 (counterexample to the claim as stated). The total is not clamped:
    for a genre with the demand score 250, the competition-ease score 100
    and no social result, [calculate_final_scores] stores the total 175.
    Such demand scores are what an analysis run produces: on the reference
    runtime the genre [X] with the keywords [X] and [Y] gets the demand
    score 651.75, half the mean of its two mock search volumes, and a total
    above 100. *)
Lemma final_total_is_not_clamped :
  (exists fs,
      dict_find
        (final_scores (calculate_final_scores Examples.state_with_high_demand))
        (VStr (py "X")) = Some fs
      /\ total_score fs == 175 /\ ~ (total_score fs <= 100)%Q)
  /\ (exists st fs,
        fst (@run_analysis Reference.runtime source_providers
               Examples.payload_one_genre VNone VNone false
               (SessionState [] [] [] []) Reference.world0) = Ok st
        /\ dict_find (final_scores st) (VStr (py "X")) = Some fs
        /\ demand_score_of fs == 651.75
        /\ ~ (demand_score_of fs <= 100)%Q
        /\ ~ (total_score fs <= 100)%Q).
Proof.
  split.
  - eexists. split; [vm_compute; reflexivity|].
    split; vm_compute; congruence.
  - eexists _, _. split; [vm_compute; reflexivity|].
    split; [vm_compute; reflexivity|].
    repeat split; vm_compute; congruence.
Qed.


(** ** Keywords given as a string *)

Section StringKeywords.

Context {RT : Runtime}.

(** The trends loop absorbs every failure of the service. *)
Lemma trends_loop_returns (groups : list value) :
  forall (result : odict trend_info) (w : world),
    exists trends_data w', trends_loop groups result w = (Ok trends_data, w').
Proof.
  induction groups as [|group rest IH]; intros result w; simpl.
  - now exists result, w.
  - unfold bind at 1.
    assert (Hg : exists r1 w1, trends_group group result w = (Ok r1, w1)).
    { unfold trends_group, try_except, bind.
      destruct (with_net (interest_over_time group) w) as [[df|e] w1].
      - destruct df as [|col df].
        + now exists result, w1.
        + unfold lift. destruct (py_iter group) as [ks|e].
          * eexists _, _. reflexivity.
          * now exists result, w1.
      - now exists result, w1. }
    destruct Hg as (r1 & w1 & ->). apply IH.
Qed.

Lemma search_volume_loop_returns (keywords : list value) :
  forall (result : odict Z) (w : world),
    exists search_volume w',
      search_volume_loop keywords result w = (Ok search_volume, w').
Proof.
  induction keywords as [|keyword rest IH]; intros result w; simpl.
  - now exists result, w.
  - unfold bind at 1.
    assert (Hs : exists r1 w1,
               try_except
                 (volume <- mock_search_volume keyword ;;
                  lift (setitem result keyword volume))
                 (fun _ => ret result) w = (Ok r1, w1)).
    { unfold try_except, bind, lift.
      destruct (mock_search_volume keyword w) as [[v|e] w1].
      - destruct (setitem result keyword v); eexists _, _; reflexivity.
      - eexists _, _. reflexivity. }
    destruct Hs as (r1 & w1 & ->). apply IH.
Qed.

Lemma keyword_entry_key_eqb trends_data search_volume k k' :
  key_eqb k k' = true ->
  keyword_entry trends_data search_volume k
  = keyword_entry trends_data search_volume k'.
Proof.
  intros H. unfold keyword_entry, volume_of.
  now rewrite !(dict_find_key_eqb _ _ _ H).
Qed.

Lemma keyword_result_loop_hashable (keywords : list value)
  (trends_data : odict trend_info) (search_volume : odict Z) :
  Forall (fun k => hashable k = true) keywords ->
  forall analysis,
    exists analysis',
      keyword_result_loop keywords trends_data search_volume analysis
      = Ok analysis'
      /\ dict_keys analysis' = fold_left add_key keywords (dict_keys analysis)
      /\ (forall k,
             dict_find analysis' k
             = if existsb (fun k0 => key_eqb k0 k) keywords
               then Some (keyword_entry trends_data search_volume k)
               else dict_find analysis k).
Proof.
  induction 1 as [|keyword rest Hh _ IH]; intros analysis.
  - exists analysis. repeat split.
  - simpl keyword_result_loop. unfold getitem, setitem. rewrite Hh.
    destruct (IH (dict_set analysis keyword
                    (KeywordResult
                       match dict_find trends_data keyword with
                       | Some v => v
                       | None => default_trend_info
                       end
                       match dict_find search_volume keyword with
                       | Some v => v
                       | None => 0
                       end)))
      as (analysis' & -> & Hk & Hf).
    exists analysis'. split; [reflexivity|]. split.
    + rewrite Hk, dict_keys_set. reflexivity.
    + intros k. rewrite Hf, dict_find_set. simpl existsb.
      destruct (existsb (fun k0 => key_eqb k0 k) rest);
        [now rewrite orb_true_r|].
      rewrite orb_false_r. destruct (key_eqb keyword k) eqn:E; [|reflexivity].
      rewrite <- (keyword_entry_key_eqb _ _ _ _ E). reflexivity.
Qed.

(** The score is the weighted sum of the three averages over the
    keywords. *)
Lemma demand_score_times_length trends_data search_volume keywords :
  keywords <> [] ->
  (demand_score trends_data search_volume keywords
   * inject_Z (Z.of_nat (List.length keywords))
   == (3 # 10) * Qsum (List.map (interest_of trends_data) keywords)
      + (5 # 10)
        * inject_Z (List.fold_right Z.add 0%Z
                      (List.map (volume_of search_volume) keywords))
      + 20 * inject_Z (Z.of_nat (List.length
                 (List.filter (is_rising trends_data) keywords))))%Q.
Proof.
  intros Hn. unfold demand_score.
  assert (H0 : ~ inject_Z (Z.of_nat (List.length keywords)) == 0).
  { destruct keywords as [|k l]; [congruence|].
    pose proof (length_pos_Q k l). lra. }
  field. exact H0.
Qed.

End StringKeywords.


(** * Further properties of the analysis modules *)

(** ** Shapes of the payload *)

Section PayloadShapes.

Context {RT : Runtime}.
Context {E : Type}.
Variable analyze_one : value -> value -> M (genre_result E).

Lemma find_genre_list_first (d : pydict) (l : list value) :
  pydict_find d k_genres = Some (VList l) ->
  find_genre_list d genre_list_keys = Some l.
Proof. intros H. unfold genre_list_keys. simpl. now rewrite H. Qed.

Lemma analyze_genres_dict (d : pydict) (w : world) :
  analyze_genres analyze_one (VDict d) w
  = match find_genre_list d genre_list_keys with
    | Some l => analyze_genres analyze_one (VList l) w
    | None => analyze_genres analyze_one (VList [VDict d]) w
    end.
Proof.
  unfold analyze_genres at 1. unfold convert_genres. cbn [is_list].
  destruct (find_genre_list d genre_list_keys); reflexivity.
Qed.


Lemma analyze_genres_skip (before after : list value) (genre : value)
  (w : world) :
  kept_entry genre = None ->
  analyze_genres analyze_one (VList (before ++ genre :: after)) w
  = analyze_genres analyze_one (VList (before ++ after)) w.
Proof.
  intros H. rewrite !analyze_genres_list, !kept_entries_app. simpl.
  now rewrite H.
Qed.

Lemma analyze_genres_same_entries (genres genres' : list value) (w : world) :
  kept_entries genres = kept_entries genres' ->
  analyze_genres analyze_one (VList genres) w
  = analyze_genres analyze_one (VList genres') w.
Proof. intros H. now rewrite !analyze_genres_list, H. Qed.

End PayloadShapes.

(** X1. A dict payload is unwrapped before the analysis: when it binds
    [genres] to a list, the analyzers treat it as that list, whatever its
    other keys; in general they take the first of [genres], [ジャンル],
    [results], [data] that is bound to a list, and a dict that binds none of
    them to a list is analysed as a single genre entry. *)
Theorem dict_payload_is_unwrapped :
  forall (RT : Runtime) (P : Providers) (d : pydict)
         (google_api_key semrush_api_key ubersuggest_api_key
          twitter_bearer_token : value) (w : world),
    (forall l,
        pydict_find d k_genres = Some (VList l) ->
        analyze_demand (VDict d) google_api_key w
        = analyze_demand (VList l) google_api_key w
        /\ analyze_genre_competition (VDict d) semrush_api_key
             ubersuggest_api_key w
           = analyze_genre_competition (VList l) semrush_api_key
               ubersuggest_api_key w
        /\ analyze_genre_social (VDict d) twitter_bearer_token w
           = analyze_genre_social (VList l) twitter_bearer_token w)
    /\ (forall l,
          find_genre_list d [k_genres; k_genre; k_results; k_data] = Some l ->
          analyze_demand (VDict d) google_api_key w
          = analyze_demand (VList l) google_api_key w
          /\ analyze_genre_competition (VDict d) semrush_api_key
               ubersuggest_api_key w
             = analyze_genre_competition (VList l) semrush_api_key
                 ubersuggest_api_key w
          /\ analyze_genre_social (VDict d) twitter_bearer_token w
             = analyze_genre_social (VList l) twitter_bearer_token w)
    /\ (find_genre_list d [k_genres; k_genre; k_results; k_data] = None ->
        analyze_demand (VDict d) google_api_key w
        = analyze_demand (VList [VDict d]) google_api_key w
        /\ analyze_genre_competition (VDict d) semrush_api_key
             ubersuggest_api_key w
           = analyze_genre_competition (VList [VDict d]) semrush_api_key
               ubersuggest_api_key w
        /\ analyze_genre_social (VDict d) twitter_bearer_token w
           = analyze_genre_social (VList [VDict d]) twitter_bearer_token w).
Proof.
  intros RT P d g k1 k2 t w.
  unfold analyze_demand, analyze_genre_competition, analyze_genre_social.
  split; [|split].
  - intros l H. apply find_genre_list_first in H.
    rewrite !analyze_genres_dict, H. repeat split.
  - intros l H. change [k_genres; k_genre; k_results; k_data]
      with genre_list_keys in H.
    rewrite !analyze_genres_dict, H. repeat split.
  - intros H. change [k_genres; k_genre; k_results; k_data]
      with genre_list_keys in H.
    rewrite !analyze_genres_dict, H. repeat split.
Qed.

Lemma dict_payload_is_unwrapped_witness :
  @analyze_genre_competition Reference.runtime source_providers
    (VDict [(k_data, VInt 3);
            (k_results, VList Examples.payload_of_names);
            (k_genres, VStr (py "none"))])
    VNone VNone Reference.world0
  = @analyze_genre_competition Reference.runtime source_providers
      (VList Examples.payload_of_names) VNone VNone Reference.world0.
Proof.
  destruct (dict_payload_is_unwrapped Reference.runtime source_providers
              [(k_data, VInt 3);
               (k_results, VList Examples.payload_of_names);
               (k_genres, VStr (py "none"))]
              VNone VNone VNone VNone Reference.world0) as (_ & H & _).
  destruct (H Examples.payload_of_names eq_refl) as (_ & Hc & _).
  exact Hc.
Defined.



(** X3. The entries of the list are read one by one: an entry that is a
    bare string is analysed as the genre of that name with the name as its
    only keyword; an entry that is neither an object nor a string, an
    object without a name and an object without keywords are passed over,
    and the analysis is the one of the list without them. *)
Theorem entries_are_read_by_shape :
  forall (RT : Runtime) (E : Type)
         (analyze_one : value -> value -> M (genre_result E)),
    (forall s,
        kept_entry (VStr s)
        = kept_entry (VDict [(k_genre_name, VStr s);
                             (k_keywords, VList [VStr s])]))
    /\ (forall genre,
          (forall s, genre <> VStr s) -> (forall d, genre <> VDict d) ->
          kept_entry genre = None)
    /\ (forall d,
          pydict_find d k_genre_name = None
          \/ pydict_find d k_keywords = None ->
          kept_entry (VDict d) = None)
    /\ (forall before after genre w,
          kept_entry genre = None ->
          analyze_genres analyze_one (VList (before ++ genre :: after)) w
          = analyze_genres analyze_one (VList (before ++ after)) w)
    /\ (forall before after s w,
          analyze_genres analyze_one (VList (before ++ VStr s :: after)) w
          = analyze_genres analyze_one
              (VList (before
                      ++ VDict [(k_genre_name, VStr s);
                                (k_keywords, VList [VStr s])] :: after)) w).
Proof.
  intros RT E f. split; [|split; [|split; [|split]]].
  - intros s. reflexivity.
  - intros genre Hs Hd. destruct genre; try reflexivity.
    + now destruct (Hs s).
    + now destruct (Hd items).
  - intros d [H|H]; unfold kept_entry, genre_fields, pydict_get; rewrite H;
      simpl; [reflexivity|now rewrite andb_false_r].
  - intros before after genre w. apply analyze_genres_skip.
  - intros before after s w. apply analyze_genres_same_entries.
    rewrite !kept_entries_app. reflexivity.
Qed.

Lemma entries_are_read_by_shape_witness :
  @analyze_genres Reference.runtime _
    (@competition_genre Reference.runtime source_providers VNone VNone)
    (VList ([VStr (py "A")] ++ VInt 7 :: [VStr (py "B")])) Reference.world0
  = @analyze_genres Reference.runtime _
      (@competition_genre Reference.runtime source_providers VNone VNone)
      (VList ([VStr (py "A")] ++ [VStr (py "B")])) Reference.world0.
Proof.
  destruct (entries_are_read_by_shape Reference.runtime _
              (@competition_genre Reference.runtime source_providers
                 VNone VNone)) as (_ & Hj & _ & Hskip & _).
  apply Hskip. apply Hj; discriminate.
Defined.


(** ** The keyword loops *)

Section KeywordLoopFacts.

Context {RT : Runtime}.
Context {P : Providers}.

Lemma competition_loop_keyword_loop (keywords : list value) (k1 k2 : value) :
  forall results w,
    competition_loop keywords results k1 k2 w
    = keyword_loop
        (fun r keyword =>
           try_except (competition_try r keyword k1 k2)
             (fun _ => competition_except r keyword))
        keywords results w.
Proof.
  induction keywords as [|keyword rest IH]; intros results w; simpl.
  - reflexivity.
  - unfold bind. destruct (try_except _ _ w) as [[r|e] w1]; [apply IH|].
    reflexivity.
Qed.

Lemma twitter_loop_keyword_loop (keywords : list value) (token : value) :
  forall results w,
    twitter_loop keywords results token w
    = keyword_loop
        (fun r keyword =>
           try_except (twitter_try r keyword token)
             (fun _ => twitter_except r keyword))
        keywords results w.
Proof.
  induction keywords as [|keyword rest IH]; intros results w; simpl.
  - reflexivity.
  - unfold bind. destruct (try_except _ _ w) as [[r|e] w1]; [apply IH|].
    reflexivity.
Qed.

(** A loop whose step always writes the entry of its keyword. *)
Lemma keyword_loop_written
  (step : odict pydict -> value -> M (odict pydict))
  (entry_of : value -> pydict) (keywords : list value) :
  (forall results keyword w,
      In keyword keywords ->
      exists w', step results keyword w
                 = (Ok (dict_set results keyword (entry_of keyword)), w')) ->
  forall results w,
    exists w',
      keyword_loop step keywords results w
      = (Ok (written entry_of keywords results), w').
Proof.
  induction keywords as [|keyword rest IH]; intros Hstep results w.
  - exists w. reflexivity.
  - simpl. unfold bind.
    destruct (Hstep results keyword w (or_introl eq_refl)) as [w1 ->].
    apply IH. intros r k w0 Hin. apply Hstep. now right.
Qed.

Lemma key_eqb_str_eq_l (s : str) (k : value) :
  key_eqb k (VStr s) = true -> k = VStr s.
Proof. intros H. apply key_eqb_sym in H. now apply key_eqb_str_eq. Qed.

Lemma written_values (Pe : pydict -> Prop) (entry_of : value -> pydict)
  (keywords : list value) :
  (forall k, In k keywords -> Pe (entry_of k)) ->
  forall results,
    Forall Pe (dict_values results) ->
    Forall Pe (dict_values (written entry_of keywords results)).
Proof.
  unfold written.
  induction keywords as [|keyword rest IH]; intros Hk results Hr; simpl.
  - exact Hr.
  - apply IH; [intros k Hin; apply Hk; now right|].
    apply Forall_dict_set; [exact Hr|]. apply Hk. now left.
Qed.

(** The step of [analyze_competition] on a keyword the mock accepts, when
    no API key is set: the mock is written. *)
Lemma competition_step_without_key (results : odict pydict)
  (keyword k1 k2 : value) (w : world) :
  truthy k1 = false -> truthy k2 = false -> mockable keyword ->
  exists w',
    try_except (competition_try results keyword k1 k2)
      (fun _ => competition_except results keyword) w
    = (Ok (dict_set results keyword (mock_competition_entry keyword)), w').
Proof.
  intros H1 H2 (k & bytes & -> & He).
  unfold try_except, competition_try. rewrite H1, H2. unfold bind.
  destruct (mock_competition_data_value k bytes w He) as [w' ->].
  exists w'. unfold mock_competition_entry. now rewrite He.
Qed.

Lemma twitter_step_without_token (results : odict pydict)
  (keyword token : value) (w : world) :
  truthy token = false -> mockable keyword ->
  exists w',
    try_except (twitter_try results keyword token)
      (fun _ => twitter_except results keyword) w
    = (Ok (dict_set results keyword (mock_twitter_entry keyword)), w').
Proof.
  intros H1 (k & bytes & -> & He).
  unfold try_except, twitter_try. rewrite H1. unfold bind.
  destruct (mock_twitter_data_value k bytes w He) as [w' ->].
  exists w'. unfold mock_twitter_entry. now rewrite He.
Qed.

End KeywordLoopFacts.

(** ** Relabelled runs *)

Lemma map_values_dict_set {V W : Type} (f : V -> W) (d : odict V) k v :
  map_values f (dict_set d k v) = dict_set (map_values f d) k (f v).
Proof.
  induction d as [|[k0 v0] d IH]; simpl; [reflexivity|].
  destruct (key_eqb k0 k); simpl; [reflexivity|]. now rewrite IH.
Qed.

Lemma map_values_length {V W : Type} (f : V -> W) (d : odict V) :
  List.length (map_values f d) = List.length d.
Proof. apply length_map. Qed.

Lemma dict_values_map_values {V W : Type} (f : V -> W) (d : odict V) :
  dict_values (map_values f d) = List.map f (dict_values d).
Proof. unfold dict_values, map_values. now rewrite !map_map. Qed.

Lemma dict_keys_map_values {V W : Type} (f : V -> W) (d : odict V) :
  dict_keys (map_values f d) = dict_keys d.
Proof. unfold dict_keys, map_values. now rewrite map_map. Qed.

(** A field that a transformation keeps has the same mean. *)
Lemma mean_field_map_values (f : pydict -> pydict) (d : odict pydict)
  (key : str) (default : value) :
  (forall e, pydict_get (f e) key default = pydict_get e key default) ->
  mean_field (map_values f d) key default = mean_field d key default.
Proof.
  intros Hf. unfold mean_field.
  rewrite dict_values_map_values, map_map, map_values_length.
  rewrite (map_ext _ _ (fun e => Hf e)).
  destruct d; reflexivity.
Qed.

Lemma map_result_bind {RT : Runtime} {A B C : Type} (f : B -> C) (m : M A)
  (k : A -> M B) (w : world) :
  map_result f (bind m k w)
  = match m w with
    | (Ok a, w1) => map_result f (k a w1)
    | (Raise e, w1) => (Raise e, w1)
    end.
Proof. unfold bind. destruct (m w) as [[a|e] w1]; reflexivity. Qed.

Section Relabelled.

Context {RT : Runtime}.
Context {E : Type}.
Variables analyze_one analyze_one' : value -> value -> M (genre_result E).
Variable g : genre_result E -> genre_result E.

Hypothesis analyze_one_related :
  forall n k w, analyze_one' n k w = map_result g (analyze_one n k w).

Lemma genre_loop_related (genres : list value) :
  forall acc w,
    genre_loop analyze_one' genres (map_values g acc) w
    = map_result (map_values g) (genre_loop analyze_one genres acc w).
Proof.
  induction genres as [|genre rest IH]; intros acc w; simpl.
  - reflexivity.
  - destruct (genre_fields genre) as [[n k]|]; [|apply IH].
    destruct (truthy n); simpl; [|apply IH].
    destruct (truthy k); simpl; [|apply IH].
    unfold bind. rewrite analyze_one_related.
    destruct (analyze_one n k w) as [[r|e] w1]; simpl; [|reflexivity].
    unfold lift, setitem. destruct (hashable n); simpl; [|reflexivity].
    rewrite <- map_values_dict_set. apply IH.
Qed.

Lemma analyze_genres_related (payload : value) (w : world) :
  analyze_genres analyze_one' payload w
  = map_result (map_values g) (analyze_genres analyze_one payload w).
Proof.
  unfold analyze_genres.
  destruct (convert_genres payload) as [genres|]; [|reflexivity].
  destruct (is_int_float_str genres); [reflexivity|].
  unfold bind, lift. destruct (py_iter genres) as [l|e]; [|reflexivity].
  apply (genre_loop_related l []).
Qed.

End Relabelled.


(** ** The competition axis without and with an API key *)

Section WithoutKeys.

Context {RT : Runtime}.
Context {P : Providers}.

(** Without an API key the step returns only by writing the mock. *)
Lemma competition_step_without_key_inv (results : odict pydict)
  (keyword k1 k2 : value) (w w' : world) (results' : odict pydict) :
  truthy k1 = false -> truthy k2 = false ->
  try_except (competition_try results keyword k1 k2)
    (fun _ => competition_except results keyword) w = (Ok results', w') ->
  mockable keyword
  /\ results' = dict_set results keyword (mock_competition_entry keyword).
Proof.
  intros H1 H2 H.
  destruct (mock_competition_data_cases keyword) as [Hm|Hr].
  - split; [exact Hm|].
    destruct (competition_step_without_key results keyword k1 k2 w H1 H2 Hm)
      as [w1 E].
    rewrite E in H. now injection H as <- _.
  - exfalso. revert H. unfold try_except, competition_try.
    rewrite H1, H2. unfold bind, competition_except, bind.
    destruct (Hr w) as [e ->]. destruct (Hr w) as [e' ->]. discriminate.
Qed.

Lemma competition_loop_without_key (keywords : list value) (k1 k2 : value) :
  truthy k1 = false -> truthy k2 = false ->
  forall (results : odict pydict) (w w' : world) (results' : odict pydict),
    competition_loop keywords results k1 k2 w = (Ok results', w') ->
    Forall mockable keywords
    /\ results' = written mock_competition_entry keywords results.
Proof.
  intros H1 H2.
  induction keywords as [|keyword rest IH]; intros results w w' results' H.
  - simpl in H. injection H as <- _. split; [constructor|reflexivity].
  - simpl in H. unfold bind at 1 in H.
    destruct (try_except _ _ w) as [[r1|e] w1] eqn:Es; [|discriminate].
    apply (competition_step_without_key_inv _ _ _ _ _ _ _ H1 H2) in Es
      as [Hm ->].
    apply IH in H as [Hr ->]. split; [now constructor|reflexivity].
Qed.

(** The dict of the mock has no key [キーワード難易度]. *)
Lemma mock_competition_entry_lacks_keyword_difficulty (keyword : value) :
  pydict_find (mock_competition_entry keyword) k_keyword_difficulty = None.
Proof.
  destruct keyword; try reflexivity.
  unfold mock_competition_entry. destruct (encode s); reflexivity.
Qed.

Lemma competition_genre_without_key (k1 k2 genre_name keywords : value)
  (w w' : world) (r : genre_result pydict) :
  truthy k1 = false -> truthy k2 = false ->
  competition_genre k1 k2 genre_name keywords w = (Ok r, w') ->
  result_score r == 100
  /\ Forall (fun e => pydict_find e k_keyword_difficulty = None)
       (dict_values (result_entries r)).
Proof.
  intros H1 H2.
  unfold competition_genre, analyze_competition, bind, lift.
  destruct (py_iter keywords) as [ks|]; [|discriminate].
  destruct (competition_loop ks [] k1 k2 w) as [[d|e] w1] eqn:El;
    [|discriminate].
  apply (competition_loop_without_key _ _ _ H1 H2) in El as [_ ->].
  assert (Hd : Forall (fun e => pydict_find e k_keyword_difficulty = None)
                 (dict_values (written mock_competition_entry ks []))).
  { apply written_values; [|constructor].
    intros k _. apply mock_competition_entry_lacks_keyword_difficulty. }
  destruct (mean_field_bounds 0 0 (written mock_competition_entry ks [])
              k_keyword_difficulty (VInt 0)) as (avg & -> & Havg).
  - lra.
  - eapply Forall_impl; [|exact Hd]. intros e He. exists 0%Q.
    unfold pydict_get. rewrite He. split; [reflexivity|lra].
  - unfold ret. intros [= <- _]. simpl. split; [|exact Hd].
    assert (avg == 0) as -> by lra. reflexivity.
Qed.

End WithoutKeys.

(** X4. Without an API key (both keys falsy), whatever the fetchers are,
    every genre [analyze_genre_competition] returns has the competition-ease
    score 100: the analysis stores the dict of [mock_competition_data], which
    has the key [難易度], and the score averages the key [キーワード難易度],
    which no stored entry has. *)
Theorem competition_score_is_100_without_api_key :
  forall (RT : Runtime) (P : Providers)
         (payload semrush_api_key ubersuggest_api_key : value)
         (w w' : world) out,
    truthy semrush_api_key = false ->
    truthy ubersuggest_api_key = false ->
    analyze_genre_competition payload semrush_api_key ubersuggest_api_key w
    = (Ok out, w') ->
    Forall (fun r =>
              result_score r == 100
              /\ Forall (fun e => pydict_find e k_keyword_difficulty = None)
                   (dict_values (result_entries r)))
      (dict_values out).
Proof.
  intros RT P payload k1 k2 w w' out H1 H2.
  apply analyze_genres_values.
  intros n k w0 r w1. now apply competition_genre_without_key.
Qed.

Lemma competition_score_is_100_without_api_key_witness :
  exists out w',
    @analyze_genre_competition Reference.runtime Examples.failing_providers
      Examples.payload_one_genre VNone (VStr []) Reference.world0
    = (Ok out, w')
    /\ List.length out = 1%nat
    /\ Forall (fun r =>
                 result_score r == 100
                 /\ Forall (fun e =>
                              pydict_find e k_keyword_difficulty = None)
                      (dict_values (result_entries r)))
         (dict_values out).
Proof.
  eexists _, _. split; [vm_compute; reflexivity|].
  split; [reflexivity|].
  eapply (competition_score_is_100_without_api_key Reference.runtime
            Examples.failing_providers Examples.payload_one_genre VNone
            (VStr []) Reference.world0);
    [reflexivity|reflexivity|vm_compute; reflexivity].
Defined.

Section WithKeys.

Context {RT : Runtime}.

#[local] Existing Instance source_providers.

Variables k1 k2 : value.
Hypothesis some_key : truthy k1 = true \/ truthy k2 = true.

(** The step with a key on the relabelled dict is the step without a key,
    relabelled. *)
Lemma competition_step_relabel (results : odict pydict) (keyword : value)
  (w : world) :
  try_except (competition_try (map_values (competition_entry_of (provider_label k1)) results) keyword k1 k2)
    (fun _ => competition_except (map_values (competition_entry_of (provider_label k1)) results) keyword) w
  = map_result (map_values (competition_entry_of (provider_label k1)))
      (try_except (competition_try results keyword VNone VNone)
         (fun _ => competition_except results keyword) w).
Proof.
  unfold try_except, competition_try.
  change (@semrush_fetch RT source_providers) with get_semrush_data.
  change (@ubersuggest_fetch RT source_providers) with get_ubersuggest_data.
  cbn [truthy]. unfold provider_label.
  destruct (mock_competition_data_cases keyword)
    as [(k & bytes & -> & He)|Hr].
  - destruct (mock_competition_data_value k bytes w He) as [w1 Hm].
    destruct (truthy k1); [|destruct (truthy k2)];
      try (destruct some_key; discriminate);
      unfold get_semrush_data, get_ubersuggest_data, bind;
      rewrite Hm; cbn -[mock_competition_value dict_set map_values];
      now rewrite map_values_dict_set.
  - destruct (truthy k1); [|destruct (truthy k2)];
      try (destruct some_key; discriminate);
      unfold get_semrush_data, get_ubersuggest_data, competition_except, bind;
      destruct (Hr w) as [e ->]; destruct (Hr w) as [e' ->]; reflexivity.
Qed.

Lemma competition_loop_relabel (keywords : list value) :
  forall (results : odict pydict) (w : world),
    competition_loop keywords (map_values (competition_entry_of (provider_label k1)) results) k1 k2 w
    = map_result (map_values (competition_entry_of (provider_label k1)))
        (competition_loop keywords results VNone VNone w).
Proof.
  induction keywords as [|keyword rest IH]; intros results w.
  - reflexivity.
  - cbn [competition_loop]. rewrite map_result_bind. unfold bind at 1.
    rewrite competition_step_relabel.
    destruct (try_except (competition_try results keyword VNone VNone) _ w)
      as [[r1|e] w1]; simpl; [apply IH|reflexivity].
Qed.

Lemma analyze_competition_relabel (keywords : value) (w : world) :
  analyze_competition keywords k1 k2 w
  = map_result (map_values (competition_entry_of (provider_label k1)))
      (analyze_competition keywords VNone VNone w).
Proof.
  unfold analyze_competition, bind, lift.
  destruct (py_iter keywords) as [ks|e]; [|reflexivity].
  apply (competition_loop_relabel ks []).
Qed.

End WithKeys.

(** X5. With the fetchers the source has ([get_semrush_data] and
    [get_ubersuggest_data] return the mock), an API key changes the result of
    [analyze_competition] only in its labels: the call returns or raises as
    the call without a key does, in the same world, and every entry is the
    one of the call without a key with [難易度] stored under
    [キーワード難易度] and the provider as the data source. Semrush has
    priority when both keys are set. *)
Theorem api_key_only_relabels_the_competition_mock :
  forall (RT : Runtime) (keywords semrush_api_key ubersuggest_api_key : value)
         (w : world),
    truthy semrush_api_key = true \/ truthy ubersuggest_api_key = true ->
    @analyze_competition RT source_providers keywords semrush_api_key
      ubersuggest_api_key w
    = map_result
        (map_values
           (competition_entry_of
              (if truthy semrush_api_key then s_semrush else s_ubersuggest)))
        (@analyze_competition RT source_providers keywords VNone VNone w).
Proof.
  intros RT keywords k1 k2 w Hk. now apply analyze_competition_relabel.
Qed.

Lemma api_key_only_relabels_the_competition_mock_witness :
  @analyze_competition Reference.runtime source_providers
    (VList [VStr (py "abc"); VStr (py "比較")]) (VStr (py "key1"))
    (VStr (py "key2")) Reference.world0
  = map_result (map_values (competition_entry_of s_semrush))
      (@analyze_competition Reference.runtime source_providers
         (VList [VStr (py "abc"); VStr (py "比較")]) VNone VNone
         Reference.world0).
Proof.
  apply (api_key_only_relabels_the_competition_mock Reference.runtime
           (VList [VStr (py "abc"); VStr (py "比較")]) (VStr (py "key1"))
           (VStr (py "key2")) Reference.world0).
  left. reflexivity.
Defined.

(** ** The score with an API key *)

Lemma dict_set_entries_of {V : Type} (entry_of : value -> V)
  (seen : list value) (s : str) :
  dict_set (entries_of entry_of seen) (VStr s) (entry_of (VStr s))
  = entries_of entry_of (add_key seen (VStr s)).
Proof.
  unfold add_key, entries_of.
  induction seen as [|k0 seen IH]; [reflexivity|].
  simpl. destruct (key_eqb k0 (VStr s)) eqn:E; simpl.
  - apply key_eqb_str_eq_l in E. now subst k0.
  - rewrite IH. now destruct (existsb _ seen).
Qed.

(** Over string keywords the loop leaves one entry per distinct keyword,
    in the order of first occurrence. *)
Lemma written_entries_of (entry_of : value -> pydict)
  (keywords : list value) :
  Forall (fun k => exists s, k = VStr s) keywords ->
  forall seen,
    written entry_of keywords (entries_of entry_of seen)
    = entries_of entry_of (fold_left add_key keywords seen).
Proof.
  unfold written.
  induction 1 as [|k keywords (s & ->) _ IH]; intros seen; simpl.
  - reflexivity.
  - now rewrite dict_set_entries_of, IH.
Qed.

Lemma add_key_in (seen : list value) (k k' : value) :
  In k' (add_key seen k) -> k' = k \/ In k' seen.
Proof.
  unfold add_key. destruct (existsb _ seen); [now right|].
  intros H. apply in_app_or in H as [H|[H|[]]]; [now right|now left].
Qed.

Lemma fold_add_key_in (keywords : list value) (k' : value) :
  forall seen,
    In k' (fold_left add_key keywords seen) -> In k' keywords \/ In k' seen.
Proof.
  induction keywords as [|k keywords IH]; intros seen H; simpl in *.
  - now right.
  - apply IH in H as [H|H]; [left; now right|].
    apply add_key_in in H as [->|H]; [left; now left|now right].
Qed.

Lemma py_sum_numbers {A : Type} (g : A -> value) (h : A -> Q) (l : list A) :
  (forall x, In x l -> num_of (g x) = Some (h x)) ->
  py_sum (map g l) = Ok (Qsum (map h l)).
Proof.
  induction l as [|x l IH]; intros H; simpl; [reflexivity|].
  rewrite (H x (or_introl eq_refl)), IH; [reflexivity|].
  intros y Hy. apply H. now right.
Qed.

Lemma mockable_is_str (keyword : value) :
  mockable keyword -> exists s, keyword = VStr s.
Proof. intros (k & _ & -> & _). now exists k. Qed.

Lemma mock_difficulty_is_number {RT : Runtime} (keyword : value) :
  mockable keyword ->
  num_of (pydict_get (mock_competition_entry keyword) k_difficulty (VInt 0))
  = Some (reported_difficulty keyword).
Proof.
  intros (k & bytes & -> & He).
  unfold reported_difficulty, field_number, mock_competition_entry.
  rewrite He. reflexivity.
Qed.

Section ScoreWithKey.

Context {RT : Runtime}.

#[local] Existing Instance source_providers.

Lemma analyze_competition_without_key (keywords : list value) (w : world) :
  Forall mockable keywords ->
  exists w',
    analyze_competition (VList keywords) VNone VNone w
    = (Ok (entries_of mock_competition_entry (first_occurrences keywords)),
       w').
Proof.
  intros Hm. unfold analyze_competition, bind, lift. cbn [py_iter].
  rewrite competition_loop_keyword_loop.
  destruct (keyword_loop_written
              (fun r keyword =>
                 try_except (competition_try r keyword VNone VNone)
                   (fun _ => competition_except r keyword))
              mock_competition_entry keywords) with (results := @nil (value * pydict)) (w := w)
    as [w' ->].
  - intros results keyword w0 Hin.
    apply competition_step_without_key; [reflexivity|reflexivity|].
    rewrite Forall_forall in Hm. now apply Hm.
  - exists w'. f_equal. f_equal.
    apply (written_entries_of mock_competition_entry keywords) with (seen := []).
    eapply Forall_impl; [|exact Hm]. apply mockable_is_str.
Qed.

End ScoreWithKey.

(** X6. With an API key and the fetchers the source has, the competition
    analysis of a genre whose keywords are strings with a UTF-8 form
    returns; its entries are keyed by the distinct keywords in order of
    first occurrence, and its competition-ease score is 100 minus the mean,
    over the distinct keywords, of the difficulty [mock_competition_data]
    reports: a keyword listed twice counts once. *)
Theorem competition_score_with_api_key :
  forall (RT : Runtime)
         (semrush_api_key ubersuggest_api_key genre_name : value)
         (keywords : list value) (w : world),
    truthy semrush_api_key = true \/ truthy ubersuggest_api_key = true ->
    Forall mockable keywords ->
    exists r w',
      @competition_genre RT source_providers semrush_api_key
        ubersuggest_api_key genre_name (VList keywords) w = (Ok r, w')
      /\ result_name r = genre_name
      /\ dict_keys (result_entries r) = first_occurrences keywords
      /\ (100 - result_score r)
         * inject_Z (Z.of_nat (List.length (first_occurrences keywords)))
         == Qsum (map reported_difficulty (first_occurrences keywords)).
Proof.
  intros RT k1 k2 genre_name keywords w.
  intros Hk Hm. unfold competition_genre. unfold bind at 1.
  rewrite (analyze_competition_relabel k1 k2 Hk).
  destruct (analyze_competition_without_key keywords w Hm) as [w' ->].
  cbn [map_result]. unfold bind, lift.
  set (relabel := competition_entry_of _).
  assert (Hin : forall k, In k (first_occurrences keywords) -> mockable k).
  { intros k H. apply fold_add_key_in in H as [H|[]].
    rewrite Forall_forall in Hm. now apply Hm. }
  revert Hin. generalize (first_occurrences keywords) as D. intros D Hin.
  assert (Hs : py_sum
                 (map (fun data => pydict_get data k_keyword_difficulty (VInt 0))
                    (dict_values
                       (map_values relabel
                          (entries_of mock_competition_entry D))))
               = Ok (Qsum (map reported_difficulty D))).
  { rewrite dict_values_map_values. unfold dict_values, entries_of.
    rewrite !map_map. apply py_sum_numbers. intros k Hk0. simpl.
    apply (mock_difficulty_is_number k (Hin k Hk0)). }
  assert (Hkeys : dict_keys
                    (map_values relabel (entries_of mock_competition_entry D))
                  = D).
  { rewrite dict_keys_map_values. unfold dict_keys, entries_of.
    rewrite map_map. apply map_id. }
  destruct D as [|k0 D].
  - eexists _, _. split; [reflexivity|]. cbn. repeat split.
  - unfold mean_field.
    change (map_values relabel (entries_of mock_competition_entry (k0 :: D)))
      with ((k0, relabel (mock_competition_entry k0))
              :: map_values relabel (entries_of mock_competition_entry D))
      in *.
    rewrite Hs. eexists _, _. split; [reflexivity|].
    split; [reflexivity|]. split; [exact Hkeys|].
    cbn [result_score].
    change (List.length
              ((k0, relabel (mock_competition_entry k0))
                 :: map_values relabel (entries_of mock_competition_entry D)))
      with (S (List.length
                 (map_values relabel (entries_of mock_competition_entry D)))).
    rewrite map_values_length. unfold entries_of at 1. rewrite length_map.
    change (S (List.length D)) with (List.length (k0 :: D)).
    pose proof (length_pos_Q k0 D) as Hpos.
    field. lra.
Qed.

Lemma competition_score_with_api_key_witness :
  exists r w',
    @competition_genre Reference.runtime source_providers (VStr (py "key"))
      VNone (VStr (py "X"))
      (VList [VStr (py "a"); VStr (py "比較"); VStr (py "a")])
      Reference.world0 = (Ok r, w')
    /\ result_name r = VStr (py "X")
    /\ dict_keys (result_entries r)
       = first_occurrences [VStr (py "a"); VStr (py "比較"); VStr (py "a")]
    /\ (100 - result_score r)
       * inject_Z
           (Z.of_nat
              (List.length
                 (first_occurrences
                    [VStr (py "a"); VStr (py "比較"); VStr (py "a")])))
       == Qsum
            (map (@reported_difficulty Reference.runtime)
               (first_occurrences
                  [VStr (py "a"); VStr (py "比較"); VStr (py "a")])).
Proof.
  apply (competition_score_with_api_key Reference.runtime (VStr (py "key"))
           VNone (VStr (py "X"))
           [VStr (py "a"); VStr (py "比較"); VStr (py "a")]
           Reference.world0).
  - left. reflexivity.
  - repeat constructor; eexists _, _; (split; [reflexivity|]);
      vm_compute; reflexivity.
Defined.


(** ** The social axis with a bearer token *)

Lemma sentiment_sum_map (f : pydict -> pydict) (l : list pydict) :
  (forall e, pydict_get (f e) k_sentiment (VStr s_neutral)
             = pydict_get e k_sentiment (VStr s_neutral)) ->
  sentiment_sum (map f l) = sentiment_sum l.
Proof.
  intros Hf. induction l as [|e l IH]; simpl; [reflexivity|].
  now rewrite Hf, IH.
Qed.

Lemma mean_sentiment_map_values (f : pydict -> pydict) (d : odict pydict) :
  (forall e, pydict_get (f e) k_sentiment (VStr s_neutral)
             = pydict_get e k_sentiment (VStr s_neutral)) ->
  mean_sentiment (map_values f d) = mean_sentiment d.
Proof.
  intros Hf. unfold mean_sentiment.
  rewrite dict_values_map_values, map_values_length, (sentiment_sum_map f _ Hf).
  destruct d; reflexivity.
Qed.

Section WithToken.

Context {RT : Runtime}.

#[local] Existing Instance source_providers.

Variable token : value.
Hypothesis token_set : truthy token = true.

Lemma twitter_step_relabel (results : odict pydict) (keyword : value)
  (w : world) :
  try_except
    (twitter_try (map_values twitter_entry_of results) keyword token)
    (fun _ => twitter_except (map_values twitter_entry_of results) keyword) w
  = map_result (map_values twitter_entry_of)
      (try_except (twitter_try results keyword VNone)
         (fun _ => twitter_except results keyword) w).
Proof.
  unfold try_except, twitter_try.
  change (@twitter_fetch RT source_providers) with get_twitter_data.
  cbn [truthy]. rewrite token_set.
  destruct (mock_twitter_data_cases keyword) as [(k & bytes & -> & He)|Hr].
  - destruct (mock_twitter_data_value k bytes w He) as [w1 Hm].
    unfold get_twitter_data, bind. rewrite Hm.
    cbn -[mock_twitter_value dict_set map_values].
    now rewrite map_values_dict_set.
  - unfold get_twitter_data, twitter_except, bind.
    destruct (Hr w) as [e ->]. destruct (Hr w) as [e' ->]. reflexivity.
Qed.

Lemma twitter_loop_relabel (keywords : list value) :
  forall (results : odict pydict) (w : world),
    twitter_loop keywords (map_values twitter_entry_of results) token w
    = map_result (map_values twitter_entry_of)
        (twitter_loop keywords results VNone w).
Proof.
  induction keywords as [|keyword rest IH]; intros results w.
  - reflexivity.
  - cbn [twitter_loop]. rewrite map_result_bind. unfold bind at 1.
    rewrite twitter_step_relabel.
    destruct (try_except (twitter_try results keyword VNone) _ w)
      as [[r1|e] w1]; simpl; [apply IH|reflexivity].
Qed.

Lemma analyze_twitter_engagement_relabel (keywords : value) (w : world) :
  analyze_twitter_engagement keywords token w
  = map_result (map_values twitter_entry_of)
      (analyze_twitter_engagement keywords VNone w).
Proof.
  unfold analyze_twitter_engagement, bind, lift.
  destruct (py_iter keywords) as [ks|e]; [|reflexivity].
  apply (twitter_loop_relabel ks []).
Qed.

End WithToken.

(** X7. With the fetcher the source has ([get_twitter_data] builds a request
    and returns the mock), a bearer token changes the result of
    [analyze_genre_social] only in the label of the data source: the call
    returns or raises as the call without a token does, in the same world,
    with the same genres in the same order and the same SNS scores; every
    entry is rebuilt from the mock's fields under the data source
    [Twitter API]. *)
Theorem bearer_token_only_relabels_the_social_result :
  forall (RT : Runtime) (payload twitter_bearer_token : value) (w : world),
    truthy twitter_bearer_token = true ->
    @analyze_genre_social RT source_providers payload twitter_bearer_token w
    = map_result (map_values (map_entries twitter_entry_of))
        (@analyze_genre_social RT source_providers payload VNone w).
Proof.
  intros RT payload token w Ht. unfold analyze_genre_social.
  apply analyze_genres_related. intros genre_name keywords w0.
  unfold social_genre. rewrite map_result_bind. unfold bind at 1.
  rewrite (analyze_twitter_engagement_relabel token Ht).
  destruct (analyze_twitter_engagement keywords VNone w0) as [[d|e] w1];
    [|reflexivity].
  cbn [map_result]. unfold bind, lift, ret.
  rewrite !mean_field_map_values, mean_sentiment_map_values
    by (intros e; reflexivity).
  destruct (mean_field d k_tweets (VInt 0)); [|reflexivity].
  destruct (mean_field d k_engagement (VInt 0)); [|reflexivity].
  destruct (mean_sentiment d); reflexivity.
Qed.

Lemma bearer_token_only_relabels_the_social_result_witness :
  @analyze_genre_social Reference.runtime source_providers
    Examples.payload_one_genre (VStr (py "token")) Reference.world0
  = map_result (map_values (map_entries twitter_entry_of))
      (@analyze_genre_social Reference.runtime source_providers
         Examples.payload_one_genre VNone Reference.world0).
Proof.
  apply (bearer_token_only_relabels_the_social_result Reference.runtime
           Examples.payload_one_genre (VStr (py "token")) Reference.world0).
  reflexivity.
Defined.

(** ** The mock of the social axis *)




(** ** The mocks and the shared generator *)

(** X9. The two seeded mocks reseed the module-level generator of [random]
    and leave it reseeded: after [mock_competition_data] or
    [mock_twitter_data] has returned, the state of the generator, and with
    it the next value of [mock_search_volume] for any keyword, is fixed by
    the keyword of the mock alone, whatever the state before the call; the
    world outside the generator is not touched. *)
Theorem seeded_mocks_leave_the_generator_reseeded :
  forall (RT : Runtime) (mock : value -> M pydict),
    mock = mock_competition_data \/ mock = mock_twitter_data ->
    forall (keyword : value) (w1 w2 w1' w2' : world) (d1 d2 : pydict),
      mock keyword w1 = (Ok d1, w1') ->
      mock keyword w2 = (Ok d2, w2') ->
      d1 = d2
      /\ rng_state w1' = rng_state w2'
      /\ net_state w1' = net_state w1
      /\ forall k k' : value,
           fst (mock_search_volume k w1') = fst (mock_search_volume k' w2').
Proof.
  intros RT mock Hmock keyword w1 w2 w1' w2' d1 d2 H1 H2.
  assert (H : d1 = d2 /\ rng_state w1' = rng_state w2'
              /\ net_state w1' = net_state w1).
  { destruct Hmock as [-> | ->]; destruct keyword; try discriminate;
      revert H1 H2.
    - unfold mock_competition_data. destruct (encode s); [|discriminate].
      unfold bind, random_seed, random_uniform, random_random, with_rng,
        bind, ret.
      cbn [rng_state net_state].
      destruct (unit_draw (seeded (md5_int l))) as [u1 s1].
      cbn [rng_state net_state].
      destruct (unit_draw s1) as [u2 s2].
      intros [= <- <-] [= <- <-]. repeat split.
    - unfold mock_twitter_data. destruct (encode s); [|discriminate].
      unfold bind, random_seed, random_randint, randbelow, random_uniform,
        random_choices1, random_random, with_rng, bind, ret.
      cbn [rng_state net_state].
      destruct (next_below _ (seeded (md5_int l))) as [r s1].
      cbn [rng_state net_state].
      destruct (unit_draw s1) as [u2 s2]. cbn [rng_state net_state].
      destruct (unit_draw s2) as [u3 s3].
      intros [= <- <-] [= <- <-]. repeat split. }
  destruct H as (Hd & Hr & Hn). repeat split; try assumption.
  intros k k'.
  unfold mock_search_volume, random_randint, randbelow, with_rng, bind, ret.
  rewrite Hr. destruct (next_below _ (rng_state w2')) as [r s']. reflexivity.
Qed.

Lemma seeded_mocks_leave_the_generator_reseeded_witness :
  exists d w1' w2',
    @mock_competition_data Reference.runtime (VStr (py "abc"))
      Reference.world0 = (Ok d, w1')
    /\ @mock_competition_data Reference.runtime (VStr (py "abc"))
         Reference.world1 = (Ok d, w2')
    /\ rng_state w1' = rng_state w2'
    /\ fst (mock_search_volume (VStr (py "x")) w1')
       = fst (mock_search_volume (VStr (py "y")) w2')
    /\ fst (mock_search_volume (VStr (py "x")) Reference.world0)
       <> fst (mock_search_volume (VStr (py "x")) Reference.world1).
Proof.
  eexists _, _, _. split; [vm_compute; reflexivity|].
  split; [vm_compute; reflexivity|].
  destruct (seeded_mocks_leave_the_generator_reseeded Reference.runtime
              mock_competition_data (or_introl eq_refl) (VStr (py "abc"))
              Reference.world0 Reference.world1 _ _ _ _
              ltac:(vm_compute; reflexivity) ltac:(vm_compute; reflexivity))
    as (_ & Hr & _ & Hv).
  split; [exact Hr|]. split; [apply Hv|].
  vm_compute. discriminate.
Defined.


(** ** The demand axis *)

(** *** The groups of five *)

Lemma firstn_add_skipn {A : Type} (a b : nat) (l : list A) :
  firstn (a + b) l = firstn a l ++ firstn b (skipn a l).
Proof.
  revert l. induction a as [|a IH]; intros l; [reflexivity|].
  destruct l as [|x l]; simpl.
  - now rewrite firstn_nil.
  - now rewrite IH.
Qed.

Lemma concat_slices {A : Type} (l : list A) (m : nat) :
  List.concat (map (fun j => slice5 l (5 * j)) (seq 0 m)) = firstn (5 * m) l.
Proof.
  induction m as [|m IH]; [reflexivity|].
  rewrite seq_S, map_app, concat_app, IH. simpl List.concat. rewrite app_nil_r.
  unfold slice5. replace (5 * S m)%nat with (5 * m + 5)%nat by lia.
  symmetry. apply firstn_add_skipn.
Qed.

Lemma slice5_length {A : Type} (l : list A) (i : nat) :
  (i < List.length l)%nat ->
  (1 <= List.length (slice5 l i) <= 5)%nat.
Proof.
  intros H. unfold slice5. rewrite length_firstn, length_skipn. lia.
Qed.

(** X10. The groups [analyze_trends] sends to Google Trends partition the
    keyword list: concatenated in order they give the list back, every group
    has between one and five keywords, and there are [ceil(len / 5)] of
    them. *)
Theorem keyword_groups_partition :
  forall (l : list value),
  exists groups : list (list value),
    keyword_groups (VList l) = Ok (map VList groups)
    /\ List.concat groups = l
    /\ Forall (fun g => (1 <= List.length g <= 5)%nat) groups
    /\ List.length groups = ((List.length l + 4) / 5)%nat.
Proof.
  intros l.
  exists (map (fun j => slice5 l (5 * j)) (seq 0 ((List.length l + 4) / 5))).
  assert (Hle := Nat.Div0.mul_div_le (List.length l + 4) 5).
  assert (Hgt := Nat.mul_succ_div_gt (List.length l + 4) 5 ltac:(lia)).
  repeat split.
  - unfold keyword_groups, range5. now rewrite !map_map.
  - rewrite concat_slices. apply firstn_all2. lia.
  - apply Forall_map, Forall_forall. intros j Hj. apply in_seq in Hj.
    apply slice5_length. lia.
  - now rewrite length_map, length_seq.
Qed.

(** *** The entry of one series *)

Lemma Qsum_repeat (x : Q) (n : nat) :
  Qsum (repeat x n) == inject_Z (Z.of_nat n) * x.
Proof.
  induction n as [|n IH].
  - simpl. change (inject_Z (Z.of_nat 0)) with 0%Q. ring.
  - cbn [repeat Qsum]. rewrite IH, Nat2Z.inj_succ. unfold Z.succ.
    rewrite inject_Z_plus. change (inject_Z 1) with 1%Q. ring.
Qed.

Lemma mean_repeat (x : Q) (n : nat) :
  (1 <= n)%nat -> mean (repeat x n) == x.
Proof.
  intros Hn. unfold mean. rewrite Qsum_repeat, repeat_length.
  assert (H : (0 < inject_Z (Z.of_nat n))%Q).
  { change 0%Q with (inject_Z 0). rewrite <- Zlt_Qlt. lia. }
  field. lra.
Qed.

Lemma firstn_repeat {A : Type} (x : A) (k n : nat) :
  (k <= n)%nat -> firstn k (repeat x n) = repeat x k.
Proof.
  revert n. induction k as [|k IH]; intros n H; [reflexivity|].
  destruct n as [|n]; [lia|]. simpl. rewrite IH; [reflexivity|lia].
Qed.

Lemma skipn_repeat {A : Type} (x : A) (k n : nat) :
  skipn k (repeat x n) = repeat x (n - k).
Proof.
  revert n. induction k as [|k IH]; intros n.
  - now rewrite Nat.sub_0_r.
  - destruct n as [|n]; [reflexivity|]. simpl. apply IH.
Qed.

(** X11. A series that stays at one value is not reported as flat: its
    entry has that value as the average interest and the trend [下降] when
    it has two points or more (the test is [second_half > first_half]), and
    [不明] when it has one point. *)
Theorem flat_series_is_reported_falling :
  forall (x : Q) (n : nat),
    (1 <= n)%nat ->
    avg_interest (trend_entry (repeat x n)) == x
    /\ trend_of (trend_entry (repeat x n))
       = (if (n =? 1)%nat then Unknown else Falling).
Proof.
  intros x n Hn. unfold trend_entry. cbn [avg_interest trend_of].
  rewrite repeat_length. split; [now apply mean_repeat|].
  destruct (Nat.eqb_spec n 1) as [->|Hn1]; [reflexivity|].
  assert (H2 : (2 <= n)%nat) by lia.
  destruct (Nat.ltb_spec 1 n) as [_|]; [|lia].
  assert (Hh : (1 <= n / 2)%nat)
    by (apply (Nat.Div0.div_le_mono 2 n 2 H2)).
  assert (Hh2 : (n / 2 < n)%nat) by (apply Nat.div_lt; lia).
  rewrite firstn_repeat, skipn_repeat by lia.
  assert (E : Qle_bool (mean (repeat x (n - n / 2))) (mean (repeat x (n / 2)))
              = true).
  { apply Qle_bool_iff. rewrite !mean_repeat by lia. apply Qle_refl. }
  now rewrite E.
Qed.

Lemma flat_series_is_reported_falling_witness :
  (avg_interest (trend_entry (repeat 40%Q 12)) == 40
   /\ trend_of (trend_entry (repeat 40%Q 12)) = Falling)
  /\ trend_of (trend_entry [40%Q; 41%Q]) = Rising.
Proof.
  split; [|reflexivity].
  apply (flat_series_is_reported_falling 40%Q 12). lia.
Defined.


(** *** Runs of the demand analysis *)

Section MonadFacts.

Context {RT : Runtime}.

Lemma bind_ok {A B : Type} (m : M A) (f : A -> M B) (w w' : world) (b : B) :
  bind m f w = (Ok b, w') ->
  exists a w1, m w = (Ok a, w1) /\ f a w1 = (Ok b, w').
Proof.
  unfold bind. destruct (m w) as [[a|e] w1]; [|discriminate].
  intros H. now exists a, w1.
Qed.

Lemma lift_ok {A : Type} (o : outcome A) (w w' : world) (a : A) :
  lift o w = (Ok a, w') -> o = Ok a /\ w' = w.
Proof. unfold lift. now intros [= -> ->]. Qed.

End MonadFacts.

Lemma dict_find_in_values {V : Type} (d : odict V) (k : value) (v : V) :
  dict_find d k = Some v -> In v (dict_values d).
Proof.
  induction d as [|[k0 v0] d IH]; simpl; [discriminate|].
  destruct (key_eqb k0 k); [intros [= ->]; now left|].
  intros H. right. now apply IH.
Qed.

Section SearchVolume.

Context {RT : Runtime}.

Lemma mock_search_volume_value (keyword : value) (w : world) :
  exists v w',
    mock_search_volume keyword w = (Ok v, w')
    /\ 500 <= v <= 10000 /\ net_state w' = net_state w.
Proof.
  unfold mock_search_volume, random_randint, randbelow, with_rng, bind, ret.
  destruct (next_below (10000 - 500 + 1) (rng_state w)) as [r s'].
  eexists _, _. split; [reflexivity|]. split; [|reflexivity].
  pose proof (Z.mod_pos_bound r (10000 - 500 + 1)). lia.
Qed.

(** The loop of [get_search_volume]: it returns, it stores a volume of
    [[500, 10000]] under every hashable keyword and skips the others. *)
Lemma search_volume_loop_spec (keywords : list value) :
  forall (result : odict Z) (w : world),
    exists search_volume w',
      search_volume_loop keywords result w = (Ok search_volume, w')
      /\ dict_keys search_volume
         = fold_left add_key (filter hashable keywords) (dict_keys result)
      /\ (Forall (fun v => 500 <= v <= 10000) (dict_values result) ->
          Forall (fun v => 500 <= v <= 10000) (dict_values search_volume))
      /\ (forall k,
             dict_mem result k = true
             \/ existsb (fun k0 => hashable k0 && key_eqb k0 k) keywords = true ->
             dict_mem search_volume k = true)
      /\ net_state w' = net_state w.
Proof.
  induction keywords as [|keyword rest IH]; intros result w.
  - exists result, w. repeat split; try tauto.
    intros k [H|H]; [exact H|discriminate].
  - cbn [search_volume_loop]. unfold bind at 1, try_except, bind, lift, setitem.
    destruct (mock_search_volume_value keyword w) as (v & w1 & -> & Hv & Hn).
    destruct (hashable keyword) eqn:Hh.
    + destruct (IH (dict_set result keyword v) w1)
        as (sv & w' & -> & Hk & Hvs & Hm & Hn').
      exists sv, w'. split; [reflexivity|]. split; [|split; [|split]].
      * rewrite Hk, dict_keys_set. cbn [filter]. now rewrite Hh.
      * intros Hr. apply Hvs. now apply Forall_dict_set.
      * intros k Hk0. apply Hm. rewrite dict_mem_set.
        destruct Hk0 as [Hk0|Hk0].
        -- left. rewrite Hk0. apply orb_true_r.
        -- cbn [existsb] in Hk0. rewrite Hh in Hk0. cbn [andb] in Hk0.
           apply orb_true_iff in Hk0 as [Hk0|Hk0]; [|now right].
           left. now rewrite Hk0.
      * congruence.
    + cbv beta iota delta [ret].
      destruct (IH result w1) as (sv & w' & -> & Hk & Hvs & Hm & Hn').
      exists sv, w'. split; [reflexivity|]. split; [|split; [|split]].
      * rewrite Hk. cbn [filter]. now rewrite Hh.
      * exact Hvs.
      * intros k Hk0. apply Hm. destruct Hk0 as [Hk0|Hk0]; [now left|].
        cbn [existsb] in Hk0. rewrite Hh in Hk0. now right.
      * congruence.
Qed.

End SearchVolume.

(** X12. [get_search_volume] never raises on a list of keywords: it
    returns a dict whose keys are the distinct hashable keywords in order of
    first occurrence (an unhashable keyword is skipped by the [except]
    branch), every volume is an integer of [[500, 10000]], whatever the API
    key is, and nothing but the generator of [random] is touched. *)
Theorem search_volumes_are_draws_of_500_to_10000 :
  forall (RT : Runtime) (keywords : list value) (api_key : value)
         (w : world),
  exists search_volume w',
    get_search_volume (VList keywords) api_key w = (Ok search_volume, w')
    /\ dict_keys search_volume
       = first_occurrences (filter hashable keywords)
    /\ Forall (fun v => 500 <= v <= 10000) (dict_values search_volume)
    /\ net_state w' = net_state w.
Proof.
  intros RT keywords api_key w.
  destruct (search_volume_loop_spec keywords [] w)
    as (sv & w' & H & Hk & Hv & _ & Hn).
  exists sv, w'. unfold get_search_volume, bind, lift. cbn [py_iter].
  repeat split; try assumption. apply Hv. constructor.
Qed.

Lemma slice5_incl {A : Type} (l : list A) (i : nat) (x : A) :
  In x (slice5 l i) -> In x l.
Proof.
  unfold slice5. intros H.
  rewrite <- (firstn_skipn i l). apply in_or_app. right.
  rewrite <- (firstn_skipn 5 (skipn i l)). apply in_or_app. now left.
Qed.

Section Trends.

Context {RT : Runtime}.

Lemma trends_group_loop_keys (Pk : value -> Prop) (df : dataframe)
  (keywords : list value) :
  Forall Pk keywords ->
  forall result,
    Forall Pk (dict_keys result) ->
    Forall Pk (dict_keys (fst (trends_group_loop df keywords result))).
Proof.
  induction 1 as [|keyword rest Hk _ IH]; intros result Hr; simpl.
  - exact Hr.
  - destruct keyword; try (now apply IH); try exact Hr.
    destruct (frame_column df s); [|now apply IH].
    apply IH. rewrite dict_keys_set. unfold add_key.
    destruct (existsb _ _); [exact Hr|].
    apply Forall_app. split; [exact Hr|]. now repeat constructor.
Qed.

Lemma trends_group_spec (Pk : value -> Prop) (items : list value)
  (result : odict trend_info) (w : world) :
  Forall Pk items -> Forall Pk (dict_keys result) ->
  exists r w',
    trends_group (VList items) result w = (Ok r, w')
    /\ rng_state w' = rng_state w
    /\ Forall Pk (dict_keys r)
    /\ (no_trend_data -> r = result).
Proof.
  intros Hi Hr. unfold trends_group, try_except, bind, with_net.
  destruct (interest_over_time (VList items) (net_state w)) as [[df|e] n']
    eqn:Ed.
  - destruct df as [|col df].
    + exists result, (World (rng_state w) n').
      split; [reflexivity|]. split; [reflexivity|]. split; [exact Hr|].
      reflexivity.
    + cbn [lift py_iter ret]. eexists _, _. split; [reflexivity|].
      split; [reflexivity|]. split.
      * now apply trends_group_loop_keys.
      * intros Hnd. exfalso.
        destruct (Hnd (VList items) (net_state w)) as [n2 [H|[e H]]];
          rewrite Ed in H; discriminate.
  - exists result, (World (rng_state w) n').
    split; [reflexivity|]. split; [reflexivity|]. split; [exact Hr|].
    reflexivity.
Qed.

Lemma trends_loop_spec (Pk : value -> Prop) (groups : list (list value)) :
  Forall (Forall Pk) groups ->
  forall (result : odict trend_info) (w : world),
    Forall Pk (dict_keys result) ->
    exists r w',
      trends_loop (map VList groups) result w = (Ok r, w')
      /\ rng_state w' = rng_state w
      /\ Forall Pk (dict_keys r)
      /\ (no_trend_data -> r = result).
Proof.
  induction 1 as [|items rest Hi _ IH]; intros result w Hr.
  - exists result, w.
    split; [reflexivity|]. split; [reflexivity|]. split; [exact Hr|].
    reflexivity.
  - cbn [map trends_loop]. unfold bind at 1.
    destruct (trends_group_spec Pk items result w Hi Hr)
      as (r1 & w1 & -> & Hg1 & Hk1 & Hn1).
    destruct (IH r1 w1 Hk1) as (r & w' & -> & Hg & Hk & Hn).
    exists r, w'. split; [reflexivity|]. split; [congruence|].
    split; [exact Hk|]. intros Hnd. rewrite (Hn Hnd). now apply Hn1.
Qed.

Lemma analyze_trends_returns (keywords : list value) (w : world) (n1 : net) :
  trend_req (net_state w) = (Ok tt, n1) ->
  exists trends_data w',
    analyze_trends (VList keywords) w = (Ok trends_data, w').
Proof.
  intros Hs. unfold analyze_trends. unfold bind at 1, with_net. rewrite Hs.
  unfold bind, lift. cbn [keyword_groups]. apply trends_loop_returns.
Qed.

End Trends.

(** X13. Once the session is open, [analyze_trends] absorbs every failure
    of the trends service: on a list of keywords it returns, whatever the
    requests do; its result only has keywords of the list as keys, it is
    empty when the service has no data, and the generator of [random] is
    not touched. *)
Theorem analyze_trends_absorbs_service_failures :
  forall (RT : Runtime) (keywords : list value) (w : world) (n1 : net),
    trend_req (net_state w) = (Ok tt, n1) ->
    exists trends_data w',
      analyze_trends (VList keywords) w = (Ok trends_data, w')
      /\ rng_state w' = rng_state w
      /\ Forall (fun k => In k keywords) (dict_keys trends_data)
      /\ (no_trend_data -> trends_data = []).
Proof.
  intros RT keywords w n1 Hs.
  set (groups := map (fun i => slice5 keywords i)
                   (range5 (List.length keywords))).
  assert (Hg : keyword_groups (VList keywords) = Ok (map VList groups))
    by (unfold keyword_groups, groups; now rewrite map_map).
  unfold analyze_trends. unfold bind at 1, with_net. rewrite Hs.
  unfold bind, lift. rewrite Hg.
  destruct (trends_loop_spec (fun k => In k keywords) groups) with
    (result := @nil (value * trend_info)) (w := World (rng_state w) n1)
    as (r & w' & -> & Hr & Hk & Hn).
  - apply Forall_map, Forall_forall. intros i _.
    apply Forall_forall. intros k Hk. now apply (slice5_incl keywords i).
  - constructor.
  - exists r, w'. repeat split; assumption.
Qed.

Lemma analyze_trends_absorbs_service_failures_witness :
  exists w',
    @analyze_trends Reference.runtime
      (VList [VStr (py "a"); VStr (py "b"); VStr (py "c"); VStr (py "d");
              VStr (py "e"); VStr (py "f")]) Reference.world0 = (Ok [], w')
    /\ rng_state w' = rng_state Reference.world0
    /\ net_state w' = 3%nat.
Proof.
  destruct (analyze_trends_absorbs_service_failures Reference.runtime
              [VStr (py "a"); VStr (py "b"); VStr (py "c"); VStr (py "d");
               VStr (py "e"); VStr (py "f")] Reference.world0 1%nat
              eq_refl) as (td & w' & H & Hr & _ & Hn).
  rewrite (Hn (fun group n => ex_intro _ (S n) (or_introl eq_refl))) in H.
  exists w'. split; [exact H|]. split; [exact Hr|].
  revert H. vm_compute. now intros [= <-].
Defined.


(** *** The demand score *)

Section KeptEntries.

Context {RT : Runtime}.
Context {E : Type}.
Variable analyze_one : value -> value -> M (genre_result E).
Variable Pr : genre_result E -> Prop.

Lemma entries_loop_values_in (entries : list (value * value)) :
  Forall (fun nk => forall w0 r w1,
              analyze_one (fst nk) (snd nk) w0 = (Ok r, w1) -> Pr r) entries ->
  forall acc w out w',
    entries_loop analyze_one entries acc w = (Ok out, w') ->
    Forall Pr (dict_values acc) -> Forall Pr (dict_values out).
Proof.
  induction 1 as [|[n k] rest Hnk _ IH]; intros acc w out w' H Ha.
  - simpl in H. injection H as <- _. exact Ha.
  - apply entries_loop_cons_ok in H as (r & w1 & Hr & _ & H).
    apply (IH _ _ _ _ H). apply Forall_dict_set; [exact Ha|].
    apply (Hnk _ _ _ Hr).
Qed.

(** An analyzer stores what the analysis of one genre returned, and it
    only analyses names and keywords that are truthy. *)
Lemma analyze_genres_values_kept (payload : value) (w w' : world) out :
  (forall n k w0 r w1,
      truthy n = true -> truthy k = true ->
      analyze_one n k w0 = (Ok r, w1) -> Pr r) ->
  analyze_genres analyze_one payload w = (Ok out, w') ->
  Forall Pr (dict_values out).
Proof.
  intros Hf H.
  destruct (analyze_genres_cases analyze_one payload w)
    as [(genres & _ & Hl)|[He|He]]; rewrite H in *.
  - symmetry in Hl. apply (entries_loop_values_in _) in Hl; [exact Hl| |constructor].
    eapply Forall_impl; [|apply kept_entries_truthy].
    intros [n k] [Hn Hk] w0 r w1. now apply Hf.
  - injection He as -> _. constructor.
  - discriminate.
Qed.

End KeptEntries.

Lemma truthy_iter_nonempty (k : value) (ks : list value) :
  truthy k = true -> py_iter k = Ok ks -> ks <> [].
Proof.
  destruct k; try discriminate; simpl.
  - destruct s; [discriminate|]. intros _ [= <-]. discriminate.
  - destruct items; [discriminate|]. intros _ [= <-]. discriminate.
  - destruct items; [discriminate|]. intros _ [= <-]. discriminate.
Qed.

Lemma keyword_result_loop_ok_hashable (keywords : list value)
  (trends_data : odict trend_info) (search_volume : odict Z) :
  forall analysis analysis',
    keyword_result_loop keywords trends_data search_volume analysis
    = Ok analysis' ->
    Forall (fun k => hashable k = true) keywords.
Proof.
  induction keywords as [|keyword rest IH]; intros analysis analysis' H.
  - constructor.
  - simpl in H. unfold getitem, setitem in H.
    destruct (hashable keyword) eqn:Hh; [|discriminate].
    constructor; [exact Hh|]. now apply IH in H.
Qed.

Lemma keyword_result_loop_unhashable (keywords : list value)
  (trends_data : odict trend_info) (search_volume : odict Z) :
  Exists (fun k => hashable k = false) keywords ->
  forall analysis,
    keyword_result_loop keywords trends_data search_volume analysis
    = Raise TypeError.
Proof.
  induction keywords as [|keyword rest IH]; intros Hex analysis.
  - inversion Hex.
  - simpl. unfold getitem, setitem.
    destruct (hashable keyword) eqn:Hh; [|reflexivity].
    apply IH. inversion Hex; subst; [congruence|assumption].
Qed.

Lemma volume_sum_bounds (search_volume : odict Z) (keywords : list value) :
  Forall (fun k => 500 <= volume_of search_volume k <= 10000) keywords ->
  500 * Z.of_nat (List.length keywords)
  <= fold_right Z.add 0 (map (volume_of search_volume) keywords)
  <= 10000 * Z.of_nat (List.length keywords).
Proof.
  induction 1 as [|k rest Hk _ IH]; [simpl; lia|].
  cbn [map fold_right List.length]. rewrite Nat2Z.inj_succ. lia.
Qed.

Lemma Qsum_zero {A : Type} (l : list A) :
  Qsum (map (fun _ => 0%Q) l) == 0.
Proof. induction l as [|x l IH]; simpl; [reflexivity|]. rewrite IH. ring. Qed.

(** The demand score when the trends gave nothing: half the mean
    volume. *)
Lemma demand_score_without_trends (search_volume : odict Z)
  (keywords : list value) :
  keywords <> [] ->
  Forall (fun k => 500 <= volume_of search_volume k <= 10000) keywords ->
  (250 <= demand_score [] search_volume keywords <= 5000)%Q.
Proof.
  intros Hn Hv.
  pose proof (demand_score_times_length [] search_volume keywords Hn) as H.
  change (map (interest_of []) keywords)
    with (map (fun _ : value => 0%Q) keywords) in H.
  rewrite Qsum_zero in H.
  assert (Hf : filter (is_rising []) keywords = []).
  { clear. induction keywords; [reflexivity|exact IHkeywords]. }
  rewrite Hf in H. cbn [List.length] in H.
  change (inject_Z (Z.of_nat 0)) with 0%Q in H.
  destruct (volume_sum_bounds search_volume keywords Hv) as [H1 H2].
  rewrite Zle_Qle, inject_Z_mult in H1, H2.
  change (inject_Z 500) with 500%Q in H1.
  change (inject_Z 10000) with 10000%Q in H2.
  assert (Hpos : (0 < inject_Z (Z.of_nat (List.length keywords)))%Q).
  { destruct keywords as [|k l]; [congruence|]. apply length_pos_Q. }
  set (n := inject_Z (Z.of_nat (List.length keywords))) in *.
  set (s := inject_Z (fold_right Z.add 0 (map (volume_of search_volume) keywords)))
    in *.
  set (d := demand_score [] search_volume keywords) in *.
  split; nra.
Qed.

Section DemandGenre.

Context {RT : Runtime}.

Lemma analyze_trends_no_data (keywords : value) (w w' : world)
  (trends_data : odict trend_info) :
  no_trend_data ->
  analyze_trends keywords w = (Ok trends_data, w') ->
  trends_data = [].
Proof.
  intros Hnd H. unfold analyze_trends in H.
  apply bind_ok in H as (u & w1 & _ & H).
  apply bind_ok in H as (groups & w2 & Hg & H). clear Hg.
  revert H. generalize (@nil (value * trend_info)) as result.
  revert w2. induction groups as [|group rest IH]; intros w2 result H.
  - simpl in H. now injection H as <- _.
  - cbn [trends_loop] in H. apply bind_ok in H as (r1 & w3 & Hg & H).
    apply IH in H. subst trends_data.
    revert Hg. unfold trends_group, try_except, bind, with_net.
    destruct (Hnd group (net_state w2)) as [n' [-> | [e ->]]].
    + now intros [= <- _].
    + now intros [= <- _].
Qed.

Lemma keyword_result_loop_values (Pe : keyword_result -> Prop)
  (keywords : list value) (trends_data : odict trend_info)
  (search_volume : odict Z) :
  (forall k, In k keywords -> Pe (keyword_entry trends_data search_volume k)) ->
  forall analysis analysis',
    Forall Pe (dict_values analysis) ->
    keyword_result_loop keywords trends_data search_volume analysis
    = Ok analysis' ->
    Forall Pe (dict_values analysis').
Proof.
  induction keywords as [|keyword rest IH]; intros Hk analysis analysis' Ha H.
  - simpl in H. now injection H as <-.
  - simpl in H. unfold getitem, setitem in H.
    destruct (hashable keyword); [|discriminate].
    apply (IH (fun k Hin => Hk k (or_intror Hin)) _ _) in H; [exact H|].
    apply Forall_dict_set; [exact Ha|].
    exact (Hk keyword (or_introl eq_refl)).
Qed.

(** What the demand analysis of one genre returns when the trends gave
    nothing. *)
Lemma demand_genre_without_trend_data (google_api_key genre_name keywords : value)
  (w w' : world) (r : genre_result keyword_result) :
  no_trend_data ->
  truthy keywords = true ->
  demand_genre google_api_key genre_name keywords w = (Ok r, w') ->
  exists ks,
    py_iter keywords = Ok ks
    /\ ks <> []
    /\ dict_keys (result_entries r) = first_occurrences ks
    /\ Forall (fun e => trend_information e = default_trend_info
                        /\ 500 <= monthly_volume e <= 10000)
         (dict_values (result_entries r))
    /\ (result_score r * inject_Z (Z.of_nat (List.length ks))
        == (1 # 2)
           * inject_Z (fold_right Z.add 0%Z (map (stored_volume r) ks)))%Q
    /\ (250 <= result_score r <= 5000)%Q.
Proof.
  intros Hnd Ht H. unfold demand_genre in H.
  apply bind_ok in H as (td & w1 & Htd & H).
  apply (analyze_trends_no_data _ _ _ _ Hnd) in Htd. subst td.
  apply bind_ok in H as (sv & w2 & Hsv & H).
  apply bind_ok in H as (ks & w3 & Hks & H).
  apply lift_ok in Hks as [Hks ->].
  apply bind_ok in H as (analysis & w4 & Ha & H).
  apply lift_ok in Ha as [Ha ->].
  unfold ret in H. injection H as <- _.
  cbn [result_score result_entries].
  pose proof (keyword_result_loop_ok_hashable _ _ _ _ _ Ha) as Hh.
  unfold get_search_volume, bind, lift in Hsv. rewrite Hks in Hsv.
  destruct (search_volume_loop_spec ks [] w1)
    as (sv' & w2' & E & _ & Hv & Hm & _).
  rewrite E in Hsv. injection Hsv as -> _.
  assert (Hne : ks <> []) by now apply (truthy_iter_nonempty keywords).
  assert (Hvol : Forall (fun k => 500 <= volume_of sv k <= 10000) ks).
  { apply Forall_forall. intros k Hin.
    rewrite Forall_forall in Hh. specialize (Hh k Hin).
    assert (Hk : dict_mem sv k = true).
    { apply Hm. right. apply existsb_exists. exists k. split; [exact Hin|].
      rewrite Hh. now apply key_eqb_refl. }
    unfold volume_of. unfold dict_mem in Hk.
    destruct (dict_find sv k) as [v|] eqn:Ef; [|discriminate].
    apply dict_find_in_values in Ef.
    specialize (Hv (Forall_nil _)). rewrite Forall_forall in Hv.
    now apply Hv. }
  destruct (keyword_result_loop_hashable ks [] sv Hh [])
    as (analysis' & Ha' & Hkeys & Hfind).
  rewrite Ha in Ha'. injection Ha' as <-.
  exists ks. split; [exact Hks|]. split; [exact Hne|].
  split; [exact Hkeys|]. split; [|split].
  - apply (keyword_result_loop_values _ ks [] sv) with (analysis := []);
      [|constructor|exact Ha].
    intros k Hin. split; [reflexivity|].
    rewrite Forall_forall in Hvol. exact (Hvol k Hin).
  - pose proof (demand_score_times_length [] sv ks Hne) as Hs.
    change (map (interest_of []) ks)
      with (map (fun _ : value => 0%Q) ks) in Hs.
    rewrite Qsum_zero in Hs.
    assert (Hf : filter (is_rising []) ks = []).
    { clear. induction ks as [|k ks IH]; [reflexivity|exact IH]. }
    rewrite Hf in Hs. cbn [List.length] in Hs.
    change (inject_Z (Z.of_nat 0)) with 0%Q in Hs.
    assert (Hst : map (stored_volume
                         (GenreResult genre_name analysis
                            (demand_score [] sv ks))) ks
                  = map (volume_of sv) ks).
    { apply map_ext_in. intros k Hin. unfold stored_volume.
      cbn [result_entries]. rewrite Hfind.
      assert (Hex : existsb (fun k0 => key_eqb k0 k) ks = true).
      { apply existsb_exists. exists k. split; [exact Hin|].
        apply key_eqb_refl. rewrite Forall_forall in Hh. now apply Hh. }
      rewrite Hex. reflexivity. }
    rewrite Hst, Hs. ring.
  - now apply demand_score_without_trends.
Qed.

(** The demand analysis of one genre returns on hashable keywords when
    the trends session opens. *)
Lemma demand_genre_hashable_returns (google_api_key genre_name : value)
  (keywords : list value) (w : world) (n1 : net) :
  trend_req (net_state w) = (Ok tt, n1) ->
  Forall (fun k => hashable k = true) keywords ->
  exists r w',
    demand_genre google_api_key genre_name (VList keywords) w = (Ok r, w').
Proof.
  intros Hs Hh.
  destruct (analyze_trends_returns keywords w n1 Hs) as (td & w1 & Htd).
  unfold demand_genre. unfold bind at 1. rewrite Htd.
  unfold get_search_volume, bind, lift. cbn [py_iter].
  destruct (search_volume_loop_spec keywords [] w1) as (sv & w2 & -> & _).
  destruct (keyword_result_loop_hashable keywords td sv Hh [])
    as (analysis & -> & _).
  now eexists _, _.
Qed.

End DemandGenre.

(** X14. When the trends service has no data (every request raises or
    answers with an empty frame), the demand score of every genre
    [analyze_demand] returns is half the mean of the mock search volumes of
    its keywords: the result has one entry per distinct keyword, each with
    the default trend information and a volume of [[500, 10000]], and the
    score times the number of keywords is half the sum of the volumes
    stored for the keywords; it is a number of [[250, 5000]], never on the
    scale of 0 to 100 of the other two scores. Such a result is produced:
    when the trends session opens, the demand analysis of a genre with a
    non-empty list of hashable keywords returns, with that score. *)
Theorem demand_score_without_trend_data :
  forall (RT : Runtime),
    no_trend_data ->
    (forall (payload google_api_key : value) (w w' : world) out,
        analyze_demand payload google_api_key w = (Ok out, w') ->
        Forall (fun r =>
                  (250 <= result_score r <= 5000)%Q
                  /\ exists keywords : list value,
                       keywords <> []
                       /\ dict_keys (result_entries r)
                          = first_occurrences keywords
                       /\ Forall (fun e =>
                                    trend_information e = default_trend_info
                                    /\ 500 <= monthly_volume e <= 10000)
                            (dict_values (result_entries r))
                       /\ (result_score r
                           * inject_Z (Z.of_nat (List.length keywords))
                           == (1 # 2)
                              * inject_Z
                                  (fold_right Z.add 0%Z
                                     (map (stored_volume r) keywords)))%Q)
          (dict_values out))
    /\ (forall (google_api_key genre_name : value) (keywords : list value)
               (w : world) (n1 : net),
          keywords <> [] ->
          Forall (fun k => hashable k = true) keywords ->
          trend_req (net_state w) = (Ok tt, n1) ->
          exists r w',
            demand_genre google_api_key genre_name (VList keywords) w
            = (Ok r, w')
            /\ dict_keys (result_entries r) = first_occurrences keywords
            /\ (result_score r * inject_Z (Z.of_nat (List.length keywords))
                == (1 # 2)
                   * inject_Z
                       (fold_right Z.add 0%Z
                          (map (stored_volume r) keywords)))%Q
            /\ (250 <= result_score r <= 5000)%Q).
Proof.
  intros RT Hnd. split.
  - intros payload key w w' out. apply analyze_genres_values_kept.
    intros n k w0 r w1 _ Hk H.
    destruct (demand_genre_without_trend_data _ _ _ _ _ _ Hnd Hk H)
      as (ks & _ & Hne & Hkeys & Hv & Hs & Hb).
    split; [exact Hb|]. now exists ks.
  - intros key name keywords w n1 Hne Hh Hs.
    destruct (demand_genre_hashable_returns key name keywords w n1 Hs Hh)
      as (r & w' & Hr).
    exists r, w'. split; [exact Hr|].
    assert (Ht : truthy (VList keywords) = true)
      by (destruct keywords; [congruence|reflexivity]).
    destruct (demand_genre_without_trend_data _ _ _ _ _ _ Hnd Ht Hr)
      as (ks & Hks & _ & Hkeys & _ & Hsc & Hb).
    cbn [py_iter] in Hks. injection Hks as <-. now repeat split.
Qed.

Lemma demand_score_without_trend_data_witness :
  exists out w' r,
    @analyze_demand Reference.runtime Examples.payload_one_genre VNone
      Reference.world0 = (Ok out, w')
    /\ dict_values out = [r]
    /\ (250 <= result_score r <= 5000)%Q
    /\ dict_keys (result_entries r) = [VStr (py "X"); VStr (py "Y")]
    /\ (result_score r * 2
        == (1 # 2)
           * inject_Z (stored_volume r (VStr (py "X"))
                       + stored_volume r (VStr (py "Y"))))%Q.
Proof.
  assert (Hnd : @no_trend_data Reference.runtime)
    by (intros group n; exists (S n); left; reflexivity).
  destruct (demand_score_without_trend_data Reference.runtime Hnd)
    as [Ha Hg].
  eexists _, _, _. split; [vm_compute; reflexivity|].
  split; [reflexivity|].
  specialize (Ha Examples.payload_one_genre VNone Reference.world0 _ _
                ltac:(vm_compute; reflexivity)).
  apply Forall_inv in Ha. destruct Ha as [Hb _].
  split; [exact Hb|]. split; [reflexivity|].
  vm_compute. reflexivity.
Defined.

(** X15. A keyword that cannot be hashed (a list or a dict) makes the
    demand analysis of its genre raise [TypeError], once the trends session
    is open: [analyze_trends] and [get_search_volume] both swallow the
    error in their [except] branches, and the lookup
    [trends_data.get(keyword, ...)] in [analyze_demand] is outside any
    [try]. *)
Theorem unhashable_keyword_raises_in_demand_analysis :
  forall (RT : Runtime) (google_api_key genre_name : value)
         (keywords : list value) (w : world) (n1 : net),
    trend_req (net_state w) = (Ok tt, n1) ->
    Exists (fun k => hashable k = false) keywords ->
    (exists trends_data w1,
        analyze_trends (VList keywords) w = (Ok trends_data, w1))
    /\ (exists search_volume w2,
           get_search_volume (VList keywords) google_api_key w
           = (Ok search_volume, w2))
    /\ exists w',
         demand_genre google_api_key genre_name (VList keywords) w
         = (Raise TypeError, w').
Proof.
  intros RT key name keywords w n1 Hs Hex.
  destruct (analyze_trends_returns keywords w n1 Hs) as (td & w1 & Htd).
  split; [now exists td, w1|]. split.
  - destruct (search_volume_loop_spec keywords [] w) as (sv & w2 & E & _).
    exists sv, w2. unfold get_search_volume, bind, lift. exact E.
  - unfold demand_genre. unfold bind at 1. rewrite Htd.
    unfold get_search_volume, bind, lift. cbn [py_iter].
    destruct (search_volume_loop_spec keywords [] w1) as (sv & w2 & -> & _).
    rewrite (keyword_result_loop_unhashable keywords td sv Hex).
    now exists w2.
Qed.

Lemma unhashable_keyword_raises_in_demand_analysis_witness :
  exists w',
    @demand_genre Reference.runtime VNone (VStr (py "X"))
      (VList [VStr (py "a"); VList []]) Reference.world0
    = (Raise TypeError, w').
Proof.
  destruct (unhashable_keyword_raises_in_demand_analysis Reference.runtime
              VNone (VStr (py "X")) [VStr (py "a"); VList []]
              Reference.world0 1%nat) as (_ & _ & H).
  - reflexivity.
  - right. left. reflexivity.
  - exact H.
Defined.

(** X16. Opening the trends session is outside every [try]: when
    [TrendReq(...)] raises, [analyze_demand] raises the same exception at
    the first entry it analyses, without touching the generator of
    [random]; a list in which no entry has a name and keywords is answered
    with the empty mapping, no session being opened. *)
Theorem trend_session_failure_is_not_caught :
  forall (RT : Runtime) (genres : list value) (google_api_key : value)
         (w : world) (e : exn) (n1 : net),
    trend_req (net_state w) = (Raise e, n1) ->
    (kept_entries genres <> [] ->
     analyze_demand (VList genres) google_api_key w
     = (Raise e, World (rng_state w) n1))
    /\ (kept_entries genres = [] ->
        analyze_demand (VList genres) google_api_key w = (Ok [], w)).
Proof.
  intros RT genres key w e n1 Hs. unfold analyze_demand.
  rewrite analyze_genres_list. split.
  - destruct (kept_entries genres) as [|[n k] rest]; [congruence|].
    intros _. cbn [entries_loop]. unfold bind at 1.
    unfold demand_genre. unfold bind at 1. unfold analyze_trends.
    unfold bind at 1. unfold with_net. now rewrite Hs.
  - intros ->. reflexivity.
Qed.

Lemma trend_session_failure_is_not_caught_witness :
  @analyze_demand Offline.runtime
    (VList [VStr []; Examples.entry "X" ["a"; "b"]%string]) VNone Offline.world0
  = (Raise (ProviderError 429), World 20250219 1%nat)
  /\ @analyze_demand Offline.runtime (VList [VStr []; VInt 3]) VNone
       Offline.world0
     = (Ok [], Offline.world0).
Proof.
  destruct (trend_session_failure_is_not_caught Offline.runtime
              [VStr []; Examples.entry "X" ["a"; "b"]%string] VNone Offline.world0
              (ProviderError 429) 1%nat eq_refl) as [H _].
  destruct (trend_session_failure_is_not_caught Offline.runtime
              [VStr []; VInt 3] VNone Offline.world0
              (ProviderError 429) 1%nat eq_refl) as [_ H'].
  split; [apply H; discriminate|apply H'; reflexivity].
Defined.


(** ** Keywords that are not strings *)

Section WithoutToken.

Context {RT : Runtime}.
Context {P : Providers}.

Lemma twitter_step_without_token_inv (results : odict pydict)
  (keyword token : value) (w w' : world) (results' : odict pydict) :
  truthy token = false ->
  try_except (twitter_try results keyword token)
    (fun _ => twitter_except results keyword) w = (Ok results', w') ->
  mockable keyword
  /\ results' = dict_set results keyword (mock_twitter_entry keyword).
Proof.
  intros H1 H.
  destruct (mock_twitter_data_cases keyword) as [Hm|Hr].
  - split; [exact Hm|].
    destruct (twitter_step_without_token results keyword token w H1 Hm)
      as [w1 E].
    rewrite E in H. now injection H as <- _.
  - exfalso. revert H. unfold try_except, twitter_try.
    rewrite H1. unfold bind, twitter_except, bind.
    destruct (Hr w) as [e ->]. destruct (Hr w) as [e' ->]. discriminate.
Qed.

Lemma twitter_loop_without_token (keywords : list value) (token : value) :
  truthy token = false ->
  forall (results : odict pydict) (w w' : world) (results' : odict pydict),
    twitter_loop keywords results token w = (Ok results', w') ->
    Forall mockable keywords
    /\ results' = written mock_twitter_entry keywords results.
Proof.
  intros H1.
  induction keywords as [|keyword rest IH]; intros results w w' results' H.
  - simpl in H. injection H as <- _. split; [constructor|reflexivity].
  - simpl in H. unfold bind at 1 in H.
    destruct (try_except _ _ w) as [[r1|e] w1] eqn:Es; [|discriminate].
    apply (twitter_step_without_token_inv _ _ _ _ _ _ H1) in Es as [Hm ->].
    apply IH in H as [Hr ->]. split; [now constructor|reflexivity].
Qed.

Lemma competition_returns_iff_strings (keywords : list value)
  (k1 k2 : value) (w : world) :
  truthy k1 = false -> truthy k2 = false ->
  (exists results w',
      analyze_competition (VList keywords) k1 k2 w = (Ok results, w'))
  <-> Forall mockable keywords.
Proof.
  intros H1 H2. unfold analyze_competition, bind, lift. cbn [py_iter].
  split.
  - intros (results & w' & H).
    now apply (competition_loop_without_key _ _ _ H1 H2) in H.
  - intros Hm. rewrite competition_loop_keyword_loop.
    destruct (keyword_loop_written
                (fun r keyword =>
                   try_except (competition_try r keyword k1 k2)
                     (fun _ => competition_except r keyword))
                mock_competition_entry keywords)
      with (results := @nil (value * pydict)) (w := w) as [w' ->].
    + intros results keyword w0 Hin.
      apply competition_step_without_key; try assumption.
      rewrite Forall_forall in Hm. now apply Hm.
    + now eexists _, _.
Qed.

Lemma twitter_returns_iff_strings (keywords : list value) (token : value)
  (w : world) :
  truthy token = false ->
  (exists results w',
      analyze_twitter_engagement (VList keywords) token w = (Ok results, w'))
  <-> Forall mockable keywords.
Proof.
  intros H1. unfold analyze_twitter_engagement, bind, lift. cbn [py_iter].
  split.
  - intros (results & w' & H).
    now apply (twitter_loop_without_token _ _ H1) in H.
  - intros Hm. rewrite twitter_loop_keyword_loop.
    destruct (keyword_loop_written
                (fun r keyword =>
                   try_except (twitter_try r keyword token)
                     (fun _ => twitter_except r keyword))
                mock_twitter_entry keywords)
      with (results := @nil (value * pydict)) (w := w) as [w' ->].
    + intros results keyword w0 Hin.
      apply twitter_step_without_token; try assumption.
      rewrite Forall_forall in Hm. now apply Hm.
    + now eexists _, _.
Qed.

End WithoutToken.

(** X17. Without an API key or a bearer token, [analyze_competition] and
    [analyze_twitter_engagement] return on a list of keywords exactly when
    every keyword is a string that has a UTF-8 form: the [except] branch
    calls the same mock as the [try] branch, so a keyword the mock cannot
    encode (a number, [None], a list, a lone surrogate) makes the call
    raise instead of being skipped. *)
Theorem keyword_analysis_returns_iff_keywords_are_strings :
  forall (RT : Runtime) (P : Providers) (keywords : list value)
         (semrush_api_key ubersuggest_api_key twitter_bearer_token : value)
         (w : world),
    truthy semrush_api_key = false ->
    truthy ubersuggest_api_key = false ->
    truthy twitter_bearer_token = false ->
    ((exists results w',
         analyze_competition (VList keywords) semrush_api_key
           ubersuggest_api_key w = (Ok results, w'))
     <-> Forall mockable keywords)
    /\ ((exists results w',
            analyze_twitter_engagement (VList keywords) twitter_bearer_token w
            = (Ok results, w'))
        <-> Forall mockable keywords).
Proof.
  intros RT P keywords k1 k2 token w H1 H2 H3. split.
  - now apply competition_returns_iff_strings.
  - now apply twitter_returns_iff_strings.
Qed.

Lemma keyword_analysis_returns_iff_keywords_are_strings_witness :
  (exists results w',
      @analyze_competition Reference.runtime source_providers
        (VList [VStr (py "a"); VStr (py "b")]) VNone VNone Reference.world0
      = (Ok results, w'))
  /\ ~ (exists results w',
           @analyze_twitter_engagement Reference.runtime source_providers
             (VList [VStr (py "a"); VInt 2024]) VNone Reference.world0
           = (Ok results, w')).
Proof.
  destruct (keyword_analysis_returns_iff_keywords_are_strings
              Reference.runtime source_providers
              [VStr (py "a"); VStr (py "b")] VNone VNone VNone
              Reference.world0 eq_refl eq_refl eq_refl) as [[_ H] _].
  destruct (keyword_analysis_returns_iff_keywords_are_strings
              Reference.runtime source_providers
              [VStr (py "a"); VInt 2024] VNone VNone VNone
              Reference.world0 eq_refl eq_refl eq_refl) as [_ [H' _]].
  split.
  - apply H. repeat constructor; eexists _, _; (split; [reflexivity|]);
      vm_compute; reflexivity.
  - intros Hex. apply H' in Hex. inversion Hex as [|? ? _ Ht]; subst.
    inversion Ht as [|? ? (k & bytes & Hk & _) _]; subst. discriminate.
Defined.


(** ** The run of the dashboard *)

Lemma dict_find_of_key {V : Type} (d : odict V) (k : value) :
  In k (dict_keys d) -> hashable k = true -> exists v, dict_find d k = Some v.
Proof.
  intros Hin Hh. induction d as [|[k0 v0] d IH]; [destruct Hin|].
  simpl. destruct (key_eqb k0 k) eqn:E; [now exists v0|].
  destruct Hin as [Hk|Hin]; [|now apply IH].
  simpl in Hk. subst k0. rewrite (key_eqb_refl k Hh) in E. discriminate.
Qed.

Section GenreKeys.

Context {RT : Runtime}.
Context {E : Type}.
Variable analyze_one : value -> value -> M (genre_result E).

Lemma entries_loop_keys_hashable (entries : list (value * value)) :
  forall acc w out w',
    entries_loop analyze_one entries acc w = (Ok out, w') ->
    Forall (fun k => hashable k = true) (dict_keys acc) ->
    Forall (fun k => hashable k = true) (dict_keys out).
Proof.
  induction entries as [|[n k] rest IH]; intros acc w out w' H Ha.
  - simpl in H. injection H as <- _. exact Ha.
  - apply entries_loop_cons_ok in H as (r & w1 & _ & Hh & H).
    apply (IH _ _ _ _ H). rewrite dict_keys_set. unfold add_key.
    destruct (existsb _ _); [exact Ha|].
    apply Forall_app. split; [exact Ha|]. now repeat constructor.
Qed.

Lemma analyze_genres_keys_hashable (payload : value) (w w' : world) out :
  analyze_genres analyze_one payload w = (Ok out, w') ->
  Forall (fun k => hashable k = true) (dict_keys out).
Proof.
  intros H.
  destruct (analyze_genres_cases analyze_one payload w)
    as [(genres & _ & Hl)|[He|He]]; rewrite H in *.
  - symmetry in Hl. apply (entries_loop_keys_hashable _ _ _ _ _ Hl).
    constructor.
  - injection He as -> _. constructor.
  - discriminate.
Qed.

End GenreKeys.

(** Two analyzers that return on the same payload return the same
    genres. *)
Lemma analyze_genres_same_keys {RT : Runtime} {E F : Type}
  (f : value -> value -> M (genre_result E))
  (g : value -> value -> M (genre_result F))
  (payload : value) (w1 w1' w2 w2' : world) out1 out2 :
  analyze_genres f payload w1 = (Ok out1, w1') ->
  analyze_genres g payload w2 = (Ok out2, w2') ->
  dict_keys out1 = dict_keys out2.
Proof.
  intros H1 H2.
  destruct (analyze_genres_cases f payload w1) as [(l & Ec & _)|[He|He]].
  - rewrite (analyze_genres_keys f _ _ _ _ _ Ec H1).
    now rewrite (analyze_genres_keys g _ _ _ _ _ Ec H2).
  - destruct (analyze_genres_cases g payload w2)
      as [(l & Ec & _)|[He2|He2]].
    + rewrite (analyze_genres_keys f _ _ _ _ _ Ec H1).
      now rewrite (analyze_genres_keys g _ _ _ _ _ Ec H2).
    + rewrite H1 in He. rewrite H2 in He2.
      injection He as -> _. injection He2 as -> _. reflexivity.
    + rewrite H2 in He2. discriminate.
  - rewrite H1 in He. discriminate.
Qed.

Lemma final_scores_loop_values (Pf : final_score -> Prop)
  (st : session_state) (names : list value) :
  (forall n, In n names -> Pf (final_score_for st n)) ->
  forall acc,
    Forall Pf (dict_values acc) ->
    Forall Pf (dict_values (final_scores_loop st names acc)).
Proof.
  induction names as [|n names IH]; intros Hn acc Ha; simpl.
  - exact Ha.
  - apply IH; [intros m Hm; apply Hn; now right|].
    apply Forall_dict_set; [exact Ha|]. apply Hn. now left.
Qed.

Section Run.

Context {RT : Runtime}.
Context {P : Providers}.

Lemma run_analysis_ok (genres google_api_key twitter_bearer_token : value)
  (add_tweet_analysis : bool) (st st' : session_state) (w w' : world) :
  truthy genres = true ->
  run_analysis genres google_api_key twitter_bearer_token add_tweet_analysis
    st w = (Ok st', w') ->
  exists demand competition social w1 w2,
    analyze_demand genres google_api_key w = (Ok demand, w1)
    /\ analyze_genre_competition genres VNone VNone w1 = (Ok competition, w2)
    /\ (if add_tweet_analysis
        then analyze_genre_social genres twitter_bearer_token w2
             = (Ok social, w')
        else social = social_data st /\ w' = w2)
    /\ st' = calculate_final_scores
               (SessionState demand competition social (final_scores st)).
Proof.
  intros Ht H. unfold run_analysis in H. rewrite Ht in H.
  apply bind_ok in H as (demand & w1 & Hd & H).
  apply bind_ok in H as (competition & w2 & Hc & H).
  apply bind_ok in H as (social & w3 & Hs & H).
  unfold ret in H. injection H as <- <-.
  exists demand, competition, social, w1, w2.
  repeat split; try assumption.
  destruct add_tweet_analysis; [exact Hs|].
  unfold ret in Hs. now injection Hs as <- <-.
Qed.

End Run.

(** X18. The dashboard calls [analyze_genre_competition] without API keys,
    so in every run that completes the competition-ease component of every
    final score is 100, whatever the fetchers are: the total is
    0.4 x demand + 40 + 0.2 x SNS for a genre with a social result and
    0.5 x demand + 50 otherwise, and the genres are ranked by their demand
    and SNS scores alone. *)
Theorem competition_component_of_a_run_is_100 :
  forall (RT : Runtime) (P : Providers)
         (genres google_api_key twitter_bearer_token : value)
         (add_tweet_analysis : bool) (st st' : session_state)
         (w w' : world),
    truthy genres = true ->
    run_analysis genres google_api_key twitter_bearer_token
      add_tweet_analysis st w = (Ok st', w') ->
    Forall (fun fs =>
              competition_score_of fs == 100
              /\ total_score fs
                 == match sns_score_of fs with
                    | Some s =>
                        demand_score_of fs * (4 # 10) + 40 + s * (2 # 10)
                    | None => demand_score_of fs * (5 # 10) + 50
                    end)
      (dict_values (final_scores st')).
Proof.
  intros RT P genres google_api_key twitter_bearer_token add_tweet_analysis st st' w w'.
  intros Ht H.
  apply (run_analysis_ok _ _ _ _ _ _ _ _ Ht) in H
    as (demand & competition & social & w1 & w2 & Hd & Hc & _ & ->).
  cbn [calculate_final_scores final_scores demand_data].
  apply final_scores_loop_values; [|constructor].
  intros n Hn.
  assert (Hh : hashable n = true).
  { pose proof (analyze_genres_keys_hashable _ _ _ _ _ Hd) as Hk.
    rewrite Forall_forall in Hk. now apply Hk. }
  unfold analyze_demand, analyze_genre_competition in Hd, Hc.
  rewrite (analyze_genres_same_keys _ _ _ _ _ _ _ _ _ Hd Hc) in Hn.
  destruct (dict_find_of_key competition n Hn Hh) as [r Hr].
  assert (Hs : result_score r == 100).
  { pose proof (analyze_genres_values _
                  (fun r => result_score r == 100
                            /\ Forall (fun e => pydict_find e k_keyword_difficulty = None)
                                 (dict_values (result_entries r)))
                  genres w1 w2 competition
                  (fun n k w0 r w1 =>
                     competition_genre_without_key VNone VNone n k w0 w1 r
                       eq_refl eq_refl) Hc) as Hv.
    rewrite Forall_forall in Hv.
    apply (Hv r). now apply (dict_find_in_values competition n). }
  unfold final_score_for, score_in.
  cbn [competition_data social_data demand_data competition_score_of
       total_score sns_score_of demand_score_of].
  rewrite Hr.
  destruct (dict_mem social n); split; try exact Hs; rewrite Hs; ring.
Qed.

Lemma competition_component_of_a_run_is_100_witness :
  exists st' w',
    @run_analysis Reference.runtime Examples.failing_providers
      Examples.payload_one_genre VNone VNone true
      (SessionState [] [] [] []) Reference.world0 = (Ok st', w')
    /\ List.length (final_scores st') = 1%nat
    /\ Forall (fun fs =>
                 competition_score_of fs == 100
                 /\ total_score fs
                    == match sns_score_of fs with
                       | Some s =>
                           demand_score_of fs * (4 # 10) + 40 + s * (2 # 10)
                       | None => demand_score_of fs * (5 # 10) + 50
                       end)
         (dict_values (final_scores st')).
Proof.
  eexists _, _. split; [vm_compute; reflexivity|].
  split; [reflexivity|].
  eapply (competition_component_of_a_run_is_100 Reference.runtime
            Examples.failing_providers Examples.payload_one_genre VNone VNone
            true (SessionState [] [] [] []) _ Reference.world0);
    [reflexivity|vm_compute; reflexivity].
Defined.

(** X19. A run with the Twitter/X analysis switched off does not clear the
    social results of the session: [social_data] stays what it was, and a
    genre of the new run whose name is a key of the old social results gets
    the old SNS score in its final score (and the weights 0.4/0.4/0.2),
    the others get none. *)
Theorem run_without_twitter_analysis_keeps_old_social_data :
  forall (RT : Runtime) (P : Providers)
         (genres google_api_key twitter_bearer_token : value)
         (st st' : session_state) (w w' : world),
    truthy genres = true ->
    run_analysis genres google_api_key twitter_bearer_token false st w
    = (Ok st', w') ->
    social_data st' = social_data st
    /\ forall genre_name fs,
         dict_find (final_scores st') genre_name = Some fs ->
         sns_score_of fs
         = (if dict_mem (social_data st) genre_name
            then Some (score_in (social_data st) genre_name) else None).
Proof.
  intros RT P genres google_api_key twitter_bearer_token st st' w w'.
  intros Ht H.
  apply (run_analysis_ok _ _ _ _ _ _ _ _ Ht) in H
    as (demand & competition & social & w1 & w2 & _ & _ & [-> _] & ->).
  split; [reflexivity|]. intros n fs Hf.
  cbn [calculate_final_scores final_scores demand_data] in Hf.
  rewrite final_scores_loop_find in Hf.
  destruct (existsb _ _); [|discriminate]. injection Hf as <-.
  unfold final_score_for. cbn [social_data sns_score_of].
  now destruct (dict_mem (social_data st) n).
Qed.

Lemma run_without_twitter_analysis_keeps_old_social_data_witness :
  exists st' w' fs,
    @run_analysis Reference.runtime source_providers
      Examples.payload_one_genre VNone VNone false
      Examples.state_with_three_axes Reference.world0 = (Ok st', w')
    /\ social_data st' = social_data Examples.state_with_three_axes
    /\ dict_find (final_scores st') (VStr (py "X")) = Some fs
    /\ sns_score_of fs = Some 50%Q.
Proof.
  eexists _, _, _. split; [vm_compute; reflexivity|].
  destruct (run_without_twitter_analysis_keeps_old_social_data
              Reference.runtime source_providers Examples.payload_one_genre
              VNone VNone Examples.state_with_three_axes _ Reference.world0
              _ eq_refl ltac:(vm_compute; reflexivity)) as [Hs Hf].
  split; [exact Hs|]. split; [vm_compute; reflexivity|].
  apply (Hf (VStr (py "X"))). vm_compute. reflexivity.
Defined.


(** ** Payloads the analyzers accept *)

Section Returns.

Context {RT : Runtime}.
Context {E : Type}.
Variable analyze_one : value -> value -> M (genre_result E).

Lemma entries_loop_returns (entries : list (value * value)) :
  Forall (fun nk =>
            hashable (fst nk) = true
            /\ forall w, exists r w',
                 analyze_one (fst nk) (snd nk) w = (Ok r, w')) entries ->
  forall acc w,
    exists out w', entries_loop analyze_one entries acc w = (Ok out, w').
Proof.
  induction 1 as [|[n k] rest [Hh Hr] _ IH]; intros acc w.
  - now exists acc, w.
  - cbn [entries_loop]. unfold bind at 1. cbn [fst snd] in Hh, Hr.
    destruct (Hr w) as (r & w1 & ->).
    unfold bind, lift, setitem. rewrite Hh. apply IH.
Qed.

Lemma analyze_genres_returns (genres : list value) (w : world) :
  Forall (fun nk =>
            hashable (fst nk) = true
            /\ forall w, exists r w',
                 analyze_one (fst nk) (snd nk) w = (Ok r, w'))
    (kept_entries genres) ->
  exists out w',
    analyze_genres analyze_one (VList genres) w = (Ok out, w')
    /\ dict_keys out = first_occurrences (map fst (kept_entries genres)).
Proof.
  intros H. rewrite analyze_genres_list.
  destruct (entries_loop_returns _ H [] w) as (out & w' & E0).
  exists out, w'. split; [exact E0|].
  now apply entries_loop_keys in E0.
Qed.

End Returns.

Lemma well_formed_kept_entries (genres : list value) :
  Forall well_formed_entry genres ->
  Forall (fun nk =>
            hashable (fst nk) = true
            /\ exists ks, snd nk = VList ks /\ Forall mockable ks)
    (kept_entries genres).
Proof.
  induction 1 as [|genre rest Hg _ IH]; [constructor|].
  cbn [kept_entries]. unfold well_formed_entry in Hg.
  destruct (kept_entry genre) as [[n k]|]; [|exact IH].
  constructor; [exact Hg|exact IH].
Qed.

Lemma well_formed_analysis_returns {RT : Runtime} {E : Type}
  (analyze_one : value -> value -> M (genre_result E))
  (genres : list value) (w : world) :
  Forall well_formed_entry genres ->
  (forall n ks w0,
      Forall mockable ks ->
      exists r w', analyze_one n (VList ks) w0 = (Ok r, w')) ->
  exists out w',
    analyze_genres analyze_one (VList genres) w = (Ok out, w')
    /\ dict_keys out = first_occurrences (map fst (kept_entries genres)).
Proof.
  intros Hw Hf. apply analyze_genres_returns.
  apply well_formed_kept_entries in Hw.
  eapply Forall_impl; [|exact Hw].
  intros [n k] (Hh & ks & Hk & Hm). cbn [fst snd] in *. subst k.
  split; [exact Hh|]. intros w0. now apply Hf.
Qed.

Lemma mockable_hashable (keyword : value) :
  mockable keyword -> hashable keyword = true.
Proof. now intros (k & bytes & -> & _). Qed.

Section SourceRuns.

Context {RT : Runtime}.

#[local] Existing Instance source_providers.

Lemma competition_genre_returns (k1 k2 genre_name : value)
  (keywords : list value) (w : world) :
  Forall mockable keywords ->
  exists r w',
    competition_genre k1 k2 genre_name (VList keywords) w = (Ok r, w').
Proof.
  intros Hm. unfold competition_genre, analyze_competition, bind, lift.
  cbn [py_iter].
  destruct (competition_loop_isolates keywords k1 k2 Hm [] w)
    as (d & w1 & El & _); [discriminate|].
  rewrite El. apply competition_loop_source in El; [|constructor].
  destruct (mean_field_bounds 0 100 d k_keyword_difficulty (VInt 0))
    as (avg & -> & _); [lra|exact El|].
  now eexists _, _.
Qed.

Lemma social_genre_returns (token genre_name : value)
  (keywords : list value) (w : world) :
  Forall mockable keywords ->
  exists r w', social_genre token genre_name (VList keywords) w = (Ok r, w').
Proof.
  intros Hm. unfold social_genre, analyze_twitter_engagement, bind, lift.
  cbn [py_iter].
  destruct (twitter_loop_isolates keywords token Hm [] w)
    as (d & w1 & El & _); [discriminate|].
  rewrite El. apply twitter_loop_source in El; [|constructor].
  destruct (mean_field_nonneg d k_tweets (VInt 0)) as (at_ & -> & _).
  { eapply Forall_impl; [|exact El]. intros e (H & _). exact H. }
  destruct (mean_field_nonneg d k_engagement (VInt 0)) as (ae & -> & _).
  { eapply Forall_impl; [|exact El]. intros e (_ & H & _). exact H. }
  destruct (mean_sentiment_bounds d) as (as_ & -> & _).
  { eapply Forall_impl; [|exact El]. intros e (_ & _ & H). exact H. }
  now eexists _, _.
Qed.

Lemma demand_genre_returns (google_api_key genre_name : value)
  (keywords : list value) (w : world) :
  (forall n, exists n', trend_req n = (Ok tt, n')) ->
  Forall mockable keywords ->
  exists r w',
    demand_genre google_api_key genre_name (VList keywords) w = (Ok r, w').
Proof.
  intros Hs Hm. destruct (Hs (net_state w)) as [n1 Hn1].
  destruct (analyze_trends_returns keywords w n1 Hn1) as (td & w1 & Htd).
  unfold demand_genre. unfold bind at 1. rewrite Htd.
  unfold get_search_volume, bind, lift. cbn [py_iter].
  destruct (search_volume_loop_spec keywords [] w1) as (sv & w2 & -> & _).
  destruct (keyword_result_loop_hashable keywords td sv) with (analysis := @nil (value * keyword_result))
    as (analysis & -> & _).
  - eapply Forall_impl; [|exact Hm]. apply mockable_hashable.
  - now eexists _, _.
Qed.

End SourceRuns.

(** X20. A list payload in which every entry that passes the filters has
    a hashable name and a list of keywords that are strings with a UTF-8
    form is analysed without an exception, with or without API keys (the
    fetchers being the ones of the source): the competition and the social
    analysis return, and so does the demand analysis when the trends
    session opens; each returns one result per distinct name, in order of
    first occurrence. *)
Theorem well_formed_payload_is_analysed :
  forall (RT : Runtime) (genres : list value)
         (google_api_key semrush_api_key ubersuggest_api_key
          twitter_bearer_token : value) (w : world),
    Forall well_formed_entry genres ->
    (exists out w',
        @analyze_genre_competition RT source_providers (VList genres)
          semrush_api_key ubersuggest_api_key w = (Ok out, w')
        /\ dict_keys out = first_occurrences (map fst (kept_entries genres)))
    /\ (exists out w',
           @analyze_genre_social RT source_providers (VList genres)
             twitter_bearer_token w = (Ok out, w')
           /\ dict_keys out
              = first_occurrences (map fst (kept_entries genres)))
    /\ ((forall n, exists n', trend_req n = (Ok tt, n')) ->
        exists out w',
          analyze_demand (VList genres) google_api_key w = (Ok out, w')
          /\ dict_keys out
             = first_occurrences (map fst (kept_entries genres))).
Proof.
  intros RT genres google_api_key k1 k2 token w Hw.
  unfold analyze_genre_competition, analyze_genre_social, analyze_demand.
  split; [|split; [|intros Hs]];
    apply well_formed_analysis_returns; try exact Hw; intros n ks w0 Hm.
  - now apply competition_genre_returns.
  - now apply social_genre_returns.
  - now apply demand_genre_returns.
Qed.

Lemma well_formed_payload_is_analysed_witness :
  (exists out w',
      @analyze_genre_competition Reference.runtime source_providers
        (VList [Examples.entry "X" ["a"; "b"]%string; VInt 7;
                VStr (py "旅行")])
        (VStr (py "key")) VNone Reference.world0 = (Ok out, w')
      /\ dict_keys out = [VStr (py "X"); VStr (py "旅行")])
  /\ (exists out w',
         @analyze_demand Reference.runtime
           (VList [Examples.entry "X" ["a"; "b"]%string; VInt 7;
                   VStr (py "旅行")])
           VNone Reference.world0 = (Ok out, w')
         /\ dict_keys out = [VStr (py "X"); VStr (py "旅行")]).
Proof.
  destruct (well_formed_payload_is_analysed Reference.runtime
              [Examples.entry "X" ["a"; "b"]%string; VInt 7;
               VStr (py "旅行")]
              VNone (VStr (py "key")) VNone VNone Reference.world0)
    as (Hc & _ & Hd).
  - assert (Hm : forall k, encode k <> None -> mockable (VStr k)).
    { intros k Hk. destruct (encode k) as [bytes|] eqn:He; [|congruence].
      now exists k, bytes. }
    constructor; [|constructor; [|constructor; [|constructor]]].
    + cbv -[mockable]. split; [reflexivity|]. eexists. split; [reflexivity|].
      constructor; [|constructor; [|constructor]]; apply Hm; discriminate.
    + exact I.
    + cbv -[mockable]. split; [reflexivity|]. eexists. split; [reflexivity|].
      constructor; [|constructor]. apply Hm. discriminate.
  - split; [exact Hc|]. apply Hd. intros n. now exists (S n).
Defined.









(** ** The final scores and the start of an analysis *)

Lemma final_scores_loop_keys (st : session_state) (names : list value) :
  forall acc,
    dict_keys (final_scores_loop st names acc)
    = fold_left add_key names (dict_keys acc).
Proof.
  induction names as [|n names IH]; intros acc; simpl; [reflexivity|].
  now rewrite IH, dict_keys_set.
Qed.

Lemma dict_mem_keys {V : Type} (d : odict V) (k : value) :
  dict_mem d k = existsb (fun k' => key_eqb k' k) (dict_keys d).
Proof.
  unfold dict_mem. induction d as [|[k0 v0] d IH]; simpl; [reflexivity|].
  destruct (key_eqb k0 k); [reflexivity|exact IH].
Qed.

Lemma add_key_distinct (seen : list value) (k : value) :
  distinct_keys seen -> distinct_keys (add_key seen k).
Proof.
  intros Hd. unfold add_key.
  destruct (existsb (fun k' => key_eqb k' k) seen) eqn:Ex; [exact Hd|].
  intros pre k' post Heq.
  destruct (exists_last (l := k' :: post) ltac:(discriminate))
    as (front & x & Hf).
  rewrite Hf, app_assoc in Heq. apply app_inj_tail in Heq as [Hs <-].
  destruct front as [|y front].
  - injection Hf as -> _. rewrite app_nil_r in Hs. now subst pre.
  - injection Hf as <- _. now apply (Hd pre k' front).
Qed.

Lemma fold_add_key_distinct (l seen : list value) :
  distinct_keys seen -> distinct_keys (fold_left add_key l seen).
Proof.
  revert seen. induction l as [|k l IH]; intros seen Hd; [exact Hd|].
  apply IH. now apply add_key_distinct.
Qed.

Lemma fold_add_key_of_distinct (l seen : list value) :
  distinct_keys (seen ++ l) -> fold_left add_key l seen = seen ++ l.
Proof.
  revert seen. induction l as [|k l IH]; intros seen Hd; simpl.
  - now rewrite app_nil_r.
  - unfold add_key at 2. rewrite (Hd seen k l eq_refl).
    rewrite IH; rewrite <- app_assoc; [reflexivity|exact Hd].
Qed.

(** The distinct keys of a list are their own distinct keys. *)
Lemma first_occurrences_idempotent (l : list value) :
  first_occurrences (first_occurrences l) = first_occurrences l.
Proof.
  unfold first_occurrences at 1.
  apply (fold_add_key_of_distinct (first_occurrences l) []).
  apply fold_add_key_distinct. intros pre k post H.
  destruct pre; discriminate.
Qed.

(** X23. The final scores cover exactly the genres of the demand results:
    [calculate_final_scores] gives a final score to a name if and only if
    the demand results have it, in the order of the demand results; a genre
    that only has competition or social results gets none, and the demand,
    competition and social results are left as they are. *)
Theorem final_scores_cover_the_demand_genres :
  forall (st : session_state),
    dict_keys (final_scores (calculate_final_scores st))
    = first_occurrences (dict_keys (demand_data st))
    /\ (forall genre_name,
           dict_mem (final_scores (calculate_final_scores st)) genre_name
           = dict_mem (demand_data st) genre_name)
    /\ demand_data (calculate_final_scores st) = demand_data st
    /\ competition_data (calculate_final_scores st) = competition_data st
    /\ social_data (calculate_final_scores st) = social_data st.
Proof.
  intros st. cbn [calculate_final_scores final_scores demand_data
                  competition_data social_data].
  split; [apply final_scores_loop_keys|]. split; [|now repeat split].
  intros n. unfold dict_mem at 1. rewrite final_scores_loop_find.
  rewrite dict_mem_keys. now destruct (existsb _ _).
Qed.

Section StartFacts.

Context {RT : Runtime}.
Context {A : Assistant}.

#[local] Existing Instance source_providers.

Lemma dummy_genres_well_formed : Forall well_formed_entry dummy_genres.
Proof.
  assert (Hm : forall k, encode k <> None -> mockable (VStr k)).
  { intros k Hk. destruct (encode k) as [bytes|] eqn:He; [|congruence].
    now exists k, bytes. }
  constructor; [|constructor].
  cbv -[mockable]. split; [reflexivity|]. eexists. split; [reflexivity|].
  repeat (constructor; [apply Hm; discriminate|]). constructor.
Qed.

Lemma run_analysis_returns (genres : list value)
  (google_api_key twitter_bearer_token : value) (add_tweet_analysis : bool)
  (st : session_state) (w : world) :
  (forall n, exists n', trend_req n = (Ok tt, n')) ->
  Forall well_formed_entry genres ->
  genres <> [] ->
  exists st' w',
    run_analysis (VList genres) google_api_key twitter_bearer_token
      add_tweet_analysis st w = (Ok st', w')
    /\ dict_keys (final_scores st')
       = first_occurrences (map fst (kept_entries genres)).
Proof.
  intros Hs Hw Hn. unfold run_analysis.
  destruct genres as [|g genres]; [congruence|]. cbn [truthy].
  destruct (well_formed_analysis_returns (demand_genre google_api_key)
              (g :: genres) w Hw) as (demand & w1 & Ed & Hk).
  { intros n ks w0 Hm. now apply demand_genre_returns. }
  destruct (well_formed_analysis_returns (competition_genre VNone VNone)
              (g :: genres) w1 Hw) as (competition & w2 & Ec & _).
  { intros n ks w0 Hm. now apply competition_genre_returns. }
  destruct (well_formed_analysis_returns (social_genre twitter_bearer_token)
              (g :: genres) w2 Hw) as (social & w3 & Es & _).
  { intros n ks w0 Hm. now apply social_genre_returns. }
  unfold analyze_demand, analyze_genre_competition, analyze_genre_social.
  unfold bind at 1. rewrite Ed. unfold bind at 1. rewrite Ec.
  destruct add_tweet_analysis.
  - unfold bind at 1. rewrite Es. eexists _, _. split; [reflexivity|].
    cbn [calculate_final_scores final_scores demand_data].
    rewrite final_scores_loop_keys, Hk. apply first_occurrences_idempotent.
  - eexists _, _. split; [reflexivity|].
    cbn [calculate_final_scores final_scores demand_data].
    rewrite final_scores_loop_keys, Hk. apply first_occurrences_idempotent.
Qed.

End StartFacts.

(** X24. A failure of the assistant is never reported: when the request
    raises, [suggest_genres] answers with its dummy genre, which passes the
    filters of the analyzers, so the dashboard runs the whole analysis on
    it and ends with the message of completion, the final scores holding
    the dummy genre alone (the fetchers being the ones of the source and
    the trends session opening). The message that the generation failed is
    not reached on this path. *)
Theorem assistant_failure_is_analysed_as_the_dummy_genre :
  forall (RT : Runtime) (A : Assistant)
         (anthropic_api_key num_suggestions google_api_key
          twitter_bearer_token : value) (add_tweet_analysis : bool)
         (genres : list value) (st : session_state) (w w1 : world)
         (e : exn),
    truthy anthropic_api_key = true ->
    messages_create anthropic_api_key num_suggestions w = (Raise e, w1) ->
    (forall n, exists n', trend_req n = (Ok tt, n')) ->
    exists st' w',
      @start_analysis RT source_providers A anthropic_api_key
        num_suggestions google_api_key twitter_bearer_token
        add_tweet_analysis genres st w
      = (Ok (Completed, dummy_genres, st'), w')
      /\ dict_keys (final_scores st')
         = [VStr (py "サステナブルファッション")].
Proof.
  intros RT A anthropic_api_key num_suggestions google_api_key twitter_bearer_token add_tweet_analysis genres st w w1 e.
  intros Hk Hm Hs. unfold start_analysis. rewrite Hk.
  unfold bind at 1. unfold suggest_genres at 1, try_except, bind at 1.
  rewrite Hm. cbn [ret truthy dummy_genres].
  fold dummy_genres.
  destruct (run_analysis_returns dummy_genres google_api_key
              twitter_bearer_token add_tweet_analysis st w1 Hs
              dummy_genres_well_formed ltac:(discriminate))
    as (st' & w' & E0 & Hkeys).
  unfold bind. rewrite E0. exists st', w'. split; [reflexivity|].
  rewrite Hkeys. reflexivity.
Qed.

Lemma assistant_failure_is_analysed_as_the_dummy_genre_witness :
  exists st' w',
    @start_analysis Reference.runtime source_providers
      Assistants.unreachable (VStr (py "key")) (VInt 5) VNone VNone true []
      (SessionState [] [] [] []) Reference.world0
    = (Ok (Completed, dummy_genres, st'), w')
    /\ dict_keys (final_scores st')
       = [VStr (py "サステナブルファッション")].
Proof.
  apply (assistant_failure_is_analysed_as_the_dummy_genre Reference.runtime
           Assistants.unreachable (VStr (py "key")) (VInt 5) VNone VNone
           true [] (SessionState [] [] [] []) Reference.world0
           Reference.world0 (ProviderError 401)).
  - reflexivity.
  - reflexivity.
  - intros n. now exists (S n).
Defined.


(** ** The ranking *)

From Stdlib Require Import Permutation Sorted.

Section Ranking.

Context {A : Type}.
Variable key : A -> Q.

Lemma insert_desc_perm (x : A) (l : list A) :
  Permutation (insert_desc key x l) (x :: l).
Proof.
  induction l as [|y l IH]; simpl; [reflexivity|].
  destruct (Qle_bool (key y) (key x)); [reflexivity|].
  rewrite IH. apply perm_swap.
Qed.

Lemma sorted_desc_perm (l : list A) : Permutation (sorted_desc key l) l.
Proof.
  induction l as [|x l IH]; simpl; [reflexivity|].
  rewrite insert_desc_perm. now constructor.
Qed.

Lemma insert_desc_sorted (x : A) (l : list A) :
  StronglySorted (fun a b => (key b <= key a)%Q) l ->
  StronglySorted (fun a b => (key b <= key a)%Q) (insert_desc key x l).
Proof.
  induction 1 as [|y l Hs IH Hy]; simpl.
  - repeat constructor.
  - destruct (Qle_bool (key y) (key x)) eqn:E.
    + apply Qle_bool_iff in E. constructor; [now constructor|].
      constructor; [exact E|].
      eapply Forall_impl; [|exact Hy]. intros z Hz. cbv beta in *. lra.
    + assert (Hlt : (key x < key y)%Q).
      { apply Qnot_le_lt. intros H. apply Qle_bool_iff in H. congruence. }
      constructor; [exact IH|].
      rewrite (insert_desc_perm x l). constructor; [lra|exact Hy].
Qed.

Lemma sorted_desc_sorted (l : list A) :
  StronglySorted (fun a b => (key b <= key a)%Q) (sorted_desc key l).
Proof.
  induction l as [|x l IH]; simpl; [constructor|].
  now apply insert_desc_sorted.
Qed.

(** In a sorted list, what comes first has the larger key. *)
Lemma sorted_firstn_skipn (n : nat) (l : list A) (a b : A) :
  StronglySorted (fun a b => (key b <= key a)%Q) l ->
  In a (firstn n l) -> In b (skipn n l) -> (key b <= key a)%Q.
Proof.
  intros Hs. revert n. induction Hs as [|y l Hs IH Hy]; intros n Ha Hb.
  - rewrite firstn_nil in Ha. destruct Ha.
  - destruct n as [|n]; [destruct Ha|]. cbn [firstn skipn] in Ha, Hb.
    destruct Ha as [<-|Ha]; [|now apply (IH n)].
    rewrite Forall_forall in Hy. apply Hy.
    rewrite <- (firstn_skipn n l). apply in_or_app. now right.
Qed.

End Ranking.

(** X25. The second tab ranks the genres by their total: the table holds
    every final score once, in an order in which no total is below a later
    one, and the radar charts are drawn for the first four of it (for all
    when there are fewer), so no genre left without a chart has a higher
    total than a charted one. *)
Theorem charted_genres_have_the_highest_totals :
  forall (st : session_state),
    Permutation (sorted_genres st) (final_scores st)
    /\ StronglySorted
         (fun a b => (total_score (snd b) <= total_score (snd a))%Q)
         (sorted_genres st)
    /\ List.length (charted_genres st)
       = Nat.min 4 (List.length (final_scores st))
    /\ forall a b,
         In a (charted_genres st) ->
         In b (sorted_genres st) -> ~ In b (charted_genres st) ->
         (total_score (snd b) <= total_score (snd a))%Q.
Proof.
  intros st. unfold charted_genres, sorted_genres.
  set (key := fun x : value * final_score => total_score (snd x)).
  pose proof (sorted_desc_perm key (final_scores st)) as Hp.
  pose proof (sorted_desc_sorted key (final_scores st)) as Hs.
  split; [exact Hp|]. split; [exact Hs|]. split.
  - rewrite length_firstn. now rewrite (Permutation_length Hp).
  - intros a b Ha Hb Hnb.
    apply (sorted_firstn_skipn key 4 _ a b Hs Ha).
    rewrite <- (firstn_skipn 4 (sorted_desc key (final_scores st))) in Hb.
    apply in_app_or in Hb as [Hb|Hb]; [contradiction|exact Hb].
Qed.


(** ** Entries whose keywords are a string *)

Ltac split_matches :=
  repeat match goal with
         | |- context [match ?x with _ => _ end] =>
             lazymatch x with
             | context [match _ with _ => _ end] => fail
             | _ => destruct x eqn:?
             end
         end.

Section StringEntries.

Context {RT : Runtime}.
Context {P : Providers}.

(** However a keyword is handled, what the step returns is the dict with
    an entry written under the keyword. *)
Lemma competition_step_writes (results : odict pydict)
  (keyword k1 k2 : value) (w w' : world) (results' : odict pydict) :
  try_except (competition_try results keyword k1 k2)
    (fun _ => competition_except results keyword) w = (Ok results', w') ->
  exists e, results' = dict_set results keyword e.
Proof.
  unfold try_except, competition_try, competition_except, provider_entry,
    bind, lift, setitem, ret.
  split_matches; intros H; try discriminate;
    injection H as <- _; eexists; reflexivity.
Qed.

Lemma twitter_step_writes (results : odict pydict)
  (keyword token : value) (w w' : world) (results' : odict pydict) :
  try_except (twitter_try results keyword token)
    (fun _ => twitter_except results keyword) w = (Ok results', w') ->
  exists e, results' = dict_set results keyword e.
Proof.
  unfold try_except, twitter_try, twitter_except, twitter_entry,
    bind, lift, setitem, ret.
  split_matches; intros H; try discriminate;
    injection H as <- _; eexists; reflexivity.
Qed.

Lemma keyword_loop_keys
  (step : odict pydict -> value -> M (odict pydict))
  (keywords : list value) :
  (forall results keyword w results' w',
      step results keyword w = (Ok results', w') ->
      exists e, results' = dict_set results keyword e) ->
  forall results w results' w',
    keyword_loop step keywords results w = (Ok results', w') ->
    dict_keys results' = fold_left add_key keywords (dict_keys results).
Proof.
  intros Hstep.
  induction keywords as [|keyword rest IH]; intros results w results' w' H.
  - simpl in H. now injection H as <- _.
  - cbn [keyword_loop] in H. apply bind_ok in H as (r1 & w1 & Hs & H).
    apply Hstep in Hs as [e ->]. apply IH in H.
    now rewrite H, dict_keys_set.
Qed.

(** The entries of a competition result are keyed by the distinct
    keywords the loop ran over. *)
Lemma competition_genre_keys (k1 k2 genre_name keywords : value)
  (w w' : world) (r : genre_result pydict) (ks : list value) :
  py_iter keywords = Ok ks ->
  competition_genre k1 k2 genre_name keywords w = (Ok r, w') ->
  dict_keys (result_entries r) = first_occurrences ks.
Proof.
  intros Hks H. unfold competition_genre in H.
  apply bind_ok in H as (d & w1 & Hd & H).
  apply bind_ok in H as (avg & w2 & _ & H).
  unfold ret in H. injection H as <- _. cbn [result_entries].
  unfold analyze_competition in Hd.
  apply bind_ok in Hd as (ks' & w0 & Hi & Hd).
  apply lift_ok in Hi as [Hi ->]. rewrite Hks in Hi. injection Hi as <-.
  rewrite competition_loop_keyword_loop in Hd.
  apply keyword_loop_keys in Hd; [exact Hd|].
  intros results keyword w3 results' w4. apply competition_step_writes.
Qed.

Lemma social_genre_keys (token genre_name keywords : value)
  (w w' : world) (r : genre_result pydict) (ks : list value) :
  py_iter keywords = Ok ks ->
  social_genre token genre_name keywords w = (Ok r, w') ->
  dict_keys (result_entries r) = first_occurrences ks.
Proof.
  intros Hks H. unfold social_genre in H.
  apply bind_ok in H as (d & w1 & Hd & H).
  apply bind_ok in H as (a1 & w2 & _ & H).
  apply bind_ok in H as (a2 & w3 & _ & H).
  apply bind_ok in H as (a3 & w4 & _ & H).
  unfold ret in H. injection H as <- _. cbn [result_entries].
  unfold analyze_twitter_engagement in Hd.
  apply bind_ok in Hd as (ks' & w0 & Hi & Hd).
  apply lift_ok in Hi as [Hi ->]. rewrite Hks in Hi. injection Hi as <-.
  rewrite twitter_loop_keyword_loop in Hd.
  apply keyword_loop_keys in Hd; [exact Hd|].
  intros results keyword w5 results' w6. apply twitter_step_writes.
Qed.

End StringEntries.

Section StringEntriesDemand.

Context {RT : Runtime}.

Lemma char_keywords_iter (s : str) :
  py_iter (VStr s) = Ok (char_keywords s).
Proof.
  unfold py_iter, chars, char_keywords. now rewrite map_map.
Qed.

Lemma char_keywords_hashable (s : str) :
  Forall (fun k => hashable k = true) (char_keywords s).
Proof. unfold char_keywords. apply Forall_map. now apply Forall_forall. Qed.

(** What the demand analysis of a genre returns for a string of
    keywords. *)
Lemma demand_genre_string (google_api_key genre_name : value) (s : str)
  (w w' : world) (r : genre_result keyword_result) :
  s <> [] ->
  demand_genre google_api_key genre_name (VStr s) w = (Ok r, w') ->
  exists trends_data search_volume,
    dict_keys (result_entries r) = first_occurrences (char_keywords s)
    /\ (forall c, In c s ->
          dict_find (result_entries r) (VStr [c])
          = Some (keyword_entry trends_data search_volume (VStr [c])))
    /\ (result_score r * inject_Z (Z.of_nat (List.length s))
        == (3 # 10)
           * Qsum (List.map (interest_of trends_data) (char_keywords s))
           + (5 # 10)
             * inject_Z (List.fold_right Z.add 0%Z
                           (List.map (volume_of search_volume)
                              (char_keywords s)))
           + 20 * inject_Z (Z.of_nat (List.length
                    (List.filter (is_rising trends_data)
                       (char_keywords s)))))%Q.
Proof.
  intros Hs H. unfold demand_genre in H.
  apply bind_ok in H as (td & w1 & _ & H).
  apply bind_ok in H as (sv & w2 & _ & H).
  apply bind_ok in H as (ks & w3 & Hks & H).
  apply lift_ok in Hks as [Hks ->].
  rewrite char_keywords_iter in Hks. injection Hks as <-.
  apply bind_ok in H as (analysis & w4 & Ha & H).
  apply lift_ok in Ha as [Ha ->].
  unfold ret in H. injection H as <- _.
  cbn [result_entries result_score].
  destruct (keyword_result_loop_hashable (char_keywords s) td sv
              (char_keywords_hashable s) [])
    as (analysis' & Ha' & Hkeys & Hfind).
  rewrite Ha in Ha'. injection Ha' as <-.
  exists td, sv. split; [exact Hkeys|]. split.
  - intros c Hin. rewrite Hfind.
    assert (He : existsb (fun k0 => key_eqb k0 (VStr [c])) (char_keywords s)
                 = true).
    { apply existsb_exists. exists (VStr [c]). split.
      - exact (in_map (fun c0 => VStr [c0]) s c Hin).
      - simpl. now rewrite N.eqb_refl. }
    now rewrite He.
  - replace (List.length s) with (List.length (char_keywords s))
      by apply length_map.
    apply demand_score_times_length.
    destruct s; [congruence|discriminate].
Qed.

(** The demand analysis of a genre returns for a string of keywords when
    the trends session opens. *)
Lemma demand_genre_string_returns (google_api_key genre_name : value)
  (s : str) (w : world) (n1 : net) :
  trend_req (net_state w) = (Ok tt, n1) ->
  exists trends_data w1 search_volume w2 r,
    analyze_trends (VStr s) w = (Ok trends_data, w1)
    /\ get_search_volume (VStr s) google_api_key w1 = (Ok search_volume, w2)
    /\ demand_genre google_api_key genre_name (VStr s) w = (Ok r, w2)
    /\ r = GenreResult genre_name (result_entries r)
             (demand_score trends_data search_volume (char_keywords s))
    /\ keyword_result_loop (char_keywords s) trends_data search_volume []
       = Ok (result_entries r).
Proof.
  intros Hreq.
  destruct (trends_loop_returns
              (List.map (fun i => VStr (slice5 s i)) (range5 (List.length s)))
              [] (World (rng_state w) n1)) as (td & w1 & Ht).
  destruct (search_volume_loop_returns (char_keywords s) [] w1)
    as (sv & w2 & Hv).
  destruct (keyword_result_loop_hashable (char_keywords s) td sv
              (char_keywords_hashable s) [])
    as (analysis & Ha & _).
  assert (Hat : analyze_trends (VStr s) w = (Ok td, w1)).
  { unfold analyze_trends, bind, with_net, lift. rewrite Hreq. exact Ht. }
  assert (Hav : get_search_volume (VStr s) google_api_key w1 = (Ok sv, w2)).
  { unfold get_search_volume, bind, lift. rewrite char_keywords_iter.
    exact Hv. }
  exists td, w1, sv, w2,
    (GenreResult genre_name analysis (demand_score td sv (char_keywords s))).
  split; [exact Hat|]. split; [exact Hav|]. split; [|split].
  - unfold demand_genre, bind. rewrite Hat, Hav. unfold lift.
    rewrite char_keywords_iter, Ha. reflexivity.
  - reflexivity.
  - exact Ha.
Qed.

End StringEntriesDemand.

Section EntryOfList.

Context {RT : Runtime}.
Context {E : Type}.
Variable analyze_one : value -> value -> M (genre_result E).

(** An entry that is kept and whose name no later entry bears has its
    result in the mapping the analyzer returns. *)
Lemma analyze_genres_entry (before after : list value) (genre : value)
  (n k : value) (w w' : world) out :
  kept_entry genre = Some (n, k) ->
  (forall nk, In nk (kept_entries after) -> key_eqb (fst nk) n = false) ->
  analyze_genres analyze_one (VList (before ++ genre :: after)) w
  = (Ok out, w') ->
  exists w1 r w2,
    analyze_one n k w1 = (Ok r, w2) /\ dict_find out n = Some r.
Proof.
  intros Hk Hn H. rewrite analyze_genres_list, kept_entries_app in H.
  cbn [kept_entries] in H. rewrite Hk in H.
  apply entries_loop_last_write in H as (acc & w1 & r & w2 & _ & Hr & Hf);
    [|exact Hn].
  now exists w1, r, w2.
Qed.

(** A list with a single kept entry is answered with the result of that
    entry alone. *)
Lemma analyze_genres_single (genres : list value) (n k : value)
  (w w' : world) (r : genre_result E) :
  kept_entries genres = [(n, k)] ->
  hashable n = true ->
  analyze_one n k w = (Ok r, w') ->
  analyze_genres analyze_one (VList genres) w = (Ok [(n, r)], w').
Proof.
  intros Hk Hh Hr. rewrite analyze_genres_list, Hk.
  cbn [entries_loop]. unfold bind at 1. rewrite Hr.
  unfold bind, lift, setitem. rewrite Hh. reflexivity.
Qed.

End EntryOfList.

Lemma string_entry_is_kept (d : pydict) (genre_name : value) (s : str) :
  s <> [] ->
  pydict_get d k_genre_name (VStr []) = genre_name ->
  truthy genre_name = true ->
  pydict_get d k_keywords (VList []) = VStr s ->
  kept_entry (VDict d) = Some (genre_name, VStr s).
Proof.
  intros Hs Hn Ht Hk. unfold kept_entry. simpl.
  rewrite Hn, Hk, Ht. destruct s; [congruence|reflexivity].
Qed.

Section StringEntriesSource.

Context {RT : Runtime}.

#[local] Existing Instance source_providers.

Lemma competition_genre_string_returns (k1 k2 genre_name : value) (s : str)
  (w : world) :
  Forall mockable (char_keywords s) ->
  exists r w', competition_genre k1 k2 genre_name (VStr s) w = (Ok r, w').
Proof.
  intros Hm.
  destruct (competition_genre_returns k1 k2 genre_name (char_keywords s) w Hm)
    as (r & w' & H).
  exists r, w'. rewrite <- H.
  unfold competition_genre, analyze_competition.
  now rewrite char_keywords_iter.
Qed.

Lemma social_genre_string_returns (token genre_name : value) (s : str)
  (w : world) :
  Forall mockable (char_keywords s) ->
  exists r w', social_genre token genre_name (VStr s) w = (Ok r, w').
Proof.
  intros Hm.
  destruct (social_genre_returns token genre_name (char_keywords s) w Hm)
    as (r & w' & H).
  exists r, w'. rewrite <- H.
  unfold social_genre, analyze_twitter_engagement.
  now rewrite char_keywords_iter.
Qed.

End StringEntriesSource.

(** C10. An entry whose keyword field is a non-empty string is not
    skipped. The keyword loops of the analyzers run over the characters of
    the string, one keyword per character: [analyze_competition],
    [analyze_twitter_engagement] and [get_search_volume] behave on the
    string as on the list of its one-character strings. When the trends
    session opens, [analyze_demand] analyses the entry: every character has
    its own entry in the keyword analysis, and the demand score is the
    weighted sum of the three per-keyword averages, each a sum over the
    characters divided by the length of the string.

    In the analyzers: wherever the entry stands in the list, the mapping
    an analyzer returns holds a result under the name of the entry (no
    later entry bearing the name), and the entries of that result are keyed
    by the distinct characters of the string; for [analyze_demand] the
    score of that result is the one above. And the result is produced: on
    the list made of the entry alone, [analyze_demand] returns when the
    trends session opens, and [analyze_genre_competition] and
    [analyze_genre_social] (with the fetchers of the source) return when
    the characters have a UTF-8 form. *)
Theorem string_keywords_are_iterated_by_character :
  forall (RT : Runtime) (P : Providers) (s : str),
    s <> [] ->
    (forall (d : pydict) (genre_name : value),
        pydict_get d k_genre_name (VStr []) = genre_name ->
        truthy genre_name = true ->
        pydict_get d k_keywords (VList []) = VStr s ->
        kept_entry (VDict d) = Some (genre_name, VStr s))
    /\ (forall k1 k2 w,
          analyze_competition (VStr s) k1 k2 w
          = analyze_competition (VList (char_keywords s)) k1 k2 w)
    /\ (forall t w,
          analyze_twitter_engagement (VStr s) t w
          = analyze_twitter_engagement (VList (char_keywords s)) t w)
    /\ (forall g w,
          get_search_volume (VStr s) g w
          = get_search_volume (VList (char_keywords s)) g w)
    /\ (forall (google_api_key genre_name : value) (w : world) (n1 : net),
          trend_req (net_state w) = (Ok tt, n1) ->
          exists trends_data w1 search_volume w2 r,
            analyze_trends (VStr s) w = (Ok trends_data, w1)
            /\ get_search_volume (VStr s) google_api_key w1
               = (Ok search_volume, w2)
            /\ demand_genre google_api_key genre_name (VStr s) w = (Ok r, w2)
            /\ dict_keys (result_entries r)
               = first_occurrences (char_keywords s)
            /\ (forall c, In c s ->
                  dict_find (result_entries r) (VStr [c])
                  = Some (keyword_entry trends_data search_volume (VStr [c])))
            /\ (result_score r * inject_Z (Z.of_nat (List.length s))
                == (3 # 10)
                   * Qsum (List.map (interest_of trends_data) (char_keywords s))
                   + (5 # 10)
                     * inject_Z (List.fold_right Z.add 0%Z
                                   (List.map (volume_of search_volume)
                                      (char_keywords s)))
                   + 20 * inject_Z (Z.of_nat (List.length
                            (List.filter (is_rising trends_data)
                               (char_keywords s)))))%Q)
    /\ (forall (d : pydict) (genre_name : value) (before after : list value),
          pydict_get d k_genre_name (VStr []) = genre_name ->
          truthy genre_name = true ->
          pydict_get d k_keywords (VList []) = VStr s ->
          (forall nk, In nk (kept_entries after) ->
                      key_eqb (fst nk) genre_name = false) ->
          (forall google_api_key w w' out,
              analyze_demand (VList (before ++ VDict d :: after))
                google_api_key w = (Ok out, w') ->
              exists r trends_data search_volume,
                dict_find out genre_name = Some r
                /\ dict_keys (result_entries r)
                   = first_occurrences (char_keywords s)
                /\ (forall c, In c s ->
                      dict_find (result_entries r) (VStr [c])
                      = Some (keyword_entry trends_data search_volume
                                (VStr [c])))
                /\ (result_score r * inject_Z (Z.of_nat (List.length s))
                    == (3 # 10)
                       * Qsum (List.map (interest_of trends_data)
                                 (char_keywords s))
                       + (5 # 10)
                         * inject_Z (List.fold_right Z.add 0%Z
                                       (List.map (volume_of search_volume)
                                          (char_keywords s)))
                       + 20 * inject_Z (Z.of_nat (List.length
                                (List.filter (is_rising trends_data)
                                   (char_keywords s)))))%Q)
          /\ (forall k1 k2 w w' out,
                analyze_genre_competition (VList (before ++ VDict d :: after))
                  k1 k2 w = (Ok out, w') ->
                exists r,
                  dict_find out genre_name = Some r
                  /\ dict_keys (result_entries r)
                     = first_occurrences (char_keywords s))
          /\ (forall t w w' out,
                analyze_genre_social (VList (before ++ VDict d :: after))
                  t w = (Ok out, w') ->
                exists r,
                  dict_find out genre_name = Some r
                  /\ dict_keys (result_entries r)
                     = first_occurrences (char_keywords s)))
    /\ (forall (d : pydict) (genre_name : value),
          pydict_get d k_genre_name (VStr []) = genre_name ->
          truthy genre_name = true ->
          hashable genre_name = true ->
          pydict_get d k_keywords (VList []) = VStr s ->
          (forall google_api_key w n1,
              trend_req (net_state w) = (Ok tt, n1) ->
              exists r w',
                analyze_demand (VList [VDict d]) google_api_key w
                = (Ok [(genre_name, r)], w'))
          /\ (Forall mockable (char_keywords s) ->
              (forall k1 k2 w,
                  exists r w',
                    @analyze_genre_competition RT source_providers
                      (VList [VDict d]) k1 k2 w
                    = (Ok [(genre_name, r)], w'))
              /\ (forall t w,
                    exists r w',
                      @analyze_genre_social RT source_providers
                        (VList [VDict d]) t w
                      = (Ok [(genre_name, r)], w')))).
Proof.
  intros RT P s Hs.
  split; [|split; [|split; [|split; [|split; [|split]]]]].
  - intros d genre_name. now apply string_entry_is_kept.
  - intros k1 k2 w. unfold analyze_competition.
    now rewrite char_keywords_iter.
  - intros t w. unfold analyze_twitter_engagement.
    now rewrite char_keywords_iter.
  - intros g w. unfold get_search_volume. now rewrite char_keywords_iter.
  - intros g genre_name w n1 Hreq.
    destruct (demand_genre_string_returns g genre_name s w n1 Hreq)
      as (td & w1 & sv & w2 & r & Hat & Hav & Hr & Er & Ha).
    exists td, w1, sv, w2, r.
    split; [exact Hat|]. split; [exact Hav|]. split; [exact Hr|].
    destruct (keyword_result_loop_hashable (char_keywords s) td sv
                (char_keywords_hashable s) [])
      as (analysis & Ha' & Hkeys & Hfind).
    rewrite Ha in Ha'. injection Ha' as <-.
    split; [exact Hkeys|]. split.
    + intros c Hin. rewrite Hfind.
      assert (He : existsb (fun k0 => key_eqb k0 (VStr [c])) (char_keywords s)
                   = true).
      { apply existsb_exists. exists (VStr [c]). split.
        - exact (in_map (fun c0 => VStr [c0]) s c Hin).
        - simpl. now rewrite N.eqb_refl. }
      now rewrite He.
    + rewrite Er. cbn [result_score].
      replace (List.length s) with (List.length (char_keywords s))
        by apply length_map.
      apply demand_score_times_length.
      destruct s; [congruence|discriminate].
  - intros d genre_name before after Hn Ht Hk Hlast.
    pose proof (string_entry_is_kept d genre_name s Hs Hn Ht Hk) as Hkept.
    split; [|split].
    + intros g w w' out H. unfold analyze_demand in H.
      apply (analyze_genres_entry _ _ _ _ _ _ _ _ _ Hkept Hlast) in H
        as (w1 & r & w2 & Hr & Hf).
      destruct (demand_genre_string g genre_name s w1 w2 r Hs Hr)
        as (td & sv & Hkeys & Hfind & Hscore).
      exists r, td, sv. now repeat split.
    + intros k1 k2 w w' out H. unfold analyze_genre_competition in H.
      apply (analyze_genres_entry _ _ _ _ _ _ _ _ _ Hkept Hlast) in H
        as (w1 & r & w2 & Hr & Hf).
      exists r. split; [exact Hf|].
      apply (competition_genre_keys _ _ _ _ _ _ _ _
               (char_keywords_iter s) Hr).
    + intros t w w' out H. unfold analyze_genre_social in H.
      apply (analyze_genres_entry _ _ _ _ _ _ _ _ _ Hkept Hlast) in H
        as (w1 & r & w2 & Hr & Hf).
      exists r. split; [exact Hf|].
      apply (social_genre_keys _ _ _ _ _ _ _ (char_keywords_iter s) Hr).
  - intros d genre_name Hn Ht Hh Hk.
    pose proof (string_entry_is_kept d genre_name s Hs Hn Ht Hk) as Hkept.
    assert (Hl : kept_entries [VDict d] = [(genre_name, VStr s)])
      by (cbn [kept_entries]; now rewrite Hkept).
    split; [|intros Hm; split].
    + intros g w n1 Hreq.
      destruct (demand_genre_string_returns g genre_name s w n1 Hreq)
        as (td & w1 & sv & w2 & r & _ & _ & Hr & _).
      exists r, w2. unfold analyze_demand.
      exact (analyze_genres_single _ [VDict d] genre_name (VStr s) _ _ r
               Hl Hh Hr).
    + intros k1 k2 w.
      destruct (competition_genre_string_returns k1 k2 genre_name s w Hm)
        as (r & w' & Hr).
      exists r, w'. unfold analyze_genre_competition.
      exact (analyze_genres_single _ [VDict d] genre_name (VStr s) _ _ r
               Hl Hh Hr).
    + intros t w.
      destruct (social_genre_string_returns t genre_name s w Hm)
        as (r & w' & Hr).
      exists r, w'. unfold analyze_genre_social.
      exact (analyze_genres_single _ [VDict d] genre_name (VStr s) _ _ r
               Hl Hh Hr).
Qed.

Lemma string_keywords_are_iterated_by_character_witness :
  exists r w',
    @analyze_demand Reference.runtime
      (VList [VDict [(k_genre_name, VStr (py "X"));
                     (k_keywords, VStr (py "aab"))]])
      VNone Reference.world0
    = (Ok [(VStr (py "X"), r)], w')
    /\ dict_keys (result_entries r) = [VStr (py "a"); VStr (py "b")]
    /\ (result_score r * 3 == (5 # 10) * inject_Z (2100 + 2100 + 748))%Q.
Proof.
  destruct (string_keywords_are_iterated_by_character Reference.runtime
              source_providers (py "aab"))
    as (_ & _ & _ & _ & _ & Hpos & Hret); [discriminate|].
  destruct (Hret [(k_genre_name, VStr (py "X")); (k_keywords, VStr (py "aab"))]
              (VStr (py "X")) eq_refl eq_refl eq_refl eq_refl)
    as [Hd _].
  destruct (Hd VNone Reference.world0 1%nat eq_refl) as (r & w' & Hr).
  exists r, w'. split; [exact Hr|].
  destruct (Hpos [(k_genre_name, VStr (py "X")); (k_keywords, VStr (py "aab"))]
              (VStr (py "X")) [] [] eq_refl eq_refl eq_refl)
    as [Hdemand _]; [intros nk []|].
  destruct (Hdemand VNone Reference.world0 w' _ Hr)
    as (r' & td & sv & Hf & Hkeys & _ & _).
  assert (E : r' = r).
  { cbn [dict_find] in Hf. revert Hf. cbv [key_eqb].
    rewrite str_eqb_refl. now intros [= <-]. }
  subst r'. split; [exact Hkeys|].
  assert (Er : fst (@analyze_demand Reference.runtime
                      (VList [VDict [(k_genre_name, VStr (py "X"));
                                     (k_keywords, VStr (py "aab"))]])
                      VNone Reference.world0)
               = Ok [(VStr (py "X"), r)])
    by now rewrite Hr.
  vm_compute in Er. injection Er as <-. vm_compute. reflexivity.
Defined.

